(** * Homepage-section ordering of the store back end (heavy_main.py)

    A shallow embedding of the four admin handlers
    [add_homepage_section], [list_homepage_sections],
    [edit_homepage_section], [delete_homepage_section] and of the
    storefront handler [public_homepage], together with the part of the
    document store they touch; and of the account routes that work on the
    admins, users and chats: [admin_register], [admin_login],
    [register_google_user], the cart routes [add_to_cart],
    [remove_from_cart], [clear_cart] and the chat routes [send_message],
    [get_messages], [get_chat_by_email], [send_reply], [clear_chat].

    Conventions.
    - A collection is the list of its documents in natural order; the store
      keeps [_id] unique inside a collection ([wf_ids] below).
    - Python integers are unbounded, so a position [s_no] is a [Z].
    - A handler is a computation in the monad [M]: it reads and writes the
      three collections and either returns a value or raises an
      [HTTPException]; the writes made before a raise persist.
    - [bson.ObjectId] is a library class: its parser and its [str] are
      section variables, every theorem holds for any such pair.
    - Requests run one after the other; a store call neither fails nor
      overlaps another request. The 64-bit range of a stored integer is not
      modelled: the driver raises [OverflowError] when it is handed an
      integer outside it, before anything is written, so a handler that
      would pass one raises where this model goes on. The properties that
      depend on such a call going through state the range as a hypothesis
      ([fits_int64]). *)

From Stdlib Require Import ZArith NArith List String Ascii Bool Lia.
From Stdlib Require Import Permutation Sorted Floats.
Import ListNotations.

Local Open Scope Z_scope.

(** ** Documents *)

(** The 12-byte value of an [ObjectId], read as a number. *)
Definition oid := N.

Record HTTPException := mkHTTPException {
  status_code : Z;
  detail : string
}.

(** A document of [db["categories"]] (see [add_category]). *)
Module Category.
Record doc := mk {
  _id : oid;
  name : string;
  image_url : string
}.
End Category.

(** A document of [db["products"]], restricted to the fields the homepage
    handlers project ([p.get(k)] is [None] for an absent or null field). *)
Module Product.
Record doc := mk {
  _id : oid;
  name : string;
  display_image : option string;
  hover_image : option string;
  selling_price : option float;
  mrp : option float;
  availability : option string
}.
End Product.

(** A document of [db["homepage"]]: one homepage section. *)
Module Homepage.
Record doc := mk {
  _id : oid;
  s_no : Z;
  category_id : oid;
  products : list oid
}.

(** The argument of [{"$set": ...}]: the fields an update overwrites. *)
Record patch := mkPatch {
  set_s_no : option Z;
  set_category_id : option oid;
  set_products : option (list oid)
}.

Definition apply_set (p : patch) (d : doc) : doc :=
  mk (_id d)
     (match set_s_no p with Some s => s | None => s_no d end)
     (match set_category_id p with Some c => c | None => category_id d end)
     (match set_products p with Some l => l | None => products d end).
End Homepage.

Record DB := mkDB {
  category_collection : list Category.doc;
  product_collection : list Product.doc;
  homepage_collection : list Homepage.doc
}.

(** ** Store primitives on a collection *)

(** [find_one(filter)]: the first document in natural order that matches. *)
Definition find_one {D : Type} (filter : D -> bool) (c : list D) : option D :=
  List.find filter c.

Definition count_documents {D : Type} (c : list D) : Z := Z.of_nat (List.length c).

(** [find_one(sort=[("s_no", -1)])]: a document of greatest [s_no]. *)
Fixpoint find_one_sort_s_no_desc (c : list Homepage.doc) : option Homepage.doc :=
  match c with
  | [] => None
  | d :: r =>
      match find_one_sort_s_no_desc r with
      | None => Some d
      | Some m => if Homepage.s_no m <=? Homepage.s_no d then Some d else Some m
      end
  end.

(** The [_id] the driver gives a document inserted without one: a value no
    document of the collection carries. *)
Definition fresh_id (c : list Homepage.doc) : oid :=
  N.succ (fold_right N.max 0%N (map Homepage._id c)).

(** [insert_one(doc)]: the document goes last. (For a position the store can
    hold, see [fits_int64]; the driver raises on any other.) *)
Definition insert_one (s : Z) (cat : oid) (prods : list oid)
    (c : list Homepage.doc) : list Homepage.doc :=
  c ++ [Homepage.mk (fresh_id c) s cat prods].

(** [update_one(filter, {"$set": p})]: only the first match is updated. (For
    positions the store can hold, see [fits_int64]; the driver raises on any
    other.) *)
Fixpoint update_one (filter : Homepage.doc -> bool) (p : Homepage.patch)
    (c : list Homepage.doc) : list Homepage.doc :=
  match c with
  | [] => []
  | d :: r =>
      if filter d then Homepage.apply_set p d :: r
      else d :: update_one filter p r
  end.

(** [delete_one(filter)]: removes the first match; the first component is
    [deleted_count]. *)
Fixpoint delete_one (filter : Homepage.doc -> bool) (c : list Homepage.doc)
    : Z * list Homepage.doc :=
  match c with
  | [] => (0, [])
  | d :: r =>
      if filter d then (1, r)
      else let '(n, r') := delete_one filter r in (n, d :: r')
  end.

(** [find().sort("s_no", 1)]: ascending by [s_no] (insertion sort, which
    keeps documents of equal [s_no] in natural order). *)
Fixpoint insert_by_s_no (d : Homepage.doc) (l : list Homepage.doc)
    : list Homepage.doc :=
  match l with
  | [] => [d]
  | e :: r =>
      if Homepage.s_no d <=? Homepage.s_no e then d :: e :: r
      else e :: insert_by_s_no d r
  end.

Definition sort_s_no_asc (c : list Homepage.doc) : list Homepage.doc :=
  fold_right insert_by_s_no [] c.

(** The order of a listing. *)
Definition le_s_no (d e : Homepage.doc) : Prop :=
  Homepage.s_no d <= Homepage.s_no e.

(** The filters the handlers use. *)
Definition by_id (i : oid) (d : Homepage.doc) : bool :=
  N.eqb (Homepage._id d) i.

Definition by_s_no (s : Z) (d : Homepage.doc) : bool :=
  Homepage.s_no d =? s.

Definition cat_by_id (i : oid) (d : Category.doc) : bool :=
  N.eqb (Category._id d) i.

(** [{"_id": {"$in": ids}}] *)
Definition prod_id_in (ids : list oid) (d : Product.doc) : bool :=
  existsb (N.eqb (Product._id d)) ids.

(** ** The handler monad *)

Definition M (A : Type) : Type := DB -> (HTTPException + A) * DB.

Definition ret {A : Type} (a : A) : M A := fun db => (inr a, db).

Definition bind {A B : Type} (m : M A) (k : A -> M B) : M B :=
  fun db =>
    match m db with
    | (inl e, db') => (inl e, db')
    | (inr a, db') => k a db'
    end.

Definition raise {A : Type} (code : Z) (msg : string) : M A :=
  fun db => (inl (mkHTTPException code msg), db).

Definition read {A : Type} (f : DB -> A) : M A := fun db => (inr (f db), db).

Definition write_homepage (f : list Homepage.doc -> list Homepage.doc) : M unit :=
  fun db =>
    (inr tt, mkDB (category_collection db) (product_collection db)
                  (f (homepage_collection db))).

Declare Scope handler_scope.
Delimit Scope handler_scope with handler.
Notation "x <- m ;; k" := (bind m (fun x => k))
  (at level 61, m at next level, right associativity) : handler_scope.
Notation "m ;; k" := (bind m (fun _ => k))
  (at level 61, right associativity) : handler_scope.
Local Open Scope handler_scope.

(** ** Requests *)

(** The decoded JWT payload, of which the handlers read [token.get("sub")]. *)
Record Token := mkToken { sub : option string }.

(** Python truthiness of [token.get("sub")]. *)
Definition truthy (r : option string) : bool :=
  match r with
  | None => false
  | Some s => negb (String.eqb s EmptyString)
  end.

Record AddHomepageSection := mkAdd {
  add_category_id : string;
  add_product_ids : list string
}.

Record EditHomepageSection := mkEdit {
  edit_category_id : string;
  edit_product_ids : list string;
  edit_s_no : option Z
}.

Record AddResponse := mkAddResponse {
  message : string;
  assigned_s_no : Z
}.

(** One entry of ["products"] in the admin listing. *)
Record ProductView := mkProductView {
  pv_id : string;
  pv_name : string;
  pv_display_image : option string
}.

(** One entry of ["products"] in the storefront listing. *)
Record PublicProductView := mkPublicProductView {
  ppv_id : string;
  ppv_name : string;
  ppv_display_image : option string;
  ppv_hover_image : option string;
  ppv_price : option float;
  ppv_oldPrice : option float;
  ppv_availability : option string
}.

(** One entry of ["sections"]; [P] is the product view of the listing. *)
Record SectionView (P : Type) := mkSectionView {
  sv_s_no : Z;
  sv_category_id : string;
  sv_category_name : string;
  sv_products : list P
}.
Arguments mkSectionView {P}.
Arguments sv_s_no {P}.
Arguments sv_category_id {P}.
Arguments sv_category_name {P}.
Arguments sv_products {P}.

(** [data.s_no or s_no]: Python's [or] yields its right operand when the
    left one is falsy, that is [None] or [0]. *)
Definition py_or (x : option Z) (y : Z) : Z :=
  match x with
  | Some v => if v =? 0 then y else v
  | None => y
  end.

(** ** The handlers *)

Section Handlers.

(** [ObjectId(s)]: [None] stands for the [InvalidId] the constructor raises. *)
Variable ObjectId : string -> option oid.
(** [str(oid)] *)
Variable str : oid -> string.

(** The loop [for pid in data.product_ids: ... ObjectId(pid)]: the converted
    ids, or the first [pid] that does not convert. *)
Fixpoint product_obj_ids_of (pids : list string) : string + list oid :=
  match pids with
  | [] => inr []
  | pid :: r =>
      match ObjectId pid with
      | None => inl pid
      | Some o =>
          match product_obj_ids_of r with
          | inl bad => inl bad
          | inr l => inr (o :: l)
          end
      end
  end.

Definition add_homepage_section (data : AddHomepageSection) (token : Token)
    : M AddResponse :=
  let requester := sub token in
  if negb (truthy requester) then raise 401 "Unauthorized" else
  (* 1. check limit of 4 sections *)
  count <- read (fun db => count_documents (homepage_collection db)) ;;
  if 4 <=? count then raise 400 "Max 4 homepage sections allowed" else
  (* 2. validate category exists *)
  match ObjectId (add_category_id data) with
  | None => raise 400 "Invalid category_id"
  | Some cat_id =>
  category <- read (fun db => find_one (cat_by_id cat_id) (category_collection db)) ;;
  match category with
  | None => raise 404 "Category not found"
  | Some _ =>
  (* 3. validate product ids *)
  if (List.length (add_product_ids data) =? 0)%nat
  then raise 400 "At least 1 product required" else
  if (12 <? List.length (add_product_ids data))%nat
  then raise 400 "Max 12 products allowed" else
  match product_obj_ids_of (add_product_ids data) with
  | inl pid => raise 400 (String.append "Invalid product id: " pid)
  | inr product_obj_ids =>
  (* 4. auto increment s_no *)
  last_doc <- read (fun db => find_one_sort_s_no_desc (homepage_collection db)) ;;
  let next_s_no :=
    match last_doc with
    | Some d => Homepage.s_no d + 1
    | None => 1
    end in
  (* 5. insert *)
  write_homepage (insert_one next_s_no cat_id product_obj_ids) ;;
  ret (mkAddResponse "Homepage section added" next_s_no)
  end end end.

(** The join of one section with its category and products, shared by the
    two listings; [view] is the projection of a product. *)
Definition format_section {P : Type} (view : Product.doc -> P) (db : DB)
    (sec : Homepage.doc) : SectionView P :=
  let cat := find_one (cat_by_id (Homepage.category_id sec)) (category_collection db) in
  let prods := filter (prod_id_in (Homepage.products sec)) (product_collection db) in
  mkSectionView
    (Homepage.s_no sec)
    (str (Homepage.category_id sec))
    (match cat with Some c => Category.name c | None => "N/A"%string end)
    (map view prods).

Definition admin_product_view (p : Product.doc) : ProductView :=
  mkProductView (str (Product._id p)) (Product.name p) (Product.display_image p).

Definition public_product_view (p : Product.doc) : PublicProductView :=
  mkPublicProductView (str (Product._id p)) (Product.name p)
    (Product.display_image p) (Product.hover_image p)
    (Product.selling_price p) (Product.mrp p) (Product.availability p).

Definition list_homepage_sections (token : Token)
    : M (list (SectionView ProductView)) :=
  let requester := sub token in
  if negb (truthy requester) then raise 401 "Unauthorized" else
  read (fun db =>
    let sections := sort_s_no_asc (homepage_collection db) in
    map (format_section admin_product_view db) sections).

Definition public_homepage : M (list (SectionView PublicProductView)) :=
  read (fun db =>
    let sections := sort_s_no_asc (homepage_collection db) in
    map (format_section public_product_view db) sections).

Definition edit_homepage_section (s_no : Z) (data : EditHomepageSection)
    (token : Token) : M string :=
  let requester := sub token in
  if negb (truthy requester) then raise 401 "Unauthorized" else
  (* validate category *)
  match ObjectId (edit_category_id data) with
  | None => raise 400 "Invalid category_id"
  | Some cat_id =>
  category <- read (fun db => find_one (cat_by_id cat_id) (category_collection db)) ;;
  match category with
  | None => raise 404 "Category not found"
  | Some _ =>
  (* validate products *)
  if (List.length (edit_product_ids data) =? 0)%nat
  then raise 400 "At least 1 product required" else
  if (12 <? List.length (edit_product_ids data))%nat
  then raise 400 "Max 12 products allowed" else
  match product_obj_ids_of (edit_product_ids data) with
  | inl pid => raise 400 (String.append "Invalid product id: " pid)
  | inr product_obj_ids =>
  (* current doc *)
  current <- read (fun db => find_one (by_s_no s_no) (homepage_collection db)) ;;
  match current with
  | None => raise 404 "Homepage section not found"
  | Some current =>
  let new_sno := py_or (edit_s_no data) s_no in
  (* --- SAFE SWAP LOGIC --- *)
  (if negb (new_sno =? s_no) then
     other <- read (fun db => find_one (by_s_no new_sno) (homepage_collection db)) ;;
     match other with
     | Some other =>
         (* Step 1: put "other" to a temp s_no so no duplicates *)
         write_homepage (update_one (by_id (Homepage._id other))
           (Homepage.mkPatch (Some (-1)) None None)) ;;
         (* Step 2: update current doc to new_sno *)
         write_homepage (update_one (by_id (Homepage._id current))
           (Homepage.mkPatch (Some new_sno) (Some cat_id) (Some product_obj_ids))) ;;
         (* Step 3: move "other" to old s_no *)
         write_homepage (update_one (by_id (Homepage._id other))
           (Homepage.mkPatch (Some s_no) None None))
     | None =>
         (* new_sno is free, just update *)
         write_homepage (update_one (by_id (Homepage._id current))
           (Homepage.mkPatch (Some new_sno) (Some cat_id) (Some product_obj_ids)))
     end
   else
     (* no change in s_no *)
     write_homepage (update_one (by_id (Homepage._id current))
       (Homepage.mkPatch None (Some cat_id) (Some product_obj_ids)))) ;;
  ret "Homepage section updated successfully"%string
  end end end end.

Definition delete_homepage_section (s_no : Z) (token : Token) : M string :=
  let requester := sub token in
  if negb (truthy requester) then raise 401 "Unauthorized" else
  deleted_count <- (fun db =>
    let '(n, c) := delete_one (by_s_no s_no) (homepage_collection db) in
    (inr n, mkDB (category_collection db) (product_collection db) c)) ;;
  if deleted_count =? 0 then raise 404 "Homepage section not found" else
  ret "Homepage section deleted successfully"%string.

End Handlers.

(** ** Sequences of requests *)

Inductive Request :=
| Add (data : AddHomepageSection) (token : Token)
| Edit (s_no : Z) (data : EditHomepageSection) (token : Token)
| Delete (s_no : Z) (token : Token).

(** The store a handler leaves behind, whether it returned or raised. *)
Definition after {A : Type} (m : M A) (db : DB) : DB := snd (m db).

Definition outcome {A : Type} (m : M A) (db : DB) : HTTPException + A := fst (m db).

Definition step (ObjectId : string -> option oid) (r : Request) (db : DB) : DB :=
  match r with
  | Add data token => after (add_homepage_section ObjectId data token) db
  | Edit s_no data token => after (edit_homepage_section ObjectId s_no data token) db
  | Delete s_no token => after (delete_homepage_section s_no token) db
  end.

(** The stores at the end of each request of a sequence, in order. *)
Fixpoint trace (ObjectId : string -> option oid) (rs : list Request) (db : DB)
    : list DB :=
  match rs with
  | [] => []
  | r :: rs' => step ObjectId r db :: trace ObjectId rs' (step ObjectId r db)
  end.

(** ** State predicates *)

Definition positions (db : DB) : list Z :=
  map Homepage.s_no (homepage_collection db).

Definition ids (db : DB) : list oid :=
  map Homepage._id (homepage_collection db).

(** The store's guarantee: [_id] is unique inside the collection. *)
Definition wf_ids (db : DB) : Prop := NoDup (ids db).

Definition distinct_positions (db : DB) : Prop := NoDup (positions db).

(** The section stored at position [s], if any. *)
Definition section_at (s : Z) (db : DB) : option Homepage.doc :=
  find_one (by_s_no s) (homepage_collection db).

Definition with_homepage (db : DB) (c : list Homepage.doc) : DB :=
  mkDB (category_collection db) (product_collection db) c.

(** The writes of [edit_homepage_section] in the order it issues them, on
    the collection: [current] is the target, [new_sno] the position asked. *)
Definition edit_writes (s_no new_sno : Z) (cat_id : oid) (prods : list oid)
    (current : Homepage.doc) (c : list Homepage.doc) : list Homepage.doc :=
  if negb (new_sno =? s_no) then
    match find_one (by_s_no new_sno) c with
    | Some other =>
        update_one (by_id (Homepage._id other)) (Homepage.mkPatch (Some s_no) None None)
          (update_one (by_id (Homepage._id current))
             (Homepage.mkPatch (Some new_sno) (Some cat_id) (Some prods))
             (update_one (by_id (Homepage._id other))
                (Homepage.mkPatch (Some (-1)) None None) c))
    | None =>
        update_one (by_id (Homepage._id current))
          (Homepage.mkPatch (Some new_sno) (Some cat_id) (Some prods)) c
    end
  else
    update_one (by_id (Homepage._id current))
      (Homepage.mkPatch None (Some cat_id) (Some prods)) c.

(** What a completed [edit] of position [s_no] to [new_sno] makes of one
    document: the target takes [new_sno] and the new fields, the holder of
    [new_sno] takes [s_no], every other document stays. *)
Definition edit_doc (s_no new_sno : Z) (cat_id : oid) (prods : list oid)
    (d : Homepage.doc) : Homepage.doc :=
  if Homepage.s_no d =? s_no then Homepage.mk (Homepage._id d) new_sno cat_id prods
  else if Homepage.s_no d =? new_sno
       then Homepage.mk (Homepage._id d) s_no (Homepage.category_id d) (Homepage.products d)
       else d.

Definition swap_pos (a b x : Z) : Z :=
  if x =? a then b else if x =? b then a else x.

(** The position [add_homepage_section] computes for a new section. *)
Definition next_s_no (c : list Homepage.doc) : Z :=
  match find_one_sort_s_no_desc c with
  | Some d => Homepage.s_no d + 1
  | None => 1
  end.

(** What the request validation of [add] and [edit] accepts. *)
Definition valid_refs (ObjectId : string -> option oid) (db : DB)
    (category_id : string) (product_ids : list string)
    (cat_id : oid) (prods : list oid) : Prop :=
  ObjectId category_id = Some cat_id /\
  find_one (cat_by_id cat_id) (category_collection db) <> None /\
  (1 <= List.length product_ids <= 12)%nat /\
  product_obj_ids_of ObjectId product_ids = inr prods.

(** A concrete [ObjectId]: 24 hexadecimal digits, read as a number. *)
Definition hex_digit (c : ascii) : option N :=
  let n := N_of_ascii c in
  if ((48 <=? n) && (n <=? 57))%N then Some (n - 48)%N
  else if ((97 <=? n) && (n <=? 102))%N then Some (n - 87)%N
  else if ((65 <=? n) && (n <=? 70))%N then Some (n - 55)%N
  else None.

Fixpoint hex_value (acc : N) (s : string) : option N :=
  match s with
  | EmptyString => Some acc
  | String c r =>
      match hex_digit c with
      | Some d => hex_value (16 * acc + d)%N r
      | None => None
      end
  end.

Definition hex_ObjectId (s : string) : option oid :=
  if (String.length s =? 24)%nat then hex_value 0%N s else None.

Definition hex_char (d : N) : ascii :=
  if (d <? 10)%N then ascii_of_N (48 + d) else ascii_of_N (87 + d).

Fixpoint hex_of (digits : nat) (n : N) (acc : string) : string :=
  match digits with
  | O => acc
  | S k => hex_of k (n / 16)%N (String (hex_char (n mod 16)%N) acc)
  end.

Definition hex_str (o : oid) : string := hex_of 24 o EmptyString.

(** ** The stages of a swap *)

(** The collection after the first write of the swap of
    [edit_homepage_section] ("Step 1"): [other] parked at -1. *)
Definition swap_step1 (other : Homepage.doc) (c : list Homepage.doc)
    : list Homepage.doc :=
  update_one (by_id (Homepage._id other)) (Homepage.mkPatch (Some (-1)) None None) c.

(** The collection after its second write ("Step 2"): [current] moved to
    [new_sno] with the new fields. *)
Definition swap_step2 (new_sno : Z) (cat_id : oid) (prods : list oid)
    (current other : Homepage.doc) (c : list Homepage.doc) : list Homepage.doc :=
  update_one (by_id (Homepage._id current))
    (Homepage.mkPatch (Some new_sno) (Some cat_id) (Some prods))
    (swap_step1 other c).

(** The collection after its third write ("Step 3"): [other] moved to the
    position [current] had. *)
Definition swap_step3 (s_no new_sno : Z) (cat_id : oid) (prods : list oid)
    (current other : Homepage.doc) (c : list Homepage.doc) : list Homepage.doc :=
  update_one (by_id (Homepage._id other)) (Homepage.mkPatch (Some s_no) None None)
    (swap_step2 new_sno cat_id prods current other c).

(** The integers the store can hold: a BSON integer has at most 64 bits.
    The driver raises [OverflowError] on any other, in a filter as in a
    document, and nothing is written. *)
Definition fits_int64 (z : Z) : Prop := - 2 ^ 63 <= z <= 2 ^ 63 - 1.

(** Every stored section refers to between 1 and 12 products. *)
Definition products_bounded (db : DB) : Prop :=
  Forall (fun d => (1 <= List.length (Homepage.products d) <= 12)%nat)
         (homepage_collection db).

(** ** Accounts, carts and chats *)

(** A document of [db["admins"]]: [admin_register] stores a username,
    [add_admin] a name and an email; both store the hashed password. *)
Module Admin.
Record doc := mk {
  _id : oid;
  username : option string;
  name : option string;
  email : option string;
  password : string
}.
End Admin.

(** An entry of a user's cart, as [add_to_cart] pushes it. *)
Module CartItem.
Record t := mk {
  product_id : string;
  quantity : Z
}.
End CartItem.

(** A document of [db["users"]], as [register_google_user] stores it;
    [cart] is [None] while the document has no ["cart"] key. *)
Module User.
Record doc := mk {
  _id : oid;
  name : string;
  email : string;
  mobile : string;
  picture : option string;
  created_at : string;
  cart : option (list CartItem.t)
}.

Definition set_cart (c : option (list CartItem.t)) (u : doc) : doc :=
  mk (_id u) (name u) (email u) (mobile u) (picture u) (created_at u) c.
End User.

(** A document of [db["chats"]] and its messages, as [send_message] and
    [send_reply] store them. *)
Module Chat.
Record message := mkMessage {
  sender : string;
  text : string;
  status : string;
  timestamp : string;
  product_id : option string
}.

Record doc := mk {
  _id : oid;
  user_id : string;
  messages : list message
}.

Definition set_messages (l : list message) (c : doc) : doc :=
  mk (_id c) (user_id c) l.

Definition set_status (s : string) (m : message) : message :=
  mkMessage (sender m) (text m) s (timestamp m) (product_id m).
End Chat.

Record Accounts := mkAccounts {
  admin_collection : list Admin.doc;
  user_collection : list User.doc;
  chat_collection : list Chat.doc
}.

(** [update_one(filter, update)] on any collection: [g] is what the update
    operator does to the first match. *)
Fixpoint update_first {D : Type} (filter : D -> bool) (g : D -> D) (c : list D)
    : list D :=
  match c with
  | [] => []
  | d :: r => if filter d then g d :: r else d :: update_first filter g r
  end.

(** [delete_one(filter)] on any collection. *)
Fixpoint delete_first {D : Type} (filter : D -> bool) (c : list D) : list D :=
  match c with
  | [] => []
  | d :: r => if filter d then r else d :: delete_first filter r
  end.

(** The [_id] of a document inserted without one, given those in use. *)
Definition fresh_oid (used : list oid) : oid :=
  N.succ (fold_right N.max 0%N used).

Definition with_users (st : Accounts) (c : list User.doc) : Accounts :=
  mkAccounts (admin_collection st) c (chat_collection st).

Definition with_chats (st : Accounts) (c : list Chat.doc) : Accounts :=
  mkAccounts (admin_collection st) (user_collection st) c.

Definition with_admins (st : Accounts) (c : list Admin.doc) : Accounts :=
  mkAccounts c (user_collection st) (chat_collection st).

(** Filters. *)
Definition user_by_email (e : string) (u : User.doc) : bool :=
  String.eqb (User.email u) e.

Definition user_by_id (i : oid) (u : User.doc) : bool :=
  N.eqb (User._id u) i.

Definition chat_by_user_id (uid : string) (c : Chat.doc) : bool :=
  String.eqb (Chat.user_id c) uid.

Definition chat_by_id (i : oid) (c : Chat.doc) : bool :=
  N.eqb (Chat._id c) i.

Definition admin_by_username (u : string) (a : Admin.doc) : bool :=
  match Admin.username a with
  | Some x => String.eqb x u
  | None => false
  end.

(** *** Registration of a storefront user *)

Record GoogleUser := mkGoogleUser {
  gu_name : string;
  gu_email : string;
  gu_mobile : option string;
  gu_picture : option string
}.

Record UserInfo := mkUserInfo {
  ui_id : string;
  ui_name : string;
  ui_email : string;
  ui_mobile : string;
  ui_picture : option string
}.

(** The three answers of [register_google_user], named by their ["status"]. *)
Inductive RegisterResponse :=
| EXISTS (message : string) (user : UserInfo)
| NEW_USER (message : string) (email name : string) (picture : option string)
| CREATED (message : string) (user : UserInfo).

Record CartResponse := mkCartResponse {
  cart_message : string;
  cart_items : list CartItem.t
}.

Record UserMessage := mkUserMessage {
  um_email : string;
  um_text : string;
  um_product_id : option string
}.

Record AdminReply := mkAdminReply {
  ar_email : string;
  ar_text : string
}.

Record SendResponse := mkSendResponse {
  send_message_text : string;
  send_data : Chat.message
}.

Record MessagesResponse := mkMessagesResponse {
  mr_messages : list Chat.message;
  mr_unseen_admin_count : Z
}.

Record ChatResponse := mkChatResponse {
  cr_messages : list Chat.message;
  cr_scroll_to : option Z
}.

Record AdminRegister := mkAdminRegister {
  reg_username : string;
  reg_password : string
}.

Record AdminRegisterResponse := mkAdminRegisterResponse {
  reg_message : string;
  reg_admin_id : string
}.

Record AdminLogin := mkAdminLogin {
  login_username : string;
  login_password : string
}.

Record LoginResponse := mkLoginResponse {
  access_token : string;
  token_type : string
}.

(** [m["sender"] == who and m["status"] == "unseen"] *)
Definition unseen_from (who : string) (m : Chat.message) : bool :=
  String.eqb (Chat.sender m) who && String.eqb (Chat.status m) "unseen".

(** The loop that sets [m["status"] = "seen"] on the unseen messages of
    [who]. *)
Definition mark_seen (who : string) (l : list Chat.message) : list Chat.message :=
  map (fun m => if unseen_from who m then Chat.set_status "seen" m else m) l.

(** [sum(1 for m in messages if ...)] *)
Definition count_unseen (who : string) (l : list Chat.message) : Z :=
  Z.of_nat (List.length (filter (unseen_from who) l)).

(** [next((i for i, m in enumerate(messages) if ...), None)] *)
Fixpoint first_index (p : Chat.message -> bool) (i : Z) (l : list Chat.message)
    : option Z :=
  match l with
  | [] => None
  | m :: r => if p m then Some i else first_index p (i + 1) r
  end.

Definition ACCESS_TOKEN_EXPIRE_MINUTES : Z := 60 * 12.

Section Account_handlers.

(** [str(oid)] *)
Variable str : oid -> string.
(** [hashlib.sha256(s.encode()).hexdigest()] *)
Variable sha256_hexdigest : string -> string.
(** [jwt.encode({"sub": sub, "exp": exp}, SECRET_KEY, algorithm=ALGORITHM)] *)
Variable jwt_encode : string -> Z -> string.

Definition hash_password (password : string) : string :=
  sha256_hexdigest password.

(** [now] is [datetime.utcnow()] in seconds; no [expires_delta] is ever
    passed, so the default applies. *)
Definition create_access_token (sub_claim : string) (now : Z) : string :=
  let expire := now + ACCESS_TOKEN_EXPIRE_MINUTES * 60 in
  jwt_encode sub_claim expire.

Definition admin_register (data : AdminRegister) (st : Accounts)
    : (HTTPException + AdminRegisterResponse) * Accounts :=
  (* check if username exists *)
  match find_one (admin_by_username (reg_username data)) (admin_collection st) with
  | Some _ => (inl (mkHTTPException 400 "Username already exists"), st)
  | None =>
      (* insert new admin with hashed password *)
      let inserted_id := fresh_oid (map Admin._id (admin_collection st)) in
      let new_admin :=
        Admin.mk inserted_id (Some (reg_username data)) None None
          (hash_password (reg_password data)) in
      (inr (mkAdminRegisterResponse "Admin registered successfully" (str inserted_id)),
       with_admins st (admin_collection st ++ [new_admin]))
  end.

Definition admin_login (data : AdminLogin) (now : Z) (st : Accounts)
    : (HTTPException + LoginResponse) * Accounts :=
  match find_one (admin_by_username (login_username data)) (admin_collection st) with
  | None => (inl (mkHTTPException 401 "Invalid username or password"), st)
  | Some admin =>
      if negb (String.eqb (Admin.password admin) (hash_password (login_password data)))
      then (inl (mkHTTPException 401 "Invalid username or password"), st)
      else
        (* create token *)
        let token := create_access_token (login_username data) now in
        (inr (mkLoginResponse token "bearer"), st)
  end.

(** [now] is the value of [datetime.utcnow()] stored as ["created_at"]. *)
Definition register_google_user (user : GoogleUser) (now : string) (st : Accounts)
    : (HTTPException + RegisterResponse) * Accounts :=
  match find_one (user_by_email (gu_email user)) (user_collection st) with
  | Some existing =>
      (inr (EXISTS "User already exists"
              (mkUserInfo (str (User._id existing)) (User.name existing)
                 (User.email existing) (User.mobile existing)
                 (User.picture existing))),
       st)
  | None =>
      if negb (truthy (gu_mobile user)) then
        (inr (NEW_USER "Mobile number required for signup"
                (gu_email user) (gu_name user) (gu_picture user)),
         st)
      else
        let mobile := match gu_mobile user with Some m => m | None => EmptyString end in
        let inserted_id := fresh_oid (map User._id (user_collection st)) in
        let new_user :=
          User.mk inserted_id (gu_name user) (gu_email user) mobile
            (gu_picture user) now None in
        (inr (CREATED "User registered successfully"
                (mkUserInfo (str inserted_id) (gu_name user) (gu_email user)
                   mobile (gu_picture user))),
         with_users st (user_collection st ++ [new_user]))
  end.

(** [user.get("cart", [])] *)
Definition cart_or_empty (u : User.doc) : list CartItem.t :=
  match User.cart u with
  | Some c => c
  | None => []
  end.

Definition add_to_cart (email product_id : string) (quantity : Z) (st : Accounts)
    : (HTTPException + CartResponse) * Accounts :=
  match find_one (user_by_email email) (user_collection st) with
  | None => (inl (mkHTTPException 404 "User not found"), st)
  | Some user =>
      let cart := cart_or_empty user in
      (* check if product already in cart *)
      if existsb (fun item => String.eqb (CartItem.product_id item) product_id) cart
      then (inr (mkCartResponse "Already in cart" cart), st)
      else
        (* add product with quantity *)
        let new_item := CartItem.mk product_id quantity in
        (inr (mkCartResponse "Added to cart" (cart ++ [new_item])),
         with_users st
           (update_first (user_by_id (User._id user))
              (fun u => User.set_cart (Some (cart_or_empty u ++ [new_item])) u)
              (user_collection st)))
  end.

(** [{"$pull": {"cart": {"product_id": product_id}}}]: every matching entry
    goes; a document without ["cart"] stays without. *)
Definition pull_product (product_id : string) (u : User.doc) : User.doc :=
  User.set_cart
    (option_map
       (filter (fun item => negb (String.eqb (CartItem.product_id item) product_id)))
       (User.cart u))
    u.

Definition remove_from_cart (email product_id : string) (st : Accounts)
    : (HTTPException + string) * Accounts :=
  match find_one (user_by_email email) (user_collection st) with
  | None => (inl (mkHTTPException 404 "User not found"), st)
  | Some user =>
      (inr "Removed from cart"%string,
       with_users st
         (update_first (user_by_id (User._id user)) (pull_product product_id)
            (user_collection st)))
  end.

Definition clear_cart (email : string) (st : Accounts)
    : (HTTPException + string) * Accounts :=
  match find_one (user_by_email email) (user_collection st) with
  | None => (inl (mkHTTPException 404 "User not found"), st)
  | Some user =>
      (inr "Cart cleared"%string,
       with_users st
         (update_first (user_by_id (User._id user)) (User.set_cart (Some []))
            (user_collection st)))
  end.

(** [{"$push": {"messages": entry}}] on the chat [chat], or the insertion of
    a first chat document for [user_id]: the tail shared by [send_message]
    and [send_reply]. *)
Definition push_or_insert (chat : option Chat.doc) (user_id : string)
    (entry : Chat.message) (chats : list Chat.doc) : list Chat.doc :=
  match chat with
  | Some chat =>
      update_first (chat_by_id (Chat._id chat))
        (fun c => Chat.set_messages (Chat.messages c ++ [entry]) c) chats
  | None =>
      chats ++ [Chat.mk (fresh_oid (map Chat._id chats)) user_id [entry]]
  end.

(** [now] is [datetime.utcnow().isoformat()]. *)
Definition send_message (data : UserMessage) (now : string) (st : Accounts)
    : (HTTPException + SendResponse) * Accounts :=
  match find_one (user_by_email (um_email data)) (user_collection st) with
  | None => (inl (mkHTTPException 404 "User not found"), st)
  | Some user =>
      let user_id := str (User._id user) in
      let message_entry :=
        Chat.mkMessage "user" (um_text data) "unseen" now
          (* only add product_id if present *)
          (if truthy (um_product_id data) then um_product_id data else None) in
      let chat := find_one (chat_by_user_id user_id) (chat_collection st) in
      (inr (mkSendResponse "Message saved successfully" message_entry),
       with_chats st (push_or_insert chat user_id message_entry (chat_collection st)))
  end.

Definition get_messages (email : string) (st : Accounts)
    : (HTTPException + MessagesResponse) * Accounts :=
  match find_one (user_by_email email) (user_collection st) with
  | None => (inl (mkHTTPException 404 "User not found"), st)
  | Some user =>
      match find_one (chat_by_user_id (str (User._id user))) (chat_collection st) with
      | None => (inr (mkMessagesResponse [] 0), st)
      | Some chat =>
          let messages := Chat.messages chat in
          (* count unseen admin msgs before marking them seen *)
          let unseen_admin_count := count_unseen "admin" messages in
          (* now mark them seen *)
          let updated := existsb (unseen_from "admin") messages in
          let messages := mark_seen "admin" messages in
          (inr (mkMessagesResponse messages unseen_admin_count),
           if updated then
             with_chats st
               (update_first (chat_by_id (Chat._id chat)) (Chat.set_messages messages)
                  (chat_collection st))
           else st)
      end
  end.

(** The guard of the admin chat routes:
    [not requester or not admin_collection.find_one({"username": requester})]. *)
Definition not_an_admin (token : Token) (st : Accounts) : bool :=
  match sub token with
  | None => true
  | Some requester =>
      negb (truthy (Some requester)) ||
      match find_one (admin_by_username requester) (admin_collection st) with
      | Some _ => false
      | None => true
      end
  end.

Definition get_chat_by_email (email : string) (token : Token) (st : Accounts)
    : (HTTPException + ChatResponse) * Accounts :=
  if not_an_admin token st then (inl (mkHTTPException 403 "Not an admin"), st) else
  match find_one (user_by_email email) (user_collection st) with
  | None => (inl (mkHTTPException 404 "User not found"), st)
  | Some user =>
      match find_one (chat_by_user_id (str (User._id user))) (chat_collection st) with
      | None => (inr (mkChatResponse [] None), st)
      | Some chat =>
          (* the loop over ["product_id"] rewrites a string as itself *)
          let messages := Chat.messages chat in
          (* find first unseen index *)
          let first_unseen_index := first_index (unseen_from "user") 0 messages in
          (* mark unseen -> seen *)
          let messages := mark_seen "user" messages in
          (inr (mkChatResponse messages first_unseen_index),
           with_chats st
             (update_first (chat_by_id (Chat._id chat)) (Chat.set_messages messages)
                (chat_collection st)))
      end
  end.

Definition send_reply (data : AdminReply) (token : Token) (now : string)
    (st : Accounts) : (HTTPException + SendResponse) * Accounts :=
  if not_an_admin token st then (inl (mkHTTPException 403 "Not an admin"), st) else
  match find_one (user_by_email (ar_email data)) (user_collection st) with
  | None => (inl (mkHTTPException 404 "User not found"), st)
  | Some user =>
      let chat := find_one (chat_by_user_id (str (User._id user))) (chat_collection st) in
      let message_entry := Chat.mkMessage "admin" (ar_text data) "unseen" now None in
      (inr (mkSendResponse "Reply sent" message_entry),
       with_chats st
         (push_or_insert chat (str (User._id user)) message_entry (chat_collection st)))
  end.

Definition clear_chat (email : string) (token : Token) (st : Accounts)
    : (HTTPException + string) * Accounts :=
  (* ensure caller is admin *)
  if not_an_admin token st then (inl (mkHTTPException 403 "Not an admin"), st) else
  match find_one (user_by_email email) (user_collection st) with
  | None => (inl (mkHTTPException 404 "User not found"), st)
  | Some user =>
      match find_one (chat_by_user_id (str (User._id user))) (chat_collection st) with
      | None => (inl (mkHTTPException 404 "Chat not found"), st)
      | Some chat =>
          (* delete the entire chat document *)
          (inr "Chat deleted successfully"%string,
           with_chats st (delete_first (chat_by_id (Chat._id chat)) (chat_collection st)))
      end
  end.

End Account_handlers.

(** *** Sequences of account requests *)

Inductive AccountRequest :=
| AdminRegisterReq (data : AdminRegister)
| AdminLoginReq (data : AdminLogin) (now : Z)
| RegisterGoogleUser (user : GoogleUser) (now : string)
| AddToCart (email product_id : string) (quantity : Z)
| RemoveFromCart (email product_id : string)
| ClearCart (email : string)
| SendMessage (data : UserMessage) (now : string)
| GetMessages (email : string)
| GetChatByEmail (email : string) (token : Token)
| SendReply (data : AdminReply) (token : Token) (now : string)
| ClearChat (email : string) (token : Token).

Section Account_sequences.

Variable str : oid -> string.
Variable sha256_hexdigest : string -> string.
Variable jwt_encode : string -> Z -> string.

(** The store a request leaves behind, whether it returned or raised. *)
Definition account_step (r : AccountRequest) (st : Accounts) : Accounts :=
  match r with
  | AdminRegisterReq data => snd (admin_register str sha256_hexdigest data st)
  | AdminLoginReq data now => snd (admin_login sha256_hexdigest jwt_encode data now st)
  | RegisterGoogleUser user now => snd (register_google_user str user now st)
  | AddToCart email product_id quantity => snd (add_to_cart email product_id quantity st)
  | RemoveFromCart email product_id => snd (remove_from_cart email product_id st)
  | ClearCart email => snd (clear_cart email st)
  | SendMessage data now => snd (send_message str data now st)
  | GetMessages email => snd (get_messages str email st)
  | GetChatByEmail email token => snd (get_chat_by_email str email token st)
  | SendReply data token now => snd (send_reply str data token now st)
  | ClearChat email token => snd (clear_chat str email token st)
  end.

Fixpoint account_trace (rs : list AccountRequest) (st : Accounts) : list Accounts :=
  match rs with
  | [] => []
  | r :: rs' => account_step r st :: account_trace rs' (account_step r st)
  end.

End Account_sequences.

(** The store's guarantee on the account collections: [_id] is unique. *)
Definition accounts_wf (st : Accounts) : Prop :=
  NoDup (map User._id (user_collection st)) /\
  NoDup (map Chat._id (chat_collection st)).

Definition emails_distinct (st : Accounts) : Prop :=
  NoDup (map User.email (user_collection st)).

Definition one_chat_per_user (st : Accounts) : Prop :=
  NoDup (map Chat.user_id (chat_collection st)).

Definition carts_without_duplicates (st : Accounts) : Prop :=
  Forall (fun u => NoDup (map CartItem.product_id (cart_or_empty u)))
         (user_collection st).

(** The usernames of the admins that have one. *)
Fixpoint usernames (admins : list Admin.doc) : list string :=
  match admins with
  | [] => []
  | a :: r =>
      match Admin.username a with
      | Some u => u :: usernames r
      | None => usernames r
      end
  end.

Definition usernames_distinct (st : Accounts) : Prop :=
  NoDup (usernames (admin_collection st)).

(** The cart of the user registered under [email]; empty without one. *)
Definition cart_of (email : string) (st : Accounts) : list CartItem.t :=
  match find_one (user_by_email email) (user_collection st) with
  | Some u => cart_or_empty u
  | None => []
  end.

(** [product_id] has an entry in [cart]. *)
Definition in_cart (product_id : string) (cart : list CartItem.t) : bool :=
  existsb (fun item => String.eqb (CartItem.product_id item) product_id) cart.

(** The messages of the chat stored for [user_id]; none without a chat. *)
Definition messages_of (user_id : string) (st : Accounts) : list Chat.message :=
  match find_one (chat_by_user_id user_id) (chat_collection st) with
  | Some c => Chat.messages c
  | None => []
  end.

(** ** Sample stores and requests *)

Definition admin_token : Token := mkToken (Some "admin"%string).

Definition rings_id : string := "000000000000000000000001".
Definition chains_id : string := "000000000000000000000002".
Definition gold_ring_id : string := "0000000000000000000000a1".
Definition silver_ring_id : string := "0000000000000000000000a2".

Definition sample_categories : list Category.doc :=
  [ Category.mk 1%N "Rings" "/uploads/category/65a0.jpg";
    Category.mk 2%N "Chains" "/uploads/category/65a1.jpg" ].

Definition sample_products : list Product.doc :=
  [ Product.mk 161%N "Gold ring" (Some "/uploads/products/65b0.jpg"%string) None
      (Some 1499%float) (Some 1999%float) (Some "In Stock"%string);
    Product.mk 162%N "Silver ring" None None None None (Some "Sold Out"%string) ].

Definition store_of (sections : list Homepage.doc) : DB :=
  mkDB sample_categories sample_products sections.

(** One section, at position 1. *)
Definition db_1 : DB := store_of [Homepage.mk 11%N 1 1%N [161%N]].

(** Sections at positions 1 and 2. *)
Definition db_12 : DB :=
  store_of [Homepage.mk 11%N 1 1%N [161%N]; Homepage.mk 12%N 2 2%N [162%N]].

(** Sections at positions 1, 2 and 3, stored in another order. *)
Definition db_123 : DB :=
  store_of [Homepage.mk 12%N 2 2%N [162%N]; Homepage.mk 13%N 3 2%N [161%N; 162%N];
            Homepage.mk 11%N 1 1%N [161%N]].

(** Four sections. *)
Definition db_full : DB :=
  store_of [Homepage.mk 11%N 1 1%N [161%N]; Homepage.mk 12%N 2 2%N [162%N];
            Homepage.mk 13%N 3 2%N [161%N; 162%N]; Homepage.mk 14%N 4 1%N [162%N]].

(** A section whose category (9) and second product (200) are gone. *)
Definition db_dangling : DB := store_of [Homepage.mk 11%N 1 9%N [161%N; 200%N]].

Definition sample_requests : list Request :=
  [ Edit 1 (mkEdit rings_id [silver_ring_id] (Some 3)) admin_token;
    Edit 2 (mkEdit chains_id [gold_ring_id] (Some (-1))) admin_token;
    Delete 3 admin_token;
    Add (mkAdd chains_id [gold_ring_id; silver_ring_id]) admin_token;
    Add (mkAdd rings_id [gold_ring_id]) admin_token;
    Add (mkAdd rings_id [silver_ring_id]) admin_token;
    Edit 4 (mkEdit rings_id [gold_ring_id] (Some 0)) admin_token ].

(** Stand-ins for the digest and the token encoder, for the samples. *)
Definition sample_digest (s : string) : string := String.append "sha256:" s.

Definition sample_jwt (sub_claim : string) (exp : Z) : string :=
  String.append "jwt:" sub_claim.

Definition alice_email : string := "alice@example.com".
Definition bob_email : string := "bob@example.com".

Definition alice : User.doc :=
  User.mk 21%N "Alice" alice_email "9000000001" None "2025-01-01T09:00:00"
    (Some [CartItem.mk gold_ring_id 2]).

Definition bob : User.doc :=
  User.mk 22%N "Bob" bob_email "9000000002" (Some "https://pics.example/bob.png"%string)
    "2025-01-02T09:00:00" None.

Definition sample_messages : list Chat.message :=
  [ Chat.mkMessage "user" "Is the gold ring in stock?" "seen" "2025-01-05T10:00:00"
      (Some gold_ring_id);
    Chat.mkMessage "admin" "Yes, two are left." "unseen" "2025-01-05T10:05:00" None;
    Chat.mkMessage "user" "Great, thanks." "unseen" "2025-01-05T10:06:00" None ].

(** Two admins, one with a username; Alice with a cart and a chat, Bob with
    neither. *)
Definition sample_accounts : Accounts :=
  mkAccounts
    [ Admin.mk 1%N (Some "admin"%string) None None (sample_digest "secret");
      Admin.mk 2%N None (Some "Nihal"%string) (Some "nihal@example.com"%string)
        (sample_digest "pw") ]
    [ alice; bob ]
    [ Chat.mk 31%N (hex_str 21%N) sample_messages ].

Definition sample_account_requests : list AccountRequest :=
  [ RegisterGoogleUser
      (mkGoogleUser "Carol" "carol@example.com" (Some "9000000003"%string) None)
      "2025-01-06T08:00:00";
    RegisterGoogleUser
      (mkGoogleUser "Alice again" alice_email (Some "9000000009"%string) None)
      "2025-01-06T08:01:00";
    AddToCart bob_email gold_ring_id 1;
    AddToCart bob_email gold_ring_id 5;
    AddToCart alice_email silver_ring_id 0;
    RemoveFromCart alice_email gold_ring_id;
    SendMessage (mkUserMessage bob_email "Hello" (Some EmptyString)) "2025-01-06T08:02:00";
    SendReply (mkAdminReply bob_email "Hi Bob") admin_token "2025-01-06T08:03:00";
    GetMessages bob_email;
    GetChatByEmail alice_email admin_token;
    ClearChat alice_email admin_token;
    ClearCart bob_email;
    AdminRegisterReq (mkAdminRegister "admin" "other");
    AdminRegisterReq (mkAdminRegister "second" "pw2");
    AdminLoginReq (mkAdminLogin "second" "pw2") 1736150400 ].

(** ** Proof automation *)

(** Unfolds a handler down to the store primitives. *)
Ltac run_handler :=
  unfold add_homepage_section, edit_homepage_section, delete_homepage_section,
    list_homepage_sections, public_homepage, after, outcome,
    bind, read, raise, ret, write_homepage, with_homepage, section_at;
  simpl.

(** [NoDup] of a list of literals. *)
Ltac nodup_concrete :=
  vm_compute; repeat constructor; simpl; intuition discriminate.

(** [fits_int64] of a literal. *)
Ltac fits_concrete :=
  vm_compute; split; discriminate.

(** [valid_refs] on a sample store. *)
Ltac valid_refs_concrete :=
  unfold valid_refs; repeat split;
  try (vm_compute; reflexivity); try (vm_compute; discriminate);
  simpl; lia.

(** * Properties *)

(** ** The store primitives *)

Lemma NoDup_map_eq {A B : Type} (f : A -> B) (l : list A) (x y : A) :
  NoDup (map f l) -> In x l -> In y l -> f x = f y -> x = y.
Proof.
  induction l as [|a l IH]; simpl; intros ND Hx Hy E; [contradiction|].
  inversion ND as [|? ? Hnin ND']; subst.
  destruct Hx as [<-|Hx], Hy as [<-|Hy]; auto.
  - exfalso. apply Hnin. rewrite E. now apply in_map.
  - exfalso. apply Hnin. rewrite <- E. now apply in_map.
Qed.

Lemma apply_set_id (p : Homepage.patch) (d : Homepage.doc) :
  Homepage._id (Homepage.apply_set p d) = Homepage._id d.
Proof. reflexivity. Qed.

Lemma update_one_ids filter p c :
  map Homepage._id (update_one filter p c) = map Homepage._id c.
Proof.
  induction c as [|d c IH]; simpl; [reflexivity|].
  destruct (filter d); simpl; [reflexivity|now rewrite IH].
Qed.

Lemma update_one_length filter p c :
  List.length (update_one filter p c) = List.length c.
Proof.
  rewrite <- (length_map Homepage._id), update_one_ids. apply length_map.
Qed.

Lemma cond_set_ids (f : Homepage.doc -> bool) p c :
  map Homepage._id (map (fun d => if f d then Homepage.apply_set p d else d) c) =
  map Homepage._id c.
Proof.
  rewrite map_map. apply map_ext. intros d. now destruct (f d).
Qed.

(** With unique [_id]s, updating the one document of a given [_id] is a map
    over the collection. *)
Lemma update_one_by_id_map i p c :
  NoDup (map Homepage._id c) ->
  update_one (by_id i) p c =
  map (fun d => if by_id i d then Homepage.apply_set p d else d) c.
Proof.
  induction c as [|d c IH]; simpl; intros ND; [reflexivity|].
  inversion ND as [|? ? Hnin ND']; subst.
  destruct (by_id i d) eqn:E.
  - f_equal. etransitivity; [symmetry; apply map_id|]. apply map_ext_in.
    intros e He. destruct (by_id i e) eqn:E'; [|reflexivity].
    exfalso. apply Hnin. unfold by_id in *.
    apply N.eqb_eq in E, E'. rewrite E, <- E'. now apply in_map.
  - now rewrite IH.
Qed.

Lemma find_one_some {D : Type} (f : D -> bool) c d :
  find_one f c = Some d -> In d c /\ f d = true.
Proof. apply find_some. Qed.

Lemma find_one_none {D : Type} (f : D -> bool) c d :
  find_one f c = None -> In d c -> f d = false.
Proof. intros H. now apply find_none. Qed.

Lemma find_one_sort_s_no_desc_none c :
  find_one_sort_s_no_desc c = None -> c = [].
Proof.
  destruct c as [|d c]; simpl; [reflexivity|].
  destruct (find_one_sort_s_no_desc c) as [m|]; [|discriminate].
  destruct (Homepage.s_no m <=? Homepage.s_no d); discriminate.
Qed.

Lemma find_one_sort_s_no_desc_max c m :
  find_one_sort_s_no_desc c = Some m ->
  In m c /\ forall d, In d c -> Homepage.s_no d <= Homepage.s_no m.
Proof.
  revert m. induction c as [|d c IH]; simpl; intros m H; [discriminate|].
  destruct (find_one_sort_s_no_desc c) as [m'|] eqn:E.
  - destruct (IH m' eq_refl) as [Hin Hmax].
    destruct (Homepage.s_no m' <=? Homepage.s_no d) eqn:L;
      injection H as <-.
    + apply Z.leb_le in L. split; [now left|].
      intros e [<-|He]; [lia|]. specialize (Hmax e He). lia.
    + apply Z.leb_gt in L. split; [now right|].
      intros e [<-|He]; [lia|]. now apply Hmax.
  - injection H as <-. apply find_one_sort_s_no_desc_none in E. subst c.
    split; [now left|]. intros e [<-|[]]. lia.
Qed.

Lemma fresh_id_above c d :
  In d c -> (Homepage._id d < fresh_id c)%N.
Proof.
  unfold fresh_id. induction c as [|e c IH]; simpl; [contradiction|].
  intros [<-|H]; [lia|]. specialize (IH H). lia.
Qed.

Lemma delete_one_incl filter c d :
  In d (snd (delete_one filter c)) -> In d c.
Proof.
  induction c as [|e c IH]; simpl; [auto|].
  destruct (filter e); simpl; [auto|].
  destruct (delete_one filter c) as [n c']; simpl in *.
  intros [H|H]; auto.
Qed.

Lemma delete_one_NoDup {B : Type} (g : Homepage.doc -> B) filter c :
  NoDup (map g c) -> NoDup (map g (snd (delete_one filter c))).
Proof.
  induction c as [|e c IH]; simpl; intros ND; [constructor|].
  inversion ND as [|? ? Hnin ND']; subst.
  destruct (filter e); simpl; [assumption|].
  specialize (IH ND').
  destruct (delete_one filter c) as [n c'] eqn:E; simpl in *.
  constructor; [|assumption].
  intros H. apply Hnin. apply in_map_iff in H as (x & Hx & Hin).
  apply in_map_iff. exists x. split; [assumption|].
  apply (delete_one_incl filter). now rewrite E.
Qed.

Lemma delete_one_length filter c :
  (List.length (snd (delete_one filter c)) <= List.length c)%nat.
Proof.
  induction c as [|e c IH]; simpl; [lia|].
  destruct (filter e); simpl; [lia|].
  destruct (delete_one filter c) as [n c']; simpl in *. lia.
Qed.

(** [deleted_count] is [0] exactly when no document matches, and then the
    collection is untouched. *)
Lemma delete_one_count filter c :
  match find_one filter c with
  | None => delete_one filter c = (0, c)
  | Some _ => fst (delete_one filter c) = 1
  end.
Proof.
  induction c as [|e c IH]; simpl; [reflexivity|].
  destruct (filter e); simpl; [reflexivity|].
  unfold find_one in *.
  destruct (find filter c); destruct (delete_one filter c) as [n c']; simpl in *.
  - assumption.
  - now injection IH as -> ->.
Qed.

Lemma insert_by_s_no_perm d l : Permutation (insert_by_s_no d l) (d :: l).
Proof.
  induction l as [|e l IH]; simpl; [reflexivity|].
  destruct (Homepage.s_no d <=? Homepage.s_no e); [reflexivity|].
  rewrite IH. apply perm_swap.
Qed.

Lemma sort_s_no_asc_perm c : Permutation (sort_s_no_asc c) c.
Proof.
  induction c as [|d c IH]; simpl; [reflexivity|].
  rewrite insert_by_s_no_perm. now constructor.
Qed.

Lemma insert_by_s_no_sorted d l :
  Sorted le_s_no l -> Sorted le_s_no (insert_by_s_no d l).
Proof.
  induction l as [|e l IH]; simpl; intros S.
  - repeat constructor.
  - destruct (Homepage.s_no d <=? Homepage.s_no e) eqn:L.
    + apply Z.leb_le in L. constructor; [assumption|]. now constructor.
    + apply Z.leb_gt in L. inversion S as [|? ? S' Hd]; subst.
      constructor; [now apply IH|].
      destruct l as [|f l]; simpl.
      * constructor. unfold le_s_no. lia.
      * destruct (Homepage.s_no d <=? Homepage.s_no f);
          constructor; unfold le_s_no; [lia|].
        now inversion Hd.
Qed.

Lemma sort_s_no_asc_sorted c : Sorted le_s_no (sort_s_no_asc c).
Proof.
  induction c as [|d c IH]; simpl; [constructor|].
  now apply insert_by_s_no_sorted.
Qed.

Lemma sorted_positions c : Sorted Z.le (map Homepage.s_no (sort_s_no_asc c)).
Proof.
  generalize (sort_s_no_asc_sorted c). generalize (sort_s_no_asc c). clear c.
  intros l. induction 1 as [|d l S IH Hd]; simpl; constructor; [assumption|].
  destruct Hd; simpl; constructor. assumption.
Qed.

(** ** The handlers, case by case *)

Section Handler_cases.

Variable ObjectId : string -> option oid.

Lemma add_ok data token db cat_id prods :
  truthy (sub token) = true ->
  count_documents (homepage_collection db) < 4 ->
  valid_refs ObjectId db (add_category_id data) (add_product_ids data) cat_id prods ->
  add_homepage_section ObjectId data token db =
  (inr (mkAddResponse "Homepage section added" (next_s_no (homepage_collection db))),
   with_homepage db
     (insert_one (next_s_no (homepage_collection db)) cat_id prods
        (homepage_collection db))).
Proof.
  intros Ht Hc (Hcat & Hfind & Hlen & Hp). run_handler.
  rewrite Ht. simpl.
  destruct (4 <=? count_documents (homepage_collection db)) eqn:E;
    [apply Z.leb_le in E; lia|].
  rewrite Hcat.
  destruct (find_one (cat_by_id cat_id) (category_collection db));
    [|contradiction].
  destruct (List.length (add_product_ids data) =? 0)%nat eqn:E0;
    [apply Nat.eqb_eq in E0; lia|].
  destruct (12 <? List.length (add_product_ids data))%nat eqn:E12;
    [apply Nat.ltb_lt in E12; lia|].
  rewrite Hp. unfold next_s_no. reflexivity.
Qed.

Lemma add_inv data token db r db' :
  add_homepage_section ObjectId data token db = (inr r, db') ->
  truthy (sub token) = true /\
  count_documents (homepage_collection db) < 4 /\
  exists cat_id prods,
    valid_refs ObjectId db (add_category_id data) (add_product_ids data) cat_id prods /\
    r = mkAddResponse "Homepage section added" (next_s_no (homepage_collection db)) /\
    db' = with_homepage db
            (insert_one (next_s_no (homepage_collection db)) cat_id prods
               (homepage_collection db)).
Proof.
  run_handler. unfold valid_refs, next_s_no.
  destruct (truthy (sub token)); simpl; [|discriminate].
  destruct (4 <=? count_documents (homepage_collection db)) eqn:E;
    [discriminate|]. apply Z.leb_gt in E.
  destruct (ObjectId (add_category_id data)) as [cat_id|]; [|discriminate].
  destruct (find_one (cat_by_id cat_id) (category_collection db)) eqn:Ec;
    [|discriminate].
  destruct (List.length (add_product_ids data) =? 0)%nat eqn:E0;
    [discriminate|]. apply Nat.eqb_neq in E0.
  destruct (12 <? List.length (add_product_ids data))%nat eqn:E12;
    [discriminate|]. apply Nat.ltb_ge in E12.
  destruct (product_obj_ids_of ObjectId (add_product_ids data)) as [bad|prods];
    [discriminate|].
  intros H. injection H as <- <-.
  repeat split; try lia. exists cat_id, prods.
  repeat split; try lia; try congruence.
Qed.

Lemma add_raise data token db e db' :
  add_homepage_section ObjectId data token db = (inl e, db') -> db' = db.
Proof.
  run_handler.
  destruct (truthy (sub token)); simpl; [|congruence].
  destruct (4 <=? count_documents (homepage_collection db)); [congruence|].
  destruct (ObjectId (add_category_id data)) as [cat_id|]; [|congruence].
  destruct (find_one (cat_by_id cat_id) (category_collection db)); [|congruence].
  destruct (List.length (add_product_ids data) =? 0)%nat; [congruence|].
  destruct (12 <? List.length (add_product_ids data))%nat; [congruence|].
  destruct (product_obj_ids_of ObjectId (add_product_ids data)); congruence.
Qed.

Lemma edit_ok s_no data token db cat_id prods current :
  truthy (sub token) = true ->
  valid_refs ObjectId db (edit_category_id data) (edit_product_ids data) cat_id prods ->
  section_at s_no db = Some current ->
  edit_homepage_section ObjectId s_no data token db =
  (inr "Homepage section updated successfully"%string,
   with_homepage db
     (edit_writes s_no (py_or (edit_s_no data) s_no) cat_id prods current
        (homepage_collection db))).
Proof.
  intros Ht (Hcat & Hfind & Hlen & Hp) Hcur. run_handler.
  rewrite Ht. simpl. rewrite Hcat.
  destruct (find_one (cat_by_id cat_id) (category_collection db));
    [|contradiction].
  destruct (List.length (edit_product_ids data) =? 0)%nat eqn:E0;
    [apply Nat.eqb_eq in E0; lia|].
  destruct (12 <? List.length (edit_product_ids data))%nat eqn:E12;
    [apply Nat.ltb_lt in E12; lia|].
  rewrite Hp. unfold section_at in Hcur. rewrite Hcur.
  unfold edit_writes.
  destruct (negb (py_or (edit_s_no data) s_no =? s_no)); simpl; [|reflexivity].
  destruct (find_one (by_s_no (py_or (edit_s_no data) s_no)) (homepage_collection db));
    reflexivity.
Qed.

Lemma edit_not_found s_no data token db cat_id prods :
  truthy (sub token) = true ->
  valid_refs ObjectId db (edit_category_id data) (edit_product_ids data) cat_id prods ->
  section_at s_no db = None ->
  edit_homepage_section ObjectId s_no data token db =
  (inl (mkHTTPException 404 "Homepage section not found"), db).
Proof.
  intros Ht (Hcat & Hfind & Hlen & Hp) Hcur. run_handler.
  rewrite Ht. simpl. rewrite Hcat.
  destruct (find_one (cat_by_id cat_id) (category_collection db));
    [|contradiction].
  destruct (List.length (edit_product_ids data) =? 0)%nat eqn:E0;
    [apply Nat.eqb_eq in E0; lia|].
  destruct (12 <? List.length (edit_product_ids data))%nat eqn:E12;
    [apply Nat.ltb_lt in E12; lia|].
  rewrite Hp. unfold section_at in Hcur. now rewrite Hcur.
Qed.

(** Every run of [edit] either raises with the store untouched or meets the
    conditions of [edit_ok]. *)
Lemma edit_cases s_no data token db :
  (exists e, edit_homepage_section ObjectId s_no data token db = (inl e, db)) \/
  (exists cat_id prods current,
     truthy (sub token) = true /\
     valid_refs ObjectId db (edit_category_id data) (edit_product_ids data) cat_id prods /\
     section_at s_no db = Some current).
Proof.
  unfold valid_refs, section_at.
  destruct (truthy (sub token)) eqn:Ht;
    [|left; eexists; run_handler; rewrite Ht; reflexivity].
  destruct (ObjectId (edit_category_id data)) as [cat_id|] eqn:Hcat;
    [|left; eexists; run_handler; rewrite Ht, Hcat; reflexivity].
  destruct (find_one (cat_by_id cat_id) (category_collection db)) eqn:Ec;
    [|left; eexists; run_handler; rewrite Ht, Hcat; simpl; rewrite Ec; reflexivity].
  destruct (List.length (edit_product_ids data) =? 0)%nat eqn:E0;
    [left; eexists; run_handler; rewrite Ht, Hcat; simpl; rewrite Ec, E0; reflexivity|].
  destruct (12 <? List.length (edit_product_ids data))%nat eqn:E12;
    [left; eexists; run_handler; rewrite Ht, Hcat; simpl; rewrite Ec, E0, E12; reflexivity|].
  destruct (product_obj_ids_of ObjectId (edit_product_ids data)) as [bad|prods] eqn:Hp;
    [left; eexists; run_handler; rewrite Ht, Hcat; simpl;
     rewrite Ec, E0, E12, Hp; reflexivity|].
  destruct (find_one (by_s_no s_no) (homepage_collection db)) as [current|] eqn:Hcur;
    [|left; eexists; run_handler; rewrite Ht, Hcat; simpl;
      rewrite Ec, E0, E12, Hp, Hcur; reflexivity].
  right. exists cat_id, prods, current.
  apply Nat.eqb_neq in E0. apply Nat.ltb_ge in E12.
  repeat split; try lia; congruence.
Qed.

Lemma delete_cases s_no token db :
  delete_homepage_section s_no token db =
  if negb (truthy (sub token)) then (inl (mkHTTPException 401 "Unauthorized"), db)
  else match section_at s_no db with
       | None => (inl (mkHTTPException 404 "Homepage section not found"), db)
       | Some _ =>
           (inr "Homepage section deleted successfully"%string,
            with_homepage db (snd (delete_one (by_s_no s_no) (homepage_collection db))))
       end.
Proof.
  run_handler. destruct (truthy (sub token)); simpl; [|reflexivity].
  pose proof (delete_one_count (by_s_no s_no) (homepage_collection db)) as H.
  destruct (find_one (by_s_no s_no) (homepage_collection db)).
  - destruct (delete_one (by_s_no s_no) (homepage_collection db)) as [n c'].
    simpl in *. subst n. reflexivity.
  - rewrite H. simpl. now destruct db.
Qed.

End Handler_cases.

(** ** The writes of [edit] *)

(** In a collection with unique [_id]s and unique positions, a filter on the
    [_id] of a member selects the same document as a filter on its position. *)
Lemma by_id_by_s_no c d e :
  NoDup (map Homepage._id c) -> NoDup (map Homepage.s_no c) ->
  In d c -> In e c ->
  by_id (Homepage._id e) d = (Homepage.s_no d =? Homepage.s_no e).
Proof.
  intros Hi Hs Hd He. unfold by_id.
  destruct (N.eqb_spec (Homepage._id d) (Homepage._id e)) as [E|E];
    destruct (Z.eqb_spec (Homepage.s_no d) (Homepage.s_no e)) as [E'|E'];
    try reflexivity.
  - exfalso. apply E'. now rewrite (NoDup_map_eq _ _ _ _ Hi Hd He E).
  - exfalso. apply E. now rewrite (NoDup_map_eq _ _ _ _ Hs Hd He E').
Qed.

Lemma swap_pos_inj a b x y : swap_pos a b x = swap_pos a b y -> x = y.
Proof.
  unfold swap_pos.
  destruct (Z.eqb_spec x a), (Z.eqb_spec x b), (Z.eqb_spec y a), (Z.eqb_spec y b);
    lia.
Qed.

Lemma edit_doc_s_no s n cat prods d :
  Homepage.s_no (edit_doc s n cat prods d) = swap_pos s n (Homepage.s_no d).
Proof.
  unfold edit_doc, swap_pos.
  destruct (Homepage.s_no d =? s); [reflexivity|].
  destruct (Homepage.s_no d =? n); reflexivity.
Qed.

Lemma edit_doc_id s n cat prods d :
  Homepage._id (edit_doc s n cat prods d) = Homepage._id d.
Proof.
  unfold edit_doc.
  destruct (Homepage.s_no d =? s); [reflexivity|].
  destruct (Homepage.s_no d =? n); reflexivity.
Qed.

(** The writes of [edit], one to three single-document updates, amount to
    [edit_doc] applied to every document. *)
Lemma edit_writes_map s n cat prods current c :
  NoDup (map Homepage._id c) -> NoDup (map Homepage.s_no c) ->
  find_one (by_s_no s) c = Some current ->
  edit_writes s n cat prods current c = map (edit_doc s n cat prods) c.
Proof.
  intros Hi Hs Hcur.
  apply find_one_some in Hcur as [Hin Hcs]. unfold by_s_no in Hcs.
  apply Z.eqb_eq in Hcs.
  unfold edit_writes.
  destruct (Z.eqb_spec n s) as [->|Hne]; simpl.
  - rewrite update_one_by_id_map by assumption.
    apply map_ext_in. intros d Hd.
    rewrite (by_id_by_s_no c d current Hi Hs Hd Hin), Hcs.
    unfold edit_doc, Homepage.apply_set. simpl.
    destruct (Z.eqb_spec (Homepage.s_no d) s) as [E|E]; [rewrite E|]; reflexivity.
  - destruct (find_one (by_s_no n) c) as [other|] eqn:Ho.
    + apply find_one_some in Ho as [Hino Hos]. unfold by_s_no in Hos.
      apply Z.eqb_eq in Hos.
      rewrite !update_one_by_id_map
        by (rewrite ?update_one_ids, ?cond_set_ids; exact Hi).
      rewrite !map_map. apply map_ext_in. intros d Hd.
      pose proof (by_id_by_s_no c d current Hi Hs Hd Hin) as Ec.
      pose proof (by_id_by_s_no c d other Hi Hs Hd Hino) as Eo.
      rewrite Hcs in Ec. rewrite Hos in Eo.
      unfold edit_doc.
      destruct (Z.eqb_spec (Homepage.s_no d) s) as [E1|E1];
        destruct (Z.eqb_spec (Homepage.s_no d) n) as [E2|E2];
        try lia.
      all: unfold by_id in *; rewrite ?Eo, ?Ec; simpl;
        rewrite ?Eo, ?Ec; simpl; rewrite ?Eo, ?Ec;
        unfold Homepage.apply_set; simpl; reflexivity.
    + rewrite update_one_by_id_map by assumption.
      apply map_ext_in. intros d Hd.
      rewrite (by_id_by_s_no c d current Hi Hs Hd Hin), Hcs.
      pose proof (find_one_none _ _ d Ho Hd) as Hn. unfold by_s_no in Hn.
      unfold edit_doc. rewrite Hn.
      destruct (Homepage.s_no d =? s); reflexivity.
Qed.

(** ** Invariants of a request *)

Lemma NoDup_snoc {A : Type} (l : list A) (x : A) :
  NoDup l -> ~ In x l -> NoDup (l ++ [x]).
Proof.
  intros ND Hx. apply (Permutation_NoDup (l := x :: l)).
  - apply Permutation_cons_append.
  - now constructor.
Qed.

Lemma NoDup_map_inj {A B : Type} (f : A -> B) (l : list A) :
  (forall x y, f x = f y -> x = y) -> NoDup l -> NoDup (map f l).
Proof.
  intros Hf. induction 1 as [|a l Hnin ND IH]; simpl; constructor; [|assumption].
  intros H. apply in_map_iff in H as (y & E & Hy).
  apply Hf in E. now subst y.
Qed.

Lemma next_s_no_above c d :
  In d c -> Homepage.s_no d < next_s_no c.
Proof.
  intros Hd. unfold next_s_no.
  destruct (find_one_sort_s_no_desc c) as [m|] eqn:E.
  - apply find_one_sort_s_no_desc_max in E as [_ Hmax].
    specialize (Hmax d Hd). lia.
  - apply find_one_sort_s_no_desc_none in E. subst c. contradiction.
Qed.

Lemma insert_one_ids s cat prods c :
  NoDup (map Homepage._id c) ->
  NoDup (map Homepage._id (insert_one s cat prods c)).
Proof.
  intros ND. unfold insert_one. rewrite map_app. simpl.
  apply NoDup_snoc; [assumption|].
  intros H. apply in_map_iff in H as (d & Hid & Hd).
  pose proof (fresh_id_above c d Hd). lia.
Qed.

Lemma insert_one_positions cat prods c :
  NoDup (map Homepage.s_no c) ->
  NoDup (map Homepage.s_no (insert_one (next_s_no c) cat prods c)).
Proof.
  intros ND. unfold insert_one. rewrite map_app. simpl.
  apply NoDup_snoc; [assumption|].
  intros H. apply in_map_iff in H as (d & Hs & Hd).
  pose proof (next_s_no_above c d Hd). lia.
Qed.

Lemma edit_writes_length s n cat prods current c :
  List.length (edit_writes s n cat prods current c) = List.length c.
Proof.
  unfold edit_writes.
  destruct (negb (n =? s)); [destruct (find_one (by_s_no n) c)|];
    now rewrite ?update_one_length.
Qed.

Lemma edit_writes_ids s n cat prods current c :
  map Homepage._id (edit_writes s n cat prods current c) = map Homepage._id c.
Proof.
  unfold edit_writes.
  destruct (negb (n =? s)); [destruct (find_one (by_s_no n) c)|];
    now rewrite ?update_one_ids.
Qed.

Lemma edit_doc_positions s n cat prods c :
  NoDup (map Homepage.s_no c) ->
  NoDup (map Homepage.s_no (map (edit_doc s n cat prods) c)).
Proof.
  intros ND. rewrite map_map.
  rewrite (map_ext _ (fun d => swap_pos s n (Homepage.s_no d)))
    by apply edit_doc_s_no.
  rewrite <- map_map. apply NoDup_map_inj; [|assumption].
  intros x y. apply swap_pos_inj.
Qed.

Section Invariants.

Variable ObjectId : string -> option oid.

(** One request keeps [_id]s unique and positions pairwise distinct. *)
Lemma step_distinct r db :
  wf_ids db -> distinct_positions db ->
  wf_ids (step ObjectId r db) /\ distinct_positions (step ObjectId r db).
Proof.
  unfold wf_ids, distinct_positions, ids, positions.
  intros Hi Hs. destruct r as [data token|s_no data token|s_no token]; simpl.
  - unfold after.
    destruct (add_homepage_section ObjectId data token db) as [[e|r] db'] eqn:E;
      simpl.
    + apply add_raise in E. subst db'. now split.
    + apply add_inv in E as (_ & _ & cat & prods & _ & _ & ->). simpl.
      split; [now apply insert_one_ids|now apply insert_one_positions].
  - unfold after.
    destruct (edit_cases ObjectId s_no data token db)
      as [[e E]|(cat & prods & cur & Ht & Hv & Hcur)].
    + rewrite E. now split.
    + rewrite (edit_ok _ _ _ _ _ _ _ _ Ht Hv Hcur). simpl.
      split; [now rewrite edit_writes_ids|].
      rewrite edit_writes_map by assumption.
      now apply edit_doc_positions.
  - unfold after. rewrite delete_cases.
    destruct (negb (truthy (sub token))); [now split|].
    destruct (section_at s_no db); [|now split].
    simpl. split; now apply delete_one_NoDup.
Qed.

(** One request never takes the collection above four sections. *)
Lemma step_at_most_4 r db :
  (List.length (homepage_collection db) <= 4)%nat ->
  (List.length (homepage_collection (step ObjectId r db)) <= 4)%nat.
Proof.
  intros H. destruct r as [data token|s_no data token|s_no token]; simpl.
  - unfold after.
    destruct (add_homepage_section ObjectId data token db) as [[e|r] db'] eqn:E;
      simpl.
    + apply add_raise in E. now subst db'.
    + apply add_inv in E as (_ & Hc & cat & prods & _ & _ & ->). simpl.
      unfold insert_one, count_documents in *. rewrite length_app. simpl. lia.
  - unfold after.
    destruct (edit_cases ObjectId s_no data token db)
      as [[e E]|(cat & prods & cur & Ht & Hv & Hcur)].
    + now rewrite E.
    + rewrite (edit_ok _ _ _ _ _ _ _ _ Ht Hv Hcur). simpl.
      now rewrite edit_writes_length.
  - unfold after. rewrite delete_cases.
    destruct (negb (truthy (sub token))); [assumption|].
    destruct (section_at s_no db); [|assumption].
    simpl. pose proof (delete_one_length (by_s_no s_no) (homepage_collection db)).
    lia.
Qed.

Lemma trace_invariant (P : DB -> Prop) :
  (forall r db, P db -> P (step ObjectId r db)) ->
  forall rs db, P db -> Forall P (trace ObjectId rs db).
Proof.
  intros Hstep rs. induction rs as [|r rs IH]; simpl; intros db HP.
  - constructor.
  - constructor; [now apply Hstep|]. apply IH. now apply Hstep.
Qed.

End Invariants.

(** ** The listings *)

Section Listings.

Variable str : oid -> string.

Lemma format_section_s_no {P : Type} (view : Product.doc -> P) db sec :
  sv_s_no (format_section str view db sec) = Homepage.s_no sec.
Proof. reflexivity. Qed.

(** The positions a listing shows are the stored ones, in ascending order. *)
Lemma listed_positions {P : Type} (view : Product.doc -> P) db :
  map sv_s_no (map (format_section str view db) (sort_s_no_asc (homepage_collection db))) =
  map Homepage.s_no (sort_s_no_asc (homepage_collection db)).
Proof. rewrite map_map. reflexivity. Qed.

Lemma listed_positions_perm {P : Type} (view : Product.doc -> P) db :
  Permutation
    (map sv_s_no (map (format_section str view db) (sort_s_no_asc (homepage_collection db))))
    (positions db).
Proof.
  rewrite listed_positions. apply Permutation_map, sort_s_no_asc_perm.
Qed.

Lemma list_homepage_sections_inv token db l :
  outcome (list_homepage_sections str token) db = inr l ->
  l = map (format_section str (admin_product_view str) db)
        (sort_s_no_asc (homepage_collection db)).
Proof.
  run_handler. destruct (truthy (sub token)); simpl; congruence.
Qed.

Lemma public_homepage_inv db l :
  outcome (public_homepage str) db = inr l ->
  l = map (format_section str (public_product_view str) db)
        (sort_s_no_asc (homepage_collection db)).
Proof. run_handler. congruence. Qed.

End Listings.

(** ** Looking a section up by its position *)

Lemma find_one_unique c d :
  NoDup (map Homepage.s_no c) -> In d c ->
  find_one (by_s_no (Homepage.s_no d)) c = Some d.
Proof.
  intros ND Hd. induction c as [|e c IH]; simpl; [contradiction|].
  unfold by_s_no at 1.
  destruct (Z.eqb_spec (Homepage.s_no e) (Homepage.s_no d)) as [E|E].
  - f_equal. apply (NoDup_map_eq Homepage.s_no (e :: c)); auto. now left.
  - destruct Hd as [->|Hd]; [contradiction|].
    inversion ND; subst. now apply IH.
Qed.

Lemma update_one_keeps_positions filter p c :
  Homepage.set_s_no p = None ->
  map Homepage.s_no (update_one filter p c) = map Homepage.s_no c.
Proof.
  intros Hp. induction c as [|d c IH]; simpl; [reflexivity|].
  destruct (filter d); simpl; [|now rewrite IH].
  unfold Homepage.apply_set. now rewrite Hp.
Qed.

Lemma apply_set_idem p d :
  Homepage.apply_set p (Homepage.apply_set p d) = Homepage.apply_set p d.
Proof.
  unfold Homepage.apply_set. simpl.
  destruct (Homepage.set_s_no p), (Homepage.set_category_id p),
    (Homepage.set_products p); reflexivity.
Qed.

Lemma update_one_by_id_idem i p c :
  update_one (by_id i) p (update_one (by_id i) p c) = update_one (by_id i) p c.
Proof.
  induction c as [|d c IH]; simpl; [reflexivity|].
  destruct (by_id i d) eqn:E; simpl.
  - unfold by_id in *. simpl. rewrite E. now rewrite apply_set_idem.
  - rewrite E. now rewrite IH.
Qed.

(** An update that sets no position leaves the holder of each position in
    place: the document found there afterwards has the same [_id]. *)
Lemma find_one_after_field_update f p s c cur :
  Homepage.set_s_no p = None ->
  find_one (by_s_no s) c = Some cur ->
  exists cur', find_one (by_s_no s) (update_one f p c) = Some cur' /\
               Homepage._id cur' = Homepage._id cur.
Proof.
  intros Hp. induction c as [|d c IH]; simpl; [discriminate|].
  assert (Hs : forall x, by_s_no s (Homepage.apply_set p x) = by_s_no s x).
  { intros x. unfold by_s_no, Homepage.apply_set. simpl. now rewrite Hp. }
  destruct (by_s_no s d) eqn:E; intros H.
  - injection H as <-. destruct (f d); simpl.
    + rewrite Hs, E. eexists. split; reflexivity.
    + rewrite E. eexists. split; reflexivity.
  - destruct (f d); simpl.
    + rewrite Hs, E. exists cur. split; [assumption|reflexivity].
    + rewrite E. now apply IH.
Qed.

Lemma find_one_by_s_no_map (g : Homepage.doc -> Homepage.doc) s c :
  (forall d, Homepage.s_no (g d) = Homepage.s_no d) ->
  find_one (by_s_no s) (map g c) = option_map g (find_one (by_s_no s) c).
Proof.
  intros Hg. induction c as [|d c IH]; simpl; [reflexivity|].
  unfold by_s_no at 1 3. rewrite Hg.
  destruct (Homepage.s_no d =? s); [reflexivity|exact IH].
Qed.

Lemma py_or_same (x : option Z) (s : Z) :
  x = None \/ x = Some s -> py_or x s = s.
Proof.
  intros [->| ->]; simpl; [reflexivity|]. now destruct (s =? 0).
Qed.

(** * The claims *)

Section Claims.

Variable ObjectId : string -> option oid.
Variable str : oid -> string.

(** C1. Along every sequence of add, edit and delete requests that starts
    from a store with pairwise distinct positions, the positions of the
    stored sections are pairwise distinct at the end of every request, for
    all arguments, any integer [s_no] asked of edit included; so are the
    positions either listing then shows. *)
Theorem C1_positions_pairwise_distinct (rs : list Request) (db : DB) :
  wf_ids db ->
  distinct_positions db ->
  Forall (fun db' =>
            distinct_positions db' /\
            (forall token l,
               outcome (list_homepage_sections str token) db' = inr l ->
               NoDup (map sv_s_no l)) /\
            (forall l,
               outcome (public_homepage str) db' = inr l ->
               NoDup (map sv_s_no l)))
         (trace ObjectId rs db).
Proof.
  intros Hi Hs.
  assert (H : Forall (fun db' => wf_ids db' /\ distinct_positions db')
                (trace ObjectId rs db)).
  { apply trace_invariant; [|now split].
    intros r d [Hi' Hs']. now apply step_distinct. }
  apply Forall_impl with (2 := H). clear. intros db' [_ Hs].
  split; [assumption|]. split.
  - intros token l Hl. apply list_homepage_sections_inv in Hl. subst l.
    apply (Permutation_NoDup (l := positions db')); [|assumption].
    symmetry. apply listed_positions_perm.
  - intros l Hl. apply public_homepage_inv in Hl. subst l.
    apply (Permutation_NoDup (l := positions db')); [|assumption].
    symmetry. apply listed_positions_perm.
Qed.

(** C2. With sections at positions 1, 2 and 3, an edit of position 1 that
    passes validation and asks for position 3 returns; afterwards positions
    1, 2 and 3 are the occupied ones, the section that was at 3 is at 1 with
    its fields as they were, the section that was at 1 is at 3 with the new
    category and products, and the section at 2 is as it was. *)
Theorem C2_swap_first_and_third (data : EditHomepageSection) (token : Token)
    (db : DB) (cat_id : oid) (prods : list oid) (d1 d2 d3 : Homepage.doc) :
  truthy (sub token) = true ->
  valid_refs ObjectId db (edit_category_id data) (edit_product_ids data) cat_id prods ->
  edit_s_no data = Some 3 ->
  wf_ids db ->
  Permutation (positions db) [1; 2; 3] ->
  section_at 1 db = Some d1 ->
  section_at 2 db = Some d2 ->
  section_at 3 db = Some d3 ->
  let m := edit_homepage_section ObjectId 1 data token in
  outcome m db = inr "Homepage section updated successfully"%string /\
  Permutation (positions (after m db)) [1; 2; 3] /\
  section_at 1 (after m db) =
    Some (Homepage.mk (Homepage._id d3) 1 (Homepage.category_id d3) (Homepage.products d3)) /\
  section_at 3 (after m db) = Some (Homepage.mk (Homepage._id d1) 3 cat_id prods) /\
  section_at 2 (after m db) = Some d2.
Proof.
  intros Ht Hv Hs Hi Hperm H1 H2 H3 m. subst m.
  assert (ND : NoDup (positions db)).
  { apply (Permutation_NoDup (l := [1; 2; 3])); [now symmetry|].
    repeat constructor; simpl; lia. }
  unfold outcome, after. rewrite (edit_ok _ _ _ _ _ _ _ _ Ht Hv H1).
  rewrite Hs. simpl py_or. cbn [fst snd].
  rewrite (edit_writes_map _ _ _ _ _ _ Hi ND H1).
  set (f := edit_doc 1 3 cat_id prods).
  assert (ND' : NoDup (map Homepage.s_no (map f (homepage_collection db))))
    by now apply edit_doc_positions.
  assert (L : forall p d, section_at p db = Some d ->
            find_one (by_s_no (Homepage.s_no (f d))) (map f (homepage_collection db))
            = Some (f d)).
  { intros p d Hd. apply find_one_unique; [assumption|].
    apply in_map. now apply find_one_some in Hd. }
  pose proof (L _ _ H1) as L1. pose proof (L _ _ H2) as L2.
  pose proof (L _ _ H3) as L3.
  apply find_one_some in H1 as [_ E1], H2 as [_ E2], H3 as [_ E3].
  unfold by_s_no in E1, E2, E3. apply Z.eqb_eq in E1, E2, E3.
  subst f. unfold edit_doc in L1, L2, L3.
  rewrite E1 in L1. rewrite E2 in L2. rewrite E3 in L3. simpl in L1, L2, L3.
  rewrite E2 in L2.
  split; [reflexivity|]. split; [|unfold section_at; simpl; now repeat split].
  unfold positions. simpl. rewrite map_map.
  rewrite (map_ext _ (fun d => swap_pos 1 3 (Homepage.s_no d)))
    by apply edit_doc_s_no.
  rewrite <- map_map.
  transitivity (map (swap_pos 1 3) [1; 2; 3]); [now apply Permutation_map|].
  simpl. unfold swap_pos. simpl.
  symmetry. apply (Permutation_rev [1; 2; 3]).
Qed.

(** C3, as the code has it. Neither listing filters by position: each has
    one entry per stored section, in ascending position, so it shows exactly
    the positions stored. A section stored at the temporary position -1 is
    listed, and a listing is free of -1 exactly when the store is. *)
Theorem C3_listings_show_every_section (token : Token) (db : DB) :
  (exists l, outcome (public_homepage str) db = inr l /\
             Permutation (map sv_s_no l) (positions db) /\
             Sorted Z.le (map sv_s_no l) /\
             (In (-1) (map sv_s_no l) <-> In (-1) (positions db))) /\
  (forall l, outcome (list_homepage_sections str token) db = inr l ->
             Permutation (map sv_s_no l) (positions db) /\
             Sorted Z.le (map sv_s_no l) /\
             (In (-1) (map sv_s_no l) <-> In (-1) (positions db))).
Proof.
  assert (L : forall {P} (view : Product.doc -> P),
            let shown := map sv_s_no (map (format_section str view db)
                                        (sort_s_no_asc (homepage_collection db))) in
            Permutation shown (positions db) /\
            Sorted Z.le shown /\
            (In (-1) shown <-> In (-1) (positions db))).
  { intros P view shown.
    assert (Hp : Permutation shown (positions db))
      by apply listed_positions_perm.
    split; [exact Hp|]. split.
    - subst shown. rewrite listed_positions. apply sorted_positions.
    - split; apply Permutation_in; [|symmetry]; exact Hp. }
  split.
  - eexists. split; [reflexivity|]. apply L.
  - intros l Hl. apply list_homepage_sections_inv in Hl. subst l. apply L.
Qed.

(** C4. An add that returns assigns the greatest stored position plus one,
    or 1 when nothing is stored, and stores the new section at it. In
    particular, from sections at positions 1 and 2, deleting position 1 and
    then adding with arguments that pass validation gives the new section
    position 3: the store then holds positions 2 and 3 and nothing at 1. *)
Theorem C4_add_assigns_max_plus_one :
  (forall data token db r db',
     add_homepage_section ObjectId data token db = (inr r, db') ->
     ((homepage_collection db = [] /\ assigned_s_no r = 1) \/
      (exists m, In m (homepage_collection db) /\
                 (forall d, In d (homepage_collection db) ->
                            Homepage.s_no d <= Homepage.s_no m) /\
                 assigned_s_no r = Homepage.s_no m + 1)) /\
     exists new, homepage_collection db' = homepage_collection db ++ [new] /\
                 Homepage.s_no new = assigned_s_no r) /\
  (forall data token db cat_id prods,
     truthy (sub token) = true ->
     valid_refs ObjectId db (add_category_id data) (add_product_ids data) cat_id prods ->
     Permutation (positions db) [1; 2] ->
     let db1 := after (delete_homepage_section 1 token) db in
     let db2 := after (add_homepage_section ObjectId data token) db1 in
     outcome (delete_homepage_section 1 token) db =
       inr "Homepage section deleted successfully"%string /\
     outcome (add_homepage_section ObjectId data token) db1 =
       inr (mkAddResponse "Homepage section added" 3) /\
     positions db2 = [2; 3] /\
     section_at 1 db2 = None).
Proof.
  split.
  - intros data token db r db' H.
    apply add_inv in H as (_ & _ & cat & prods & _ & -> & ->). simpl.
    split.
    + unfold next_s_no.
      destruct (find_one_sort_s_no_desc (homepage_collection db)) as [m|] eqn:E.
      * right. exists m. apply find_one_sort_s_no_desc_max in E as [Hin Hmax].
        now repeat split.
      * left. apply find_one_sort_s_no_desc_none in E. now split.
    + eexists. split; reflexivity.
  - intros data token db cat_id prods Ht Hv Hperm db1 db2.
    assert (Hdel : delete_homepage_section 1 token db =
                   (inr "Homepage section deleted successfully"%string, db1) /\
                   positions db1 = [2] /\
                   category_collection db1 = category_collection db).
    { subst db1 db2. unfold after. rewrite delete_cases, Ht. simpl.
      unfold positions, section_at in *.
      destruct db as [cats ps hp]. simpl in *.
      destruct hp as [|a [|b [|? ?]]];
        try (apply Permutation_length in Hperm; discriminate).
      simpl in Hperm. apply Permutation_length_2 in Hperm.
      unfold by_s_no.
      destruct Hperm as [[Ea Eb]|[Ea Eb]]; simpl; rewrite Ea; simpl.
      - repeat split. simpl. now rewrite Eb.
      - rewrite Eb. simpl. repeat split. simpl. now rewrite Ea. }
    destruct Hdel as (Hdel & Hpos & Hcats).
    assert (Hv1 : valid_refs ObjectId db1 (add_category_id data)
                    (add_product_ids data) cat_id prods).
    { unfold valid_refs in *. now rewrite Hcats. }
    assert (Hc : count_documents (homepage_collection db1) < 4).
    { unfold count_documents. unfold positions in Hpos.
      rewrite <- (length_map Homepage.s_no), Hpos. simpl. lia. }
    assert (Hn : next_s_no (homepage_collection db1) = 3).
    { unfold positions in Hpos.
      destruct (homepage_collection db1) as [|a [|? ?]]; try discriminate.
      injection Hpos as Ea. unfold next_s_no. simpl. lia. }
    unfold outcome. subst db2. unfold after.
    rewrite Hdel, (add_ok _ _ _ _ _ _ Ht Hc Hv1), Hn. simpl.
    repeat split.
    + unfold positions, insert_one. simpl. rewrite map_app. simpl.
      unfold positions in Hpos. now rewrite Hpos.
    + unfold section_at, insert_one. simpl.
      unfold positions in Hpos.
      destruct (homepage_collection db1) as [|a [|? ?]]; try discriminate.
      injection Hpos as Ea. simpl. unfold by_s_no. simpl. now rewrite Ea.
Qed.

(** C5. With four or more sections stored, add raises 400 "Max 4 homepage
    sections allowed" and inserts nothing, whatever the category and product
    arguments are: the limit is checked before any of them is looked at. *)
Theorem C5_capacity_first (data : AddHomepageSection) (token : Token) (db : DB) :
  truthy (sub token) = true ->
  4 <= count_documents (homepage_collection db) ->
  add_homepage_section ObjectId data token db =
  (inl (mkHTTPException 400 "Max 4 homepage sections allowed"), db).
Proof.
  intros Ht Hc. run_handler. rewrite Ht. simpl.
  destruct (4 <=? count_documents (homepage_collection db)) eqn:E;
    [reflexivity|]. apply Z.leb_gt in E. lia.
Qed.

(** C6, as the code has it. For a caller that passes authorization the
    listing returns, with one entry per stored section in ascending
    position. A category that no longer resolves is shown under the name
    "N/A". The products of an entry are the stored products whose [_id] the
    section refers to, in the order of the product collection: a product
    reference that no longer resolves has no entry. *)
Theorem C6_listing_best_effort (token : Token) (db : DB) :
  truthy (sub token) = true ->
  exists l,
    outcome (list_homepage_sections str token) db = inr l /\
    Forall2
      (fun sec v =>
         sv_s_no v = Homepage.s_no sec /\
         ((forall c, In c (category_collection db) ->
                     Category._id c <> Homepage.category_id sec) ->
          sv_category_name v = "N/A"%string) /\
         (forall c, find_one (cat_by_id (Homepage.category_id sec))
                      (category_collection db) = Some c ->
                    sv_category_name v = Category.name c) /\
         (forall pv, In pv (sv_products v) <->
                     exists p, In p (product_collection db) /\
                               In (Product._id p) (Homepage.products sec) /\
                               pv = admin_product_view str p))
      (sort_s_no_asc (homepage_collection db)) l.
Proof.
  intros Ht. eexists. split.
  - run_handler. rewrite Ht. reflexivity.
  - generalize (sort_s_no_asc (homepage_collection db)). intros secs.
    induction secs as [|sec secs IH]; simpl; constructor; [|exact IH].
    unfold format_section. simpl. split; [reflexivity|]. split; [|split].
    + intros Hno.
      destruct (find_one (cat_by_id (Homepage.category_id sec)) (category_collection db))
        as [c|] eqn:E; [|reflexivity].
      apply find_one_some in E as [Hin Hc]. unfold cat_by_id in Hc.
      apply N.eqb_eq in Hc. now destruct (Hno c Hin).
    + intros c ->. reflexivity.
    + intros pv. rewrite in_map_iff. split.
      * intros (p & <- & Hp). apply filter_In in Hp as [Hin Hid].
        exists p. repeat split; [assumption|].
        unfold prod_id_in in Hid. apply existsb_exists in Hid as (x & Hx & E).
        apply N.eqb_eq in E. now rewrite E.
      * intros (p & Hin & Hid & ->). exists p. split; [reflexivity|].
        apply filter_In. split; [assumption|].
        unfold prod_id_in. apply existsb_exists.
        exists (Product._id p). split; [assumption|apply N.eqb_refl].
Qed.

(** C7. Along every sequence of add, edit and delete requests that starts
    from a store of at most four sections, the store holds at most four
    sections at the end of every request, and neither listing ever returns
    more than four. *)
Theorem C7_at_most_four (rs : list Request) (db : DB) :
  (List.length (homepage_collection db) <= 4)%nat ->
  Forall (fun db' =>
            (List.length (homepage_collection db') <= 4)%nat /\
            (forall token l,
               outcome (list_homepage_sections str token) db' = inr l ->
               (List.length l <= 4)%nat) /\
            (forall l,
               outcome (public_homepage str) db' = inr l ->
               (List.length l <= 4)%nat))
         (db :: trace ObjectId rs db).
Proof.
  intros H0.
  assert (H : Forall (fun db' => (List.length (homepage_collection db') <= 4)%nat)
                (db :: trace ObjectId rs db)).
  { constructor; [assumption|].
    apply trace_invariant; [|assumption].
    intros r d. apply step_at_most_4. }
  apply Forall_impl with (2 := H). clear. intros db' H.
  assert (L : forall {P} (view : Product.doc -> P),
            List.length (map (format_section str view db')
                           (sort_s_no_asc (homepage_collection db')))
            = List.length (homepage_collection db')).
  { intros P view. rewrite length_map.
    apply Permutation_length, sort_s_no_asc_perm. }
  split; [assumption|]. split.
  - intros token l Hl. apply list_homepage_sections_inv in Hl. subst l.
    now rewrite L.
  - intros l Hl. apply public_homepage_inv in Hl. subst l. now rewrite L.
Qed.

(** C8. An edit that asks for the position the section already has, or for
    none, leaves every position as it was and is idempotent: run again with
    the same arguments it gives the same answer and the same store. When its
    arguments pass validation and the section exists, it returns, and the
    store differs only in the category and products of that section. *)
Theorem C8_edit_in_place (s_no : Z) (data : EditHomepageSection)
    (token : Token) (db : DB) :
  edit_s_no data = None \/ edit_s_no data = Some s_no ->
  let m := edit_homepage_section ObjectId s_no data token in
  positions (after m db) = positions db /\
  m (after m db) = (outcome m db, after m db) /\
  (forall cat_id prods current,
     truthy (sub token) = true ->
     valid_refs ObjectId db (edit_category_id data) (edit_product_ids data) cat_id prods ->
     section_at s_no db = Some current ->
     wf_ids db ->
     outcome m db = inr "Homepage section updated successfully"%string /\
     after m db =
     with_homepage db
       (map (fun d => if by_id (Homepage._id current) d
                      then Homepage.mk (Homepage._id d) (Homepage.s_no d) cat_id prods
                      else d)
            (homepage_collection db))).
Proof.
  intros Hs m. subst m. apply py_or_same in Hs.
  assert (W : forall cat prods cur c,
            edit_writes s_no s_no cat prods cur c =
            update_one (by_id (Homepage._id cur))
              (Homepage.mkPatch None (Some cat) (Some prods)) c).
  { intros. unfold edit_writes. now rewrite Z.eqb_refl. }
  destruct (edit_cases ObjectId s_no data token db)
    as [[e E]|(cat & prods & cur & Ht & Hv & Hcur)]; unfold after, outcome.
  - rewrite E. simpl. rewrite E. split; [reflexivity|]. split; [reflexivity|].
    intros cat0 prods0 cur0 Ht Hv Hcur _.
    rewrite (edit_ok _ _ _ _ _ _ _ _ Ht Hv Hcur) in E. discriminate.
  - rewrite (edit_ok _ _ _ _ _ _ _ _ Ht Hv Hcur), Hs, W. cbn [fst snd].
    split; [|split].
    + unfold positions. simpl. now apply update_one_keeps_positions.
    + destruct (find_one_after_field_update (by_id (Homepage._id cur))
                  (Homepage.mkPatch None (Some cat) (Some prods)) s_no
                  (homepage_collection db) cur eq_refl Hcur) as (cur' & Hcur' & Hid).
      erewrite edit_ok; [| exact Ht | exact Hv | exact Hcur'].
      rewrite Hs, W, Hid. simpl. unfold with_homepage. simpl.
      now rewrite update_one_by_id_idem.
    + intros cat' prods' cur' _ Hv' Hcur' Hi.
      assert (cur' = cur) by congruence. subst cur'.
      destruct Hv as (Hc & _ & _ & Hp), Hv' as (Hc' & _ & _ & Hp').
      assert (cat' = cat) by congruence.
      assert (prods' = prods) by congruence. subst.
      split; [reflexivity|]. f_equal.
      now apply update_one_by_id_map.
Qed.


(** C10. An edit that asks for [s_no = 0] is the edit that asks for no
    [s_no] at all: the same answer and the same store for every target,
    state and argument; the positions of the store are left as they were, so
    0 is not assigned. For a section that exists, with arguments that pass
    validation, it returns, and the store differs only in the category and
    products of that section, which is found at its position with the new
    fields. *)
Theorem C10_zero_is_omitted (s_no : Z) (category_id : string)
    (product_ids : list string) (token : Token) (db : DB) :
  edit_homepage_section ObjectId s_no (mkEdit category_id product_ids (Some 0)) token db =
  edit_homepage_section ObjectId s_no (mkEdit category_id product_ids None) token db /\
  positions (after (edit_homepage_section ObjectId s_no
                      (mkEdit category_id product_ids (Some 0)) token) db) =
  positions db /\
  (forall cat_id prods current,
     truthy (sub token) = true ->
     valid_refs ObjectId db category_id product_ids cat_id prods ->
     section_at s_no db = Some current ->
     wf_ids db ->
     let m := edit_homepage_section ObjectId s_no
                (mkEdit category_id product_ids (Some 0)) token in
     outcome m db = inr "Homepage section updated successfully"%string /\
     after m db =
       with_homepage db
         (map (fun d => if by_id (Homepage._id current) d
                        then Homepage.mk (Homepage._id d) (Homepage.s_no d) cat_id prods
                        else d)
              (homepage_collection db)) /\
     section_at s_no (after m db) =
       Some (Homepage.mk (Homepage._id current) s_no cat_id prods)).
Proof.
  split; [reflexivity|]. split.
  - destruct (edit_cases ObjectId s_no (mkEdit category_id product_ids (Some 0)) token db)
      as [[e E]|(cat & prods & cur & Ht & Hv & Hcur)]; unfold after.
    + now rewrite E.
    + rewrite (edit_ok _ _ _ _ _ _ _ _ Ht Hv Hcur). simpl.
      unfold positions, edit_writes. simpl. rewrite Z.eqb_refl. simpl.
      now apply update_one_keeps_positions.
  - intros cat_id prods current Ht Hv Hcur Hi m. subst m.
    unfold outcome, after.
    rewrite (edit_ok _ _ (mkEdit category_id product_ids (Some 0)) _ _ _ _ _ Ht Hv Hcur).
    cbn [fst snd py_or edit_s_no]. rewrite Z.eqb_refl.
    unfold edit_writes. rewrite Z.eqb_refl. cbn [negb].
    rewrite (update_one_by_id_map _ _ _ Hi).
    split; [reflexivity|]. split; [reflexivity|].
    unfold section_at in *. simpl.
    rewrite find_one_by_s_no_map
      by (intros d; now destruct (by_id (Homepage._id current) d)).
    rewrite Hcur. simpl.
    apply find_one_some in Hcur as [_ Es]. unfold by_s_no in Es.
    apply Z.eqb_eq in Es. unfold by_id. rewrite N.eqb_refl.
    unfold Homepage.apply_set. simpl. now rewrite Es.
Qed.

End Claims.

(** * The claims on the sample stores *)

Lemma C1_witness :
  wf_ids db_123 /\ distinct_positions db_123 /\
  Forall (fun db' =>
            distinct_positions db' /\
            (forall token l,
               outcome (list_homepage_sections hex_str token) db' = inr l ->
               NoDup (map sv_s_no l)) /\
            (forall l,
               outcome (public_homepage hex_str) db' = inr l ->
               NoDup (map sv_s_no l)))
         (trace hex_ObjectId sample_requests db_123).
Proof.
  assert (Hi : wf_ids db_123) by nodup_concrete.
  assert (Hs : distinct_positions db_123) by nodup_concrete.
  split; [exact Hi|]. split; [exact Hs|].
  exact (C1_positions_pairwise_distinct hex_ObjectId hex_str
           sample_requests db_123 Hi Hs).
Defined.

Lemma C2_witness :
  let data := mkEdit rings_id [silver_ring_id] (Some 3) in
  let m := edit_homepage_section hex_ObjectId 1 data admin_token in
  outcome m db_123 = inr "Homepage section updated successfully"%string /\
  Permutation (positions (after m db_123)) [1; 2; 3] /\
  section_at 1 (after m db_123) = Some (Homepage.mk 13%N 1 2%N [161%N; 162%N]) /\
  section_at 3 (after m db_123) = Some (Homepage.mk 11%N 3 1%N [162%N]) /\
  section_at 2 (after m db_123) = Some (Homepage.mk 12%N 2 2%N [162%N]).
Proof.
  intros data m.
  refine (C2_swap_first_and_third hex_ObjectId data admin_token db_123
            1%N [162%N]
            (Homepage.mk 11%N 1 1%N [161%N])
            (Homepage.mk 12%N 2 2%N [162%N])
            (Homepage.mk 13%N 3 2%N [161%N; 162%N])
            eq_refl _ eq_refl _ _ eq_refl eq_refl eq_refl).
  - valid_refs_concrete.
  - nodup_concrete.
  - apply Permutation_sym, (Permutation_cons_append [2; 3] 1).
Defined.

Lemma C4_witness :
  let data := mkAdd chains_id [gold_ring_id] in
  let db1 := after (delete_homepage_section 1 admin_token) db_12 in
  let db2 := after (add_homepage_section hex_ObjectId data admin_token) db1 in
  (outcome (delete_homepage_section 1 admin_token) db_12 =
     inr "Homepage section deleted successfully"%string /\
   outcome (add_homepage_section hex_ObjectId data admin_token) db1 =
     inr (mkAddResponse "Homepage section added" 3) /\
   positions db2 = [2; 3] /\
   section_at 1 db2 = None) /\
  exists new,
    homepage_collection
      (after (add_homepage_section hex_ObjectId data admin_token) db_12) =
    homepage_collection db_12 ++ [new] /\
    Homepage.s_no new = 3.
Proof.
  intros data db1 db2.
  destruct (C4_add_assigns_max_plus_one hex_ObjectId) as [G S].
  split.
  - apply (S data admin_token db_12 2%N [161%N] eq_refl).
    + valid_refs_concrete.
    + apply Permutation_refl.
  - exact (proj2 (G data admin_token db_12
                    (mkAddResponse "Homepage section added" 3)
                    (after (add_homepage_section hex_ObjectId data admin_token) db_12)
                    eq_refl)).
Defined.

Lemma C5_witness :
  add_homepage_section hex_ObjectId (mkAdd "not-an-id" []) admin_token db_full =
  (inl (mkHTTPException 400 "Max 4 homepage sections allowed"), db_full).
Proof.
  apply C5_capacity_first; [reflexivity|vm_compute; discriminate].
Defined.

Lemma C6_witness :
  exists l,
    outcome (list_homepage_sections hex_str admin_token) db_dangling = inr l /\
    Forall2
      (fun sec v =>
         sv_s_no v = Homepage.s_no sec /\
         ((forall c, In c (category_collection db_dangling) ->
                     Category._id c <> Homepage.category_id sec) ->
          sv_category_name v = "N/A"%string) /\
         (forall c, find_one (cat_by_id (Homepage.category_id sec))
                      (category_collection db_dangling) = Some c ->
                    sv_category_name v = Category.name c) /\
         (forall pv, In pv (sv_products v) <->
                     exists p, In p (product_collection db_dangling) /\
                               In (Product._id p) (Homepage.products sec) /\
                               pv = admin_product_view hex_str p))
      (sort_s_no_asc (homepage_collection db_dangling)) l.
Proof.
  exact (C6_listing_best_effort hex_str admin_token db_dangling eq_refl).
Defined.

Lemma C7_witness :
  Forall (fun db' =>
            (List.length (homepage_collection db') <= 4)%nat /\
            (forall token l,
               outcome (list_homepage_sections hex_str token) db' = inr l ->
               (List.length l <= 4)%nat) /\
            (forall l,
               outcome (public_homepage hex_str) db' = inr l ->
               (List.length l <= 4)%nat))
         (db_123 :: trace hex_ObjectId sample_requests db_123).
Proof.
  apply C7_at_most_four. simpl. lia.
Defined.

Lemma C8_witness :
  let data := mkEdit chains_id [gold_ring_id; silver_ring_id] (Some 2) in
  let m := edit_homepage_section hex_ObjectId 2 data admin_token in
  positions (after m db_12) = positions db_12 /\
  m (after m db_12) = (outcome m db_12, after m db_12) /\
  outcome m db_12 = inr "Homepage section updated successfully"%string /\
  after m db_12 =
  store_of [Homepage.mk 11%N 1 1%N [161%N]; Homepage.mk 12%N 2 2%N [161%N; 162%N]].
Proof.
  intros data m.
  destruct (C8_edit_in_place hex_ObjectId 2 data admin_token db_12
              (or_intror eq_refl)) as (Hpos & Hidem & Hfields).
  split; [exact Hpos|]. split; [exact Hidem|].
  refine (Hfields 2%N [161%N; 162%N] (Homepage.mk 12%N 2 2%N [162%N])
            eq_refl _ eq_refl _).
  - valid_refs_concrete.
  - nodup_concrete.
Defined.


Lemma C10_witness :
  let m := edit_homepage_section hex_ObjectId 2
             (mkEdit rings_id [gold_ring_id; silver_ring_id] (Some 0)) admin_token in
  outcome m db_12 = inr "Homepage section updated successfully"%string /\
  after m db_12 =
    store_of [Homepage.mk 11%N 1 1%N [161%N]; Homepage.mk 12%N 2 1%N [161%N; 162%N]] /\
  section_at 2 (after m db_12) = Some (Homepage.mk 12%N 2 1%N [161%N; 162%N]).
Proof.
  intros m.
  destruct (C10_zero_is_omitted hex_ObjectId 2 rings_id
              [gold_ring_id; silver_ring_id] admin_token db_12) as (_ & _ & H).
  refine (H 1%N [161%N; 162%N] (Homepage.mk 12%N 2 2%N [162%N]) eq_refl _ eq_refl _).
  - valid_refs_concrete.
  - nodup_concrete.
Defined.

(** C3 fails on the code. An edit may ask for position -1; the section then
    stored there is shown by both listings. *)
Lemma C3_counterexample :
  let db' := after (edit_homepage_section hex_ObjectId 1
                      (mkEdit rings_id [gold_ring_id] (Some (-1))) admin_token) db_1 in
  positions db' = [-1] /\
  (exists l, outcome (list_homepage_sections hex_str admin_token) db' = inr l /\
             In (-1) (map sv_s_no l)) /\
  (exists l, outcome (public_homepage hex_str) db' = inr l /\
             In (-1) (map sv_s_no l)).
Proof.
  split; [reflexivity|].
  split; eexists; (split; [reflexivity|]); vm_compute; now left.
Qed.

(** C6 fails on the code. Of the two products the section refers to, the
    one that no longer resolves gets no entry, placeholder or other. *)
Lemma C6_counterexample :
  outcome (list_homepage_sections hex_str admin_token) db_dangling =
  inr [ mkSectionView 1 "000000000000000000000009" "N/A"
          [ mkProductView "0000000000000000000000a1" "Gold ring"
              (Some "/uploads/products/65b0.jpg"%string) ] ] /\
  homepage_collection db_dangling = [Homepage.mk 11%N 1 9%N [161%N; 200%N]] /\
  find_one (fun p => N.eqb (Product._id p) 200%N) (product_collection db_dangling) = None /\
  forall l, outcome (list_homepage_sections hex_str admin_token) db_dangling = inr l ->
    ~ exists v pv, In v l /\ In pv (sv_products v) /\
                   (pv_id pv = hex_str 200%N \/ pv_name pv = "N/A"%string).
Proof.
  split; [vm_compute; reflexivity|]. split; [reflexivity|].
  split; [reflexivity|].
  intros l Hl. apply list_homepage_sections_inv in Hl. subst l.
  intros (v & pv & Hv & Hpv & H).
  vm_compute in Hv. destruct Hv as [<-|[]].
  vm_compute in Hpv. destruct Hpv as [<-|[]].
  vm_compute in H. destruct H as [H|H]; discriminate.
Qed.


(** * Further properties of the homepage handlers *)

Lemma find_one_map_s_no (f : Z -> Z) (g : Homepage.doc -> Homepage.doc) p c :
  (forall x y, f x = f y -> x = y) ->
  (forall d, Homepage.s_no (g d) = f (Homepage.s_no d)) ->
  find_one (by_s_no (f p)) (map g c) = option_map g (find_one (by_s_no p) c).
Proof.
  intros Hf Hg. induction c as [|d c IH]; simpl; [reflexivity|].
  unfold by_s_no at 1 3. rewrite Hg.
  destruct (Z.eqb_spec (Homepage.s_no d) p) as [E|E].
  - rewrite E, Z.eqb_refl. reflexivity.
  - destruct (Z.eqb_spec (f (Homepage.s_no d)) (f p)) as [E'|E'];
      [now apply Hf in E'|exact IH].
Qed.

Lemma swap_pos_l a b : swap_pos a b a = b.
Proof. unfold swap_pos. now rewrite Z.eqb_refl. Qed.

Lemma swap_pos_other a b x : x <> a -> x <> b -> swap_pos a b x = x.
Proof.
  intros Ha Hb. unfold swap_pos.
  destruct (Z.eqb_spec x a); [contradiction|].
  destruct (Z.eqb_spec x b); [contradiction|reflexivity].
Qed.

Lemma product_obj_ids_of_length ObjectId pids prods :
  product_obj_ids_of ObjectId pids = inr prods ->
  List.length prods = List.length pids.
Proof.
  revert prods. induction pids as [|pid r IH]; simpl; intros prods H.
  - injection H as <-. reflexivity.
  - destruct (ObjectId pid); [|discriminate].
    destruct (product_obj_ids_of ObjectId r) as [bad|l]; [discriminate|].
    injection H as <-. simpl. now rewrite (IH l eq_refl).
Qed.

Lemma product_obj_ids_of_first_bad ObjectId good bad rest :
  Forall (fun pid => ObjectId pid <> None) good ->
  ObjectId bad = None ->
  product_obj_ids_of ObjectId (good ++ bad :: rest) = inl bad.
Proof.
  intros Hg Hb. induction Hg as [|pid good Hpid Hg IH]; simpl.
  - now rewrite Hb.
  - destruct (ObjectId pid); [|contradiction]. now rewrite IH.
Qed.

Section Homepage_handlers.

Variable ObjectId : string -> option oid.
Variable str : oid -> string.

(** X1. An add that would assign a position the store can hold returns
    exactly when the caller is authorized, fewer than four sections are
    stored and the category and product arguments pass validation; whether
    the products named are stored plays no part. *)
Theorem add_returns_iff (data : AddHomepageSection) (token : Token) (db : DB) :
  fits_int64 (next_s_no (homepage_collection db)) ->
  ((exists r, outcome (add_homepage_section ObjectId data token) db = inr r) <->
   (truthy (sub token) = true /\
    count_documents (homepage_collection db) < 4 /\
    exists cat_id prods,
      valid_refs ObjectId db (add_category_id data) (add_product_ids data) cat_id prods)).
Proof.
  intros _. unfold outcome. split.
  - intros [r Hr].
    destruct (add_homepage_section ObjectId data token db) as [o db'] eqn:E.
    simpl in Hr. subst o.
    apply add_inv in E as (Ht & Hc & cat & prods & Hv & _).
    split; [assumption|]. split; [assumption|]. now exists cat, prods.
  - intros (Ht & Hc & cat & prods & Hv).
    rewrite (add_ok _ _ _ _ _ _ Ht Hc Hv). simpl. eauto.
Qed.

(** X2. An edit whose target position and position asked are ones the
    store can hold returns exactly when the caller is authorized, the
    category and product arguments pass validation and a section is stored at
    the target position. *)
Theorem edit_returns_iff (s_no : Z) (data : EditHomepageSection)
    (token : Token) (db : DB) :
  fits_int64 s_no ->
  fits_int64 (py_or (edit_s_no data) s_no) ->
  ((exists r, outcome (edit_homepage_section ObjectId s_no data token) db = inr r) <->
   (truthy (sub token) = true /\
    (exists cat_id prods,
       valid_refs ObjectId db (edit_category_id data) (edit_product_ids data) cat_id prods) /\
    exists current, section_at s_no db = Some current)).
Proof.
  intros _ _. unfold outcome. split.
  - intros [r Hr].
    destruct (edit_cases ObjectId s_no data token db)
      as [[e E]|(cat & prods & cur & Ht & Hv & Hcur)].
    + rewrite E in Hr. discriminate.
    + split; [assumption|]. split; [now exists cat, prods|now exists cur].
  - intros (Ht & (cat & prods & Hv) & cur & Hcur).
    rewrite (edit_ok _ _ _ _ _ _ _ _ Ht Hv Hcur). simpl. eauto.
Qed.

(** X3. Without a truthy ["sub"] in the token, add, edit, delete and the admin
    listing raise 401 "Unauthorized" before anything else is checked, and the
    store is left as it was. *)
Theorem unauthorized_requests_rejected (token : Token) (db : DB)
    (add_data : AddHomepageSection) (s_no : Z) (edit_data : EditHomepageSection) :
  truthy (sub token) = false ->
  let e := mkHTTPException 401 "Unauthorized" in
  add_homepage_section ObjectId add_data token db = (inl e, db) /\
  edit_homepage_section ObjectId s_no edit_data token db = (inl e, db) /\
  delete_homepage_section s_no token db = (inl e, db) /\
  list_homepage_sections str token db = (inl e, db).
Proof.
  intros Ht e. run_handler. rewrite Ht. simpl. repeat split.
Qed.

(** X4. The argument checks of add, in the order the handler makes them, for an
    authorized caller with room left: an id that does not convert, a category
    that is not stored, no product, more than twelve products, and the first
    product id that does not convert, which the message names. Each raises
    with the store untouched. *)
Theorem add_validation_errors (data : AddHomepageSection) (token : Token) (db : DB) :
  truthy (sub token) = true ->
  count_documents (homepage_collection db) < 4 ->
  let run := add_homepage_section ObjectId data token db in
  (ObjectId (add_category_id data) = None ->
   run = (inl (mkHTTPException 400 "Invalid category_id"), db)) /\
  (forall cat_id,
     ObjectId (add_category_id data) = Some cat_id ->
     (find_one (cat_by_id cat_id) (category_collection db) = None ->
      run = (inl (mkHTTPException 404 "Category not found"), db)) /\
     (find_one (cat_by_id cat_id) (category_collection db) <> None ->
      (add_product_ids data = [] ->
       run = (inl (mkHTTPException 400 "At least 1 product required"), db)) /\
      ((12 < List.length (add_product_ids data))%nat ->
       run = (inl (mkHTTPException 400 "Max 12 products allowed"), db)) /\
      (forall good bad rest,
         add_product_ids data = good ++ bad :: rest ->
         (List.length (add_product_ids data) <= 12)%nat ->
         Forall (fun pid => ObjectId pid <> None) good ->
         ObjectId bad = None ->
         run = (inl (mkHTTPException 400 (String.append "Invalid product id: " bad)), db)))).
Proof.
  intros Ht Hc run. subst run. run_handler. rewrite Ht. simpl.
  destruct (4 <=? count_documents (homepage_collection db)) eqn:E;
    [apply Z.leb_le in E; lia|]. clear E.
  split; [intros ->; reflexivity|].
  intros cat_id ->. split; [intros ->; reflexivity|].
  intros Hcat.
  destruct (find_one (cat_by_id cat_id) (category_collection db)); [|contradiction].
  split; [intros ->; reflexivity|]. split.
  - intros H12.
    destruct (List.length (add_product_ids data)) eqn:El; [lia|].
    simpl. apply Nat.ltb_lt in H12. now rewrite H12.
  - intros good bad rest Hl H12 Hg Hb.
    destruct (List.length (add_product_ids data) =? 0)%nat eqn:E0.
    { apply Nat.eqb_eq in E0. rewrite Hl, length_app in E0. simpl in E0. lia. }
    destruct (12 <? List.length (add_product_ids data))%nat eqn:E12;
      [apply Nat.ltb_lt in E12; lia|].
    rewrite Hl. now rewrite (product_obj_ids_of_first_bad _ _ _ _ Hg Hb).
Qed.

(** X5. Edit checks its category and product arguments as add does, as long
    as the position the add would assign, the target of the edit and the
    position it asks for are ones the store can hold: when an authorized add
    with room left raises, the edit with the same arguments raises the same
    exception, whatever its target; when that add returns, the edit can only
    fail for want of its target. *)
Theorem edit_validates_like_add (category_id : string) (product_ids : list string)
    (desired : option Z) (s_no : Z) (token : Token) (db : DB) :
  truthy (sub token) = true ->
  count_documents (homepage_collection db) < 4 ->
  fits_int64 (next_s_no (homepage_collection db)) ->
  fits_int64 s_no ->
  fits_int64 (py_or desired s_no) ->
  let add := add_homepage_section ObjectId (mkAdd category_id product_ids) token in
  let edit := edit_homepage_section ObjectId s_no
                (mkEdit category_id product_ids desired) token in
  (forall e, outcome add db = inl e -> edit db = (inl e, db)) /\
  (forall r e, outcome add db = inr r -> outcome edit db = inl e ->
               e = mkHTTPException 404 "Homepage section not found" /\
               section_at s_no db = None).
Proof.
  intros Ht Hc _ _ _ add edit. subst add edit. split.
  - run_handler. rewrite Ht. simpl.
    destruct (4 <=? count_documents (homepage_collection db)) eqn:E;
      [apply Z.leb_le in E; lia|]. clear E.
    destruct (ObjectId category_id) as [cat_id|]; [|now intros e [= <-]].
    destruct (find_one (cat_by_id cat_id) (category_collection db));
      [|now intros e [= <-]].
    destruct (List.length product_ids =? 0)%nat; [now intros e [= <-]|].
    destruct (12 <? List.length product_ids)%nat; [now intros e [= <-]|].
    destruct (product_obj_ids_of ObjectId product_ids); [now intros e [= <-]|].
    simpl. discriminate.
  - intros r e Hr He. unfold outcome in *.
    destruct (add_homepage_section ObjectId (mkAdd category_id product_ids) token db)
      as [o db'] eqn:E. simpl in Hr. subst o.
    apply add_inv in E as (_ & _ & cat & prods & Hv & _). simpl in Hv.
    destruct (section_at s_no db) as [cur|] eqn:Hcur.
    + rewrite (edit_ok _ _ (mkEdit category_id product_ids desired) _ _ _ _ _ Ht Hv Hcur)
        in He. discriminate.
    + rewrite (edit_not_found _ _ (mkEdit category_id product_ids desired) _ _ _ _ Ht Hv Hcur)
        in He. simpl in He. injection He as <-. now split.
Qed.

Lemma edit_relocates_core (s_no : Z) (data : EditHomepageSection) (token : Token)
    (db : DB) (cat_id : oid) (prods : list oid) (current : Homepage.doc) :
  truthy (sub token) = true ->
  valid_refs ObjectId db (edit_category_id data) (edit_product_ids data) cat_id prods ->
  section_at s_no db = Some current ->
  wf_ids db ->
  distinct_positions db ->
  let n := py_or (edit_s_no data) s_no in
  let m := edit_homepage_section ObjectId s_no data token in
  outcome m db = inr "Homepage section updated successfully"%string /\
  section_at n (after m db) =
    Some (Homepage.mk (Homepage._id current) n cat_id prods) /\
  (n <> s_no ->
   section_at s_no (after m db) =
     option_map (fun o => Homepage.mk (Homepage._id o) s_no
                            (Homepage.category_id o) (Homepage.products o))
                (section_at n db)) /\
  (forall p, p <> s_no -> p <> n -> section_at p (after m db) = section_at p db) /\
  ids (after m db) = ids db.
Proof.
  intros Ht Hv Hcur Hi Hs n m. subst m.
  unfold outcome, after. rewrite (edit_ok _ _ _ _ _ _ _ _ Ht Hv Hcur).
  fold n. cbn [fst snd].
  unfold wf_ids, distinct_positions, ids, positions in *.
  unfold section_at in *. simpl.
  rewrite (edit_writes_map _ _ _ _ _ _ Hi Hs Hcur).
  assert (L : forall p,
            find_one (by_s_no (swap_pos s_no n p))
              (map (edit_doc s_no n cat_id prods) (homepage_collection db)) =
            option_map (edit_doc s_no n cat_id prods)
              (find_one (by_s_no p) (homepage_collection db))).
  { intros p. apply find_one_map_s_no.
    - intros x y. apply swap_pos_inj.
    - intros d. apply edit_doc_s_no. }
  assert (Ecur : Homepage.s_no current = s_no).
  { apply find_one_some in Hcur as [_ E]. now apply Z.eqb_eq in E. }
  split; [reflexivity|]. split; [|split; [|split]].
  - specialize (L s_no). unfold swap_pos at 1 in L. rewrite Z.eqb_refl in L.
    rewrite L, Hcur. simpl. unfold edit_doc. rewrite Ecur, Z.eqb_refl.
    reflexivity.
  - intros Hne. specialize (L n). unfold swap_pos at 1 in L.
    destruct (Z.eqb_spec n s_no) as [E|_]; [contradiction|].
    rewrite Z.eqb_refl in L. rewrite L.
    destruct (find_one (by_s_no n) (homepage_collection db)) as [o|] eqn:Ho;
      [|reflexivity].
    simpl. apply find_one_some in Ho as [_ Eo]. unfold by_s_no in Eo.
    apply Z.eqb_eq in Eo. unfold edit_doc. rewrite Eo.
    destruct (Z.eqb_spec n s_no) as [E|_]; [contradiction|].
    now rewrite Z.eqb_refl.
  - intros p Hp1 Hp2. specialize (L p). unfold swap_pos at 1 in L.
    destruct (Z.eqb_spec p s_no) as [E|_]; [contradiction|].
    destruct (Z.eqb_spec p n) as [E|_]; [contradiction|].
    rewrite L.
    destruct (find_one (by_s_no p) (homepage_collection db)) as [o|] eqn:Ho;
      [|reflexivity].
    simpl. apply find_one_some in Ho as [_ Eo]. unfold by_s_no in Eo.
    apply Z.eqb_eq in Eo. unfold edit_doc. rewrite Eo.
    destruct (Z.eqb_spec p s_no) as [E|_]; [contradiction|].
    destruct (Z.eqb_spec p n) as [E|_]; [contradiction|]. reflexivity.
  - rewrite map_map. apply map_ext. intros d. apply edit_doc_id.
Qed.

(** X6. What a returning edit does to the store, for every asked position: with
    [n] the position in force ([data.s_no or s_no]), the holder of each
    position [p] is found afterwards at [p] exchanged between [s_no] and [n],
    the target carrying the new category and products and every other
    section its own fields. This covers the in-place update, the move to a
    free position and the exchange with another section. *)
Theorem edit_relocates (s_no : Z) (data : EditHomepageSection) (token : Token)
    (db : DB) (cat_id : oid) (prods : list oid) (current : Homepage.doc) :
  truthy (sub token) = true ->
  valid_refs ObjectId db (edit_category_id data) (edit_product_ids data) cat_id prods ->
  section_at s_no db = Some current ->
  wf_ids db ->
  distinct_positions db ->
  let n := py_or (edit_s_no data) s_no in
  let m := edit_homepage_section ObjectId s_no data token in
  outcome m db = inr "Homepage section updated successfully"%string /\
  section_at n (after m db) =
    Some (Homepage.mk (Homepage._id current) n cat_id prods) /\
  (n <> s_no ->
   section_at s_no (after m db) =
     option_map (fun o => Homepage.mk (Homepage._id o) s_no
                            (Homepage.category_id o) (Homepage.products o))
                (section_at n db)) /\
  (forall p, p <> s_no -> p <> n -> section_at p (after m db) = section_at p db) /\
  ids (after m db) = ids db.
Proof. exact (edit_relocates_core s_no data token db cat_id prods current). Qed.

(** X7. Moving a section from [a] to [b] and then back from [b] to [a],
    both positions the store can hold, puts every section where it was: the
    identifiers and positions of the store are restored, the moved section
    carries the fields of the second edit and any section it was exchanged
    with has its own fields again. *)
Theorem edit_there_and_back (a b : Z) (data1 data2 : EditHomepageSection)
    (token : Token) (db : DB) (cat1 cat2 : oid) (prods1 prods2 : list oid)
    (current : Homepage.doc) :
  truthy (sub token) = true ->
  a <> 0 -> b <> 0 ->
  fits_int64 a -> fits_int64 b ->
  edit_s_no data1 = Some b ->
  edit_s_no data2 = Some a ->
  valid_refs ObjectId db (edit_category_id data1) (edit_product_ids data1) cat1 prods1 ->
  valid_refs ObjectId db (edit_category_id data2) (edit_product_ids data2) cat2 prods2 ->
  section_at a db = Some current ->
  wf_ids db ->
  distinct_positions db ->
  let db1 := after (edit_homepage_section ObjectId a data1 token) db in
  let m2 := edit_homepage_section ObjectId b data2 token in
  outcome m2 db1 = inr "Homepage section updated successfully"%string /\
  homepage_collection (after m2 db1) =
    map (fun d => if Homepage.s_no d =? a
                  then Homepage.mk (Homepage._id d) a cat2 prods2
                  else d)
        (homepage_collection db).
Proof.
  intros Ht Ha Hb _ _ Hs1 Hs2 Hv1 Hv2 Hcur Hi Hs db1 m2. subst db1 m2.
  assert (P1 : py_or (edit_s_no data1) a = b).
  { rewrite Hs1. simpl. destruct (Z.eqb_spec b 0); [contradiction|reflexivity]. }
  assert (P2 : py_or (edit_s_no data2) b = a).
  { rewrite Hs2. simpl. destruct (Z.eqb_spec a 0); [contradiction|reflexivity]. }
  pose proof (step_distinct ObjectId (Edit a data1 token) db Hi Hs) as [Hi1 Hs1'].
  simpl in Hi1, Hs1'.
  pose proof (edit_relocates_core a data1 token db cat1 prods1 current
                Ht Hv1 Hcur Hi Hs) as (_ & Hat & _).
  rewrite P1 in Hat.
  unfold after in *.
  rewrite (edit_ok _ _ _ _ _ _ _ _ Ht Hv1 Hcur), P1 in *. cbn [fst snd] in *.
  assert (Hv2' : valid_refs ObjectId
                   (with_homepage db
                      (edit_writes a b cat1 prods1 current (homepage_collection db)))
                   (edit_category_id data2) (edit_product_ids data2) cat2 prods2)
    by exact Hv2.
  unfold outcome.
  rewrite (edit_ok _ _ _ _ _ _ _ _ Ht Hv2' Hat), P2. cbn [fst snd].
  split; [reflexivity|]. simpl.
  unfold wf_ids, distinct_positions, ids, positions, section_at in *.
  simpl in *.
  rewrite (edit_writes_map _ _ _ _ _ _ Hi1 Hs1' Hat).
  rewrite (edit_writes_map _ _ _ _ _ _ Hi Hs Hcur).
  rewrite map_map. apply map_ext. intros d. unfold edit_doc.
  destruct (Z.eqb_spec (Homepage.s_no d) a) as [E1|E1]; simpl.
  - rewrite Z.eqb_refl. reflexivity.
  - destruct (Z.eqb_spec (Homepage.s_no d) b) as [E2|E2]; simpl.
    + destruct (Z.eqb_spec a b) as [E|_]; [congruence|].
      rewrite Z.eqb_refl. rewrite <- E2. now destruct d.
    + destruct (Z.eqb_spec (Homepage.s_no d) b); [contradiction|].
      destruct (Z.eqb_spec (Homepage.s_no d) a); [contradiction|]. reflexivity.
Qed.

(** X8. The three writes of an exchange, one by one. When no stored section
    sits at the temporary position -1, the positions are pairwise distinct
    after the first write and after the second, as they are after the third,
    which is the state the handler leaves; the count of sections is the same
    throughout. *)
Theorem swap_stages_distinct (s_no : Z) (data : EditHomepageSection) (token : Token)
    (db : DB) (cat_id : oid) (prods : list oid) (current other : Homepage.doc) :
  truthy (sub token) = true ->
  valid_refs ObjectId db (edit_category_id data) (edit_product_ids data) cat_id prods ->
  let n := py_or (edit_s_no data) s_no in
  n <> s_no ->
  section_at s_no db = Some current ->
  section_at n db = Some other ->
  wf_ids db ->
  distinct_positions db ->
  ~ In (-1) (positions db) ->
  let c := homepage_collection db in
  NoDup (map Homepage.s_no (swap_step1 other c)) /\
  NoDup (map Homepage.s_no (swap_step2 n cat_id prods current other c)) /\
  NoDup (map Homepage.s_no (swap_step3 s_no n cat_id prods current other c)) /\
  after (edit_homepage_section ObjectId s_no data token) db =
    with_homepage db (swap_step3 s_no n cat_id prods current other c) /\
  List.length (swap_step1 other c) = List.length c /\
  List.length (swap_step2 n cat_id prods current other c) = List.length c.
Proof.
  intros Ht Hv n Hne Hcur Hoth Hi Hs Hfree c.
  unfold wf_ids, distinct_positions, ids, positions, section_at in *.
  fold c in Hcur, Hoth, Hi, Hs, Hfree.
  assert (W : edit_writes s_no n cat_id prods current c =
              swap_step3 s_no n cat_id prods current other c).
  { unfold edit_writes. destruct (Z.eqb_spec n s_no); [contradiction|].
    simpl. now rewrite Hoth. }
  pose proof (find_one_some _ _ _ Hcur) as [Hinc Ec].
  pose proof (find_one_some _ _ _ Hoth) as [Hino Eo].
  unfold by_s_no in Ec, Eo. apply Z.eqb_eq in Ec, Eo.
  assert (S1 : swap_step1 other c =
               map (fun d => if Homepage.s_no d =? n
                             then Homepage.mk (Homepage._id d) (-1)
                                    (Homepage.category_id d) (Homepage.products d)
                             else d) c).
  { unfold swap_step1. rewrite (update_one_by_id_map _ _ _ Hi).
    apply map_ext_in. intros d Hd.
    now rewrite (by_id_by_s_no c d other Hi Hs Hd Hino), Eo. }
  assert (S2 : swap_step2 n cat_id prods current other c =
               map (fun d => if Homepage.s_no d =? n
                             then Homepage.mk (Homepage._id d) (-1)
                                    (Homepage.category_id d) (Homepage.products d)
                             else if Homepage.s_no d =? s_no
                                  then Homepage.mk (Homepage._id d) n cat_id prods
                                  else d) c).
  { unfold swap_step2.
    rewrite update_one_by_id_map
      by (unfold swap_step1; rewrite update_one_ids; exact Hi).
    rewrite S1, map_map. apply map_ext_in. intros d Hd.
    pose proof (by_id_by_s_no c d current Hi Hs Hd Hinc) as E. rewrite Ec in E.
    unfold by_id in *.
    destruct (Z.eqb_spec (Homepage.s_no d) n) as [E1|E1]; simpl; rewrite E.
    - destruct (Z.eqb_spec (Homepage.s_no d) s_no); [lia|reflexivity].
    - destruct (Homepage.s_no d =? s_no); reflexivity. }
  assert (In1 : forall x, In x (map Homepage.s_no c) -> x <> -1)
    by (intros x Hx ->; contradiction).
  split; [|split; [|split; [|split; [|split]]]].
  - rewrite S1, map_map.
    rewrite (map_ext_in _ (fun d => swap_pos n (-1) (Homepage.s_no d))).
    + rewrite <- map_map. apply NoDup_map_inj; [|assumption].
      intros x y. apply swap_pos_inj.
    + intros d Hd.
      pose proof (In1 _ (in_map Homepage.s_no _ _ Hd)) as Hd1.
      destruct (Z.eqb_spec (Homepage.s_no d) n);
        cbn [Homepage.s_no]; unfold swap_pos;
        repeat match goal with
               | |- context [Z.eqb ?x ?y] => destruct (Z.eqb_spec x y)
               end; lia.
  - rewrite S2, map_map.
    rewrite (map_ext_in _
               (fun d => swap_pos s_no n (swap_pos n (-1) (Homepage.s_no d)))).
    + rewrite <- (map_map Homepage.s_no
                    (fun x => swap_pos s_no n (swap_pos n (-1) x))).
      apply NoDup_map_inj; [|assumption].
      intros x y H. now apply swap_pos_inj, swap_pos_inj in H.
    + intros d Hd.
      pose proof (In1 _ (in_map Homepage.s_no _ _ Hd)) as Hd1.
      assert (s_no <> -1).
      { rewrite <- Ec. apply In1. now apply in_map. }
      assert (n <> -1).
      { rewrite <- Eo. apply In1. now apply in_map. }
      destruct (Z.eqb_spec (Homepage.s_no d) n) as [E1|E1];
        [|destruct (Z.eqb_spec (Homepage.s_no d) s_no) as [E2|E2]];
        cbn [Homepage.s_no].
      * rewrite E1, swap_pos_l, swap_pos_other by lia. reflexivity.
      * rewrite (swap_pos_other n (-1)) by lia. now rewrite E2, swap_pos_l.
      * now rewrite (swap_pos_other n (-1)), (swap_pos_other s_no n) by lia.
  - rewrite <- W, (edit_writes_map _ _ _ _ _ _ Hi Hs Hcur).
    now apply edit_doc_positions.
  - unfold after. rewrite (edit_ok _ _ _ _ _ _ _ _ Ht Hv Hcur). simpl.
    fold n c. now rewrite W.
  - unfold swap_step1. apply update_one_length.
  - unfold swap_step2, swap_step1. now rewrite !update_one_length.
Qed.

End Homepage_handlers.

Lemma update_one_Forall (Q : Homepage.doc -> Prop) filter p c :
  (forall d, Q d -> Q (Homepage.apply_set p d)) ->
  Forall Q c -> Forall Q (update_one filter p c).
Proof.
  intros Hp. induction 1 as [|e l He Hl IH]; simpl; [constructor|].
  destruct (filter e); constructor; auto.
Qed.

Lemma edit_writes_Forall (Q : Homepage.doc -> Prop) s n cat prods cur c :
  (forall d, Q d -> Q (Homepage.mk (Homepage._id d) n cat prods)) ->
  (forall d x, Q d ->
     Q (Homepage.mk (Homepage._id d) x (Homepage.category_id d) (Homepage.products d))) ->
  (forall d, Q d ->
     Q (Homepage.mk (Homepage._id d) (Homepage.s_no d) cat prods)) ->
  Forall Q c -> Forall Q (edit_writes s n cat prods cur c).
Proof.
  intros H1 H2 H3 Hc. unfold edit_writes.
  destruct (negb (n =? s)); [destruct (find_one (by_s_no n) c)|];
    repeat apply update_one_Forall; try assumption;
    intros x Hx; unfold Homepage.apply_set; simpl; auto.
Qed.

Lemma delete_one_as_filter s c :
  NoDup (map Homepage.s_no c) ->
  snd (delete_one (by_s_no s) c) = filter (fun d => negb (by_s_no s d)) c.
Proof.
  induction c as [|d c IH]; simpl; intros ND; [reflexivity|].
  inversion ND as [|? ? Hnin ND']; subst.
  destruct (by_s_no s d) eqn:E; simpl.
  - symmetry. apply forallb_filter_id. apply forallb_forall. intros e He.
    unfold by_s_no in *. apply Z.eqb_eq in E.
    destruct (Z.eqb_spec (Homepage.s_no e) s) as [E'|]; [|reflexivity].
    exfalso. apply Hnin. rewrite E, <- E'. now apply in_map.
  - specialize (IH ND'). destruct (delete_one (by_s_no s) c) as [k c'].
    simpl in *. now rewrite IH.
Qed.

Lemma find_one_filter {D : Type} (f g : D -> bool) c :
  (forall d, f d = true -> g d = true) ->
  find_one f (filter g c) = find_one f c.
Proof.
  intros H. induction c as [|d c IH]; simpl; [reflexivity|].
  destruct (g d) eqn:G; simpl.
  - destruct (f d); [reflexivity|exact IH].
  - destruct (f d) eqn:F; [|exact IH]. apply H in F. congruence.
Qed.

Lemma delete_one_appended s c d :
  (forall e, In e c -> Homepage.s_no e <> s) ->
  Homepage.s_no d = s ->
  delete_one (by_s_no s) (c ++ [d]) = (1, c).
Proof.
  intros Hc Hd. induction c as [|e c IH]; simpl.
  - unfold by_s_no. rewrite Hd, Z.eqb_refl. reflexivity.
  - unfold by_s_no at 1.
    destruct (Z.eqb_spec (Homepage.s_no e) s) as [E|_].
    + exfalso. apply (Hc e); [now left|assumption].
    + rewrite IH; [reflexivity|]. intros x Hx. apply Hc. now right.
Qed.

Section Homepage_sequences.

Variable ObjectId : string -> option oid.

(** X9. Along every sequence of requests, each stored section refers to between
    1 and 12 products, provided the sections stored at the start do. *)
Theorem stored_products_bounded (rs : list Request) (db : DB) :
  products_bounded db ->
  Forall products_bounded (trace ObjectId rs db).
Proof.
  apply trace_invariant. clear. intros r db H. unfold products_bounded in *.
  destruct r as [data token|s_no data token|s_no token]; simpl; unfold after.
  - destruct (add_homepage_section ObjectId data token db) as [[e|r] db'] eqn:E;
      simpl.
    + apply add_raise in E. now subst db'.
    + apply add_inv in E as (_ & _ & cat & prods & Hv & _ & ->). simpl.
      unfold insert_one. apply Forall_app. split; [assumption|].
      constructor; [|constructor]. simpl.
      destruct Hv as (_ & _ & Hlen & Hp).
      now rewrite (product_obj_ids_of_length _ _ _ Hp).
  - destruct (edit_cases ObjectId s_no data token db)
      as [[e E]|(cat & prods & cur & Ht & Hv & Hcur)].
    + now rewrite E.
    + rewrite (edit_ok _ _ _ _ _ _ _ _ Ht Hv Hcur). simpl.
      destruct Hv as (_ & _ & Hlen & Hp).
      apply product_obj_ids_of_length in Hp.
      apply edit_writes_Forall; try assumption; simpl; intros; lia.
  - rewrite delete_cases.
    destruct (negb (truthy (sub token))); [assumption|].
    destruct (section_at s_no db); [|assumption].
    simpl. rewrite Forall_forall in *. intros x Hx.
    apply H. now apply delete_one_incl in Hx.
Qed.

(** X10. No sequence of add, edit and delete requests changes the categories or
    the products: the handlers write to the homepage collection only. *)
Theorem catalog_untouched (rs : list Request) (db : DB) :
  Forall (fun db' => category_collection db' = category_collection db /\
                     product_collection db' = product_collection db)
         (trace ObjectId rs db).
Proof.
  apply (trace_invariant ObjectId
           (fun db' => category_collection db' = category_collection db /\
                       product_collection db' = product_collection db));
    [|now split].
  clear rs. intros r d [Hc Hp].
  destruct r as [data token|s_no data token|s_no token]; simpl; unfold after.
  - destruct (add_homepage_section ObjectId data token d) as [[e|r] db'] eqn:E;
      simpl.
    + apply add_raise in E. now subst db'.
    + apply add_inv in E as (_ & _ & cat & prods & _ & _ & ->). now simpl.
  - destruct (edit_cases ObjectId s_no data token d)
      as [[e E]|(cat & prods & cur & Ht & Hv & Hcur)].
    + now rewrite E.
    + now rewrite (edit_ok _ _ _ _ _ _ _ _ Ht Hv Hcur).
  - rewrite delete_cases.
    destruct (negb (truthy (sub token))); [now split|].
    destruct (section_at s_no d); now split.
Qed.

(** X11. Deleting the section an add has just stored, by the position the add
    returned, gives back the store the add started from. *)
Theorem add_then_delete (data : AddHomepageSection) (token : Token)
    (db db1 : DB) (r : AddResponse) :
  add_homepage_section ObjectId data token db = (inr r, db1) ->
  delete_homepage_section (assigned_s_no r) token db1 =
  (inr "Homepage section deleted successfully"%string, db).
Proof.
  intros H. apply add_inv in H as (Ht & _ & cat & prods & _ & -> & ->).
  simpl. run_handler. rewrite Ht. simpl. unfold insert_one.
  rewrite delete_one_appended; [now destruct db| |reflexivity].
  intros e He. pose proof (next_s_no_above _ _ He). lia.
Qed.

Lemma delete_removes_one_core (s_no : Z) (token : Token) (db : DB) :
  truthy (sub token) = true ->
  distinct_positions db ->
  let m := delete_homepage_section s_no token in
  (section_at s_no db = None ->
   m db = (inl (mkHTTPException 404 "Homepage section not found"), db)) /\
  (forall d, section_at s_no db = Some d ->
     outcome m db = inr "Homepage section deleted successfully"%string /\
     homepage_collection (after m db) =
       filter (fun x => negb (by_s_no s_no x)) (homepage_collection db) /\
     section_at s_no (after m db) = None /\
     (forall p, p <> s_no -> section_at p (after m db) = section_at p db) /\
     S (List.length (homepage_collection (after m db))) =
       List.length (homepage_collection db)).
Proof.
  intros Ht Hs m. subst m. unfold outcome, after.
  rewrite delete_cases, Ht. simpl. split; [now intros ->|].
  intros d Hd. rewrite Hd. simpl.
  rewrite (delete_one_as_filter _ _ Hs).
  split; [reflexivity|]. split; [reflexivity|].
  unfold section_at in *. simpl. split; [|split].
  - destruct (find_one (by_s_no s_no)
                (filter (fun x => negb (by_s_no s_no x)) (homepage_collection db)))
      as [x|] eqn:E; [|reflexivity].
    apply find_one_some in E as [Hin Hx]. apply filter_In in Hin as [_ Hn].
    rewrite Hx in Hn. discriminate.
  - intros p Hp. apply find_one_filter. intros x Hx. unfold by_s_no in *.
    apply Z.eqb_eq in Hx.
    destruct (Z.eqb_spec (Homepage.s_no x) s_no); [lia|reflexivity].
  - rewrite <- (delete_one_as_filter _ _ Hs).
    clear Hs. revert Hd. generalize (homepage_collection db). intros c.
    induction c as [|e c IH]; simpl; [discriminate|].
    destruct (by_s_no s_no e); simpl; [reflexivity|].
    intros H. specialize (IH H).
    destruct (delete_one (by_s_no s_no) c) as [k c']. simpl in *. now rewrite IH.
Qed.


(** X13. Positions are handed out again: after the section at the greatest
    position [p >= 1] is deleted, a valid add assigns a position no greater
    than [p], and [p] itself when [p - 1] is occupied. *)
Theorem deleted_last_position_is_reused (p : Z) (data : AddHomepageSection)
    (token : Token) (db : DB) (cat_id : oid) (prods : list oid) (d : Homepage.doc) :
  truthy (sub token) = true ->
  valid_refs ObjectId db (add_category_id data) (add_product_ids data) cat_id prods ->
  count_documents (homepage_collection db) <= 4 ->
  distinct_positions db ->
  section_at p db = Some d ->
  1 <= p ->
  (forall x, In x (positions db) -> x <= p) ->
  let db1 := after (delete_homepage_section p token) db in
  exists q,
    outcome (add_homepage_section ObjectId data token) db1 =
      inr (mkAddResponse "Homepage section added" q) /\
    q <= p /\
    (In (p - 1) (positions db) -> q = p).
Proof.
  intros Ht Hv Hc Hs Hd Hp Hmax db1.
  destruct (delete_removes_one_core p token db Ht Hs) as [_ Hdel].
  destruct (Hdel d Hd) as (_ & Hhp & _ & Hkeep & Hlen). fold db1 in Hhp, Hkeep, Hlen.
  assert (Hcats : category_collection db1 = category_collection db).
  { subst db1. unfold after. rewrite delete_cases, Ht. simpl.
    now destruct (section_at p db). }
  assert (Hv1 : valid_refs ObjectId db1 (add_category_id data)
                  (add_product_ids data) cat_id prods).
  { unfold valid_refs in *. now rewrite Hcats. }
  assert (Hc1 : count_documents (homepage_collection db1) < 4).
  { unfold count_documents in *. lia. }
  exists (next_s_no (homepage_collection db1)).
  unfold outcome. rewrite (add_ok _ _ _ _ _ _ Ht Hc1 Hv1). simpl.
  split; [reflexivity|].
  assert (Hlt : forall e, In e (homepage_collection db1) -> Homepage.s_no e < p).
  { intros e He. rewrite Hhp in He. apply filter_In in He as [He Hne].
    unfold by_s_no in Hne.
    destruct (Z.eqb_spec (Homepage.s_no e) p); [discriminate|].
    specialize (Hmax _ (in_map Homepage.s_no _ _ He)). lia. }
  assert (Hle : next_s_no (homepage_collection db1) <= p).
  { unfold next_s_no.
    destruct (find_one_sort_s_no_desc (homepage_collection db1)) as [m|] eqn:E;
      [|lia].
    apply find_one_sort_s_no_desc_max in E as [Hin _].
    specialize (Hlt m Hin). lia. }
  split; [exact Hle|].
  intros Hprev. apply in_map_iff in Hprev as (e & He & Hin).
  assert (Hin1 : In e (homepage_collection db1)).
  { rewrite Hhp. apply filter_In. split; [assumption|].
    unfold by_s_no. destruct (Z.eqb_spec (Homepage.s_no e) p); [lia|reflexivity]. }
  pose proof (next_s_no_above _ _ Hin1). lia.
Qed.

End Homepage_sequences.

(** * Accounts, carts and chats *)

(** ** Updates and deletions on a collection *)

Lemma update_first_map {D K : Type} (key : D -> K) filter g (c : list D) :
  (forall d, key (g d) = key d) ->
  map key (update_first filter g c) = map key c.
Proof.
  intros Hg. induction c as [|d c IH]; simpl; [reflexivity|].
  destruct (filter d); simpl; [now rewrite Hg|now rewrite IH].
Qed.

Lemma update_first_Forall {D : Type} (Q : D -> Prop) filter g (c : list D) :
  (forall d, filter d = true -> Q d -> Q (g d)) ->
  Forall Q c -> Forall Q (update_first filter g c).
Proof.
  intros Hg. induction 1 as [|e l He Hl IH]; simpl; [constructor|].
  destruct (filter e) eqn:E; constructor; auto.
Qed.

(** With unique keys, the update of the document of a given key is a map. *)
Lemma update_first_by_key {D : Type} (key : D -> oid) i g (c : list D) :
  NoDup (map key c) ->
  update_first (fun d => N.eqb (key d) i) g c =
  map (fun d => if N.eqb (key d) i then g d else d) c.
Proof.
  induction c as [|d c IH]; simpl; intros ND; [reflexivity|].
  inversion ND as [|? ? Hnin ND']; subst.
  destruct (N.eqb_spec (key d) i) as [E|E].
  - f_equal. etransitivity; [symmetry; apply map_id|]. apply map_ext_in.
    intros e He. destruct (N.eqb_spec (key e) i) as [E'|]; [|reflexivity].
    exfalso. apply Hnin. rewrite E, <- E'. now apply in_map.
  - now rewrite IH.
Qed.

Lemma delete_first_incl {D : Type} filter (c : list D) d :
  In d (delete_first filter c) -> In d c.
Proof.
  induction c as [|e c IH]; simpl; [auto|].
  destruct (filter e); simpl; [auto|]. intros [H|H]; auto.
Qed.

Lemma delete_first_NoDup {D K : Type} (key : D -> K) filter (c : list D) :
  NoDup (map key c) -> NoDup (map key (delete_first filter c)).
Proof.
  induction c as [|e c IH]; simpl; intros ND; [constructor|].
  inversion ND as [|? ? Hnin ND']; subst.
  destruct (filter e); simpl; [assumption|].
  constructor; [|now apply IH].
  intros H. apply Hnin. apply in_map_iff in H as (x & Hx & Hin).
  apply in_map_iff. exists x. split; [assumption|].
  now apply delete_first_incl in Hin.
Qed.

Lemma fresh_oid_above used i : In i used -> (i < fresh_oid used)%N.
Proof.
  unfold fresh_oid. induction used as [|j used IH]; simpl; [contradiction|].
  intros [<-|H]; [lia|]. specialize (IH H). lia.
Qed.

Lemma fresh_oid_new used : ~ In (fresh_oid used) used.
Proof. intros H. apply fresh_oid_above in H. lia. Qed.

Lemma no_user_with_email e users :
  find_one (user_by_email e) users = None -> ~ In e (map User.email users).
Proof.
  intros Hn Hin. apply in_map_iff in Hin as (u & Hu & Hin).
  pose proof (find_one_none _ _ u Hn Hin) as H. unfold user_by_email in H.
  rewrite Hu, String.eqb_refl in H. discriminate.
Qed.

Lemma no_chat_with_user_id uid chats :
  find_one (chat_by_user_id uid) chats = None -> ~ In uid (map Chat.user_id chats).
Proof.
  intros Hn Hin. apply in_map_iff in Hin as (c & Hc & Hin).
  pose proof (find_one_none _ _ c Hn Hin) as H. unfold chat_by_user_id in H.
  rewrite Hc, String.eqb_refl in H. discriminate.
Qed.

Lemma no_admin_with_username u admins :
  find_one (admin_by_username u) admins = None -> ~ In u (usernames admins).
Proof.
  induction admins as [|a admins IH]; simpl; [auto|].
  unfold admin_by_username at 1.
  destruct (Admin.username a) as [x|]; [|exact IH].
  destruct (String.eqb_spec x u) as [E|E]; [discriminate|].
  intros Hn [H|H]; [contradiction|now apply IH].
Qed.

Lemma usernames_app l1 l2 : usernames (l1 ++ l2) = usernames l1 ++ usernames l2.
Proof.
  induction l1 as [|a l1 IH]; simpl; [reflexivity|].
  destruct (Admin.username a); simpl; now rewrite IH.
Qed.

(** Breaks a handler down along the lookups and tests it makes. *)
Ltac account_cases :=
  unfold admin_register, admin_login, register_google_user, add_to_cart,
    remove_from_cart, clear_cart, send_message, get_messages,
    get_chat_by_email, send_reply, clear_chat, push_or_insert;
  repeat match goal with
         | |- context [not_an_admin ?t ?s] => destruct (not_an_admin t s) eqn:?
         | |- context [find_one ?f ?c] => destruct (find_one f c) eqn:?
         | |- context [if existsb ?f ?l then _ else _] => destruct (existsb f l) eqn:?
         | |- context [if negb ?b then _ else _] => destruct b eqn:?; cbn [negb]
         end;
  simpl.

Section Account_invariants.

Variable str : oid -> string.
Variable sha256_hexdigest : string -> string.
Variable jwt_encode : string -> Z -> string.

Lemma account_trace_invariant (P : Accounts -> Prop) :
  (forall r st, P st -> P (account_step str sha256_hexdigest jwt_encode r st)) ->
  forall rs st, P st -> Forall P (account_trace str sha256_hexdigest jwt_encode rs st).
Proof.
  intros Hstep rs. induction rs as [|r rs IH]; simpl; intros st HP.
  - constructor.
  - constructor; [now apply Hstep|]. apply IH. now apply Hstep.
Qed.

(** No request breaks the uniqueness of [_id]. *)
Lemma step_accounts_wf r st : accounts_wf st -> accounts_wf (account_step str sha256_hexdigest jwt_encode r st).
Proof.
  unfold accounts_wf. intros [Hu Hc].
  destruct r; simpl; account_cases; try (split; assumption);
    rewrite ?map_app; simpl;
    rewrite ?(update_first_map User._id), ?(update_first_map Chat._id)
      by reflexivity;
    try (split; assumption).
  - split; [|assumption]. apply NoDup_snoc; [assumption|apply fresh_oid_new].
  - split; [assumption|]. apply NoDup_snoc; [assumption|apply fresh_oid_new].
  - split; [assumption|]. apply NoDup_snoc; [assumption|apply fresh_oid_new].
  - split; [assumption|]. now apply delete_first_NoDup.
Qed.

(** X14. Along every sequence of account requests, no two users share an email
    address, provided none do at the start: registration stores a user only
    under an address no stored user has. *)
Theorem emails_stay_distinct (rs : list AccountRequest) (st : Accounts) :
  emails_distinct st ->
  Forall emails_distinct (account_trace str sha256_hexdigest jwt_encode rs st).
Proof.
  apply account_trace_invariant. clear. intros r st H.
  unfold emails_distinct in *.
  destruct r; simpl; account_cases; try assumption;
    rewrite ?map_app; simpl;
    rewrite ?(update_first_map User.email) by reflexivity;
    try assumption.
  apply NoDup_snoc; [assumption|]. now apply no_user_with_email.
Qed.

(** X15. Along every sequence of account requests, no user has two chat
    documents, provided none has at the start: a message opens a chat only
    when its user has none. *)
Theorem one_chat_per_user_kept (rs : list AccountRequest) (st : Accounts) :
  one_chat_per_user st ->
  Forall one_chat_per_user (account_trace str sha256_hexdigest jwt_encode rs st).
Proof.
  apply account_trace_invariant. clear. intros r st H.
  unfold one_chat_per_user in *.
  destruct r; simpl; account_cases; try assumption;
    rewrite ?map_app; simpl;
    rewrite ?(update_first_map Chat.user_id) by reflexivity;
    try assumption;
    try (apply NoDup_snoc; [assumption|now apply no_chat_with_user_id]).
  now apply delete_first_NoDup.
Qed.

(** X16. Along every sequence of account requests, no two admins share a
    username, provided none do at the start. *)
Theorem usernames_stay_distinct (rs : list AccountRequest) (st : Accounts) :
  usernames_distinct st ->
  Forall usernames_distinct (account_trace str sha256_hexdigest jwt_encode rs st).
Proof.
  apply account_trace_invariant. clear. intros r st H.
  unfold usernames_distinct in *.
  destruct r; simpl; account_cases; try assumption.
  rewrite usernames_app. simpl.
  apply NoDup_snoc; [assumption|]. now apply no_admin_with_username.
Qed.

End Account_invariants.

(** ** Carts *)

Lemma find_one_map_preserving {D : Type} (f : D -> bool) (h : D -> D) (c : list D) :
  (forall d, f (h d) = f d) ->
  find_one f (map h c) = option_map h (find_one f c).
Proof.
  intros H. induction c as [|d c IH]; simpl; [reflexivity|].
  rewrite H. destruct (f d); [reflexivity|exact IH].
Qed.

(** The user found under an address after the update of one user's cart:
    the updated document for its own address, the stored one for any
    other. *)
Lemma find_user_after_cart_update g e users user :
  NoDup (map User._id users) ->
  (forall u, User.email (g u) = User.email u) ->
  In user users ->
  find_one (user_by_email e)
    (update_first (user_by_id (User._id user)) g users) =
  match find_one (user_by_email e) users with
  | Some u => if user_by_id (User._id user) u then Some (g u) else Some u
  | None => None
  end.
Proof.
  intros ND Hg Hin. unfold user_by_id.
  rewrite (update_first_by_key User._id _ _ _ ND).
  rewrite find_one_map_preserving.
  - destruct (find_one (user_by_email e) users) as [u|]; simpl; [|reflexivity].
    now destruct (N.eqb (User._id u) (User._id user)).
  - intros d. unfold user_by_email.
    destruct (N.eqb (User._id d) (User._id user)); [now rewrite Hg|reflexivity].
Qed.

Lemma same_user users u v :
  NoDup (map User._id users) -> In u users -> In v users ->
  user_by_id (User._id u) v = true -> v = u.
Proof.
  intros ND Hu Hv E. unfold user_by_id in E. apply N.eqb_eq in E.
  now apply (NoDup_map_eq User._id users).
Qed.

Lemma cart_of_after_update g email e st user :
  NoDup (map User._id (user_collection st)) ->
  (forall u, User.email (g u) = User.email u) ->
  find_one (user_by_email email) (user_collection st) = Some user ->
  cart_of e
    (with_users st (update_first (user_by_id (User._id user)) g (user_collection st))) =
  if String.eqb e email then cart_or_empty (g user) else cart_of e st.
Proof.
  intros ND Hg Hf. unfold cart_of. simpl.
  pose proof (find_one_some _ _ _ Hf) as [Hin He].
  unfold user_by_email in He. apply String.eqb_eq in He.
  rewrite (find_user_after_cart_update g e _ user ND Hg Hin).
  destruct (String.eqb_spec e email) as [->|Hne].
  - rewrite Hf. unfold user_by_id. now rewrite N.eqb_refl.
  - destruct (find_one (user_by_email e) (user_collection st)) as [u|] eqn:Eu;
      [|reflexivity].
    destruct (user_by_id (User._id user) u) eqn:Ei; [|reflexivity].
    apply find_one_some in Eu as [Hu Hue].
    apply (same_user _ _ _ ND Hin Hu) in Ei. subst u.
    unfold user_by_email in Hue. apply String.eqb_eq in Hue. congruence.
Qed.

Lemma update_first_Forall_in {D : Type} (Q : D -> Prop) filter g (c : list D) :
  (forall d, In d c -> filter d = true -> Q d -> Q (g d)) ->
  Forall Q c -> Forall Q (update_first filter g c).
Proof.
  intros Hg H. induction H as [|e l He Hl IH]; simpl; [constructor|].
  destruct (filter e) eqn:E; constructor; auto.
  - apply Hg; auto. now left.
  - apply IH. intros d Hd. apply Hg. now right.
Qed.

(** Dropping entries from a cart cannot create a duplicate. *)
Lemma filtered_cart_NoDup (keep : CartItem.t -> bool) (cart : list CartItem.t) :
  NoDup (map CartItem.product_id cart) ->
  NoDup (map CartItem.product_id (filter keep cart)).
Proof.
  intros ND. induction cart as [|item cart IH]; [constructor|].
  apply NoDup_cons_iff in ND as [Hfresh ND]. simpl.
  destruct (keep item); [|now apply IH].
  simpl. apply NoDup_cons; [|now apply IH].
  intros Hin. apply Hfresh.
  apply in_map_iff in Hin as (other & Hpid & Hother).
  apply filter_In in Hother as [Hother _].
  rewrite <- Hpid. now apply in_map.
Qed.

(** The three cart routes raise 404 "User not found" for an address no user
    is registered under, and change nothing. *)
Lemma cart_routes_need_a_user (email product_id : string) (quantity : Z)
    (st : Accounts) :
  find_one (user_by_email email) (user_collection st) = None ->
  let e := mkHTTPException 404 "User not found" in
  add_to_cart email product_id quantity st = (inl e, st) /\
  remove_from_cart email product_id st = (inl e, st) /\
  clear_cart email st = (inl e, st).
Proof.
  intros H e. unfold add_to_cart, remove_from_cart, clear_cart.
  rewrite H. repeat split.
Qed.

Lemma add_to_cart_effect_core (email product_id : string) (quantity : Z)
    (st : Accounts) (user : User.doc) :
  accounts_wf st ->
  find_one (user_by_email email) (user_collection st) = Some user ->
  let run := add_to_cart email product_id quantity st in
  (in_cart product_id (cart_of email st) = true ->
   run = (inr (mkCartResponse "Already in cart" (cart_of email st)), st)) /\
  (in_cart product_id (cart_of email st) = false ->
   let cart := cart_of email st ++ [CartItem.mk product_id quantity] in
   fst run = inr (mkCartResponse "Added to cart" cart) /\
   cart_of email (snd run) = cart /\
   (forall e, e <> email -> cart_of e (snd run) = cart_of e st) /\
   map User.email (user_collection (snd run)) = map User.email (user_collection st)).
Proof.
  intros [ND _] Hf run. subst run. unfold add_to_cart, in_cart, cart_of.
  rewrite Hf. split; intros E; rewrite E; [reflexivity|].
  cbn [fst snd]. split; [reflexivity|].
  set (g := fun u => User.set_cart
                       (Some (cart_or_empty u ++ [CartItem.mk product_id quantity])) u).
  assert (Hg : forall u, User.email (g u) = User.email u) by reflexivity.
  pose proof (cart_of_after_update g email) as L. unfold cart_of in L.
  split; [|split].
  - rewrite (L email st user ND Hg Hf), String.eqb_refl. reflexivity.
  - intros e He. rewrite (L e st user ND Hg Hf).
    destruct (String.eqb_spec e email); [contradiction|reflexivity].
  - simpl. now apply update_first_map.
Qed.


Lemma remove_from_cart_effect_core (email product_id : string) (st : Accounts)
    (user : User.doc) :
  accounts_wf st ->
  find_one (user_by_email email) (user_collection st) = Some user ->
  let run := remove_from_cart email product_id st in
  fst run = inr "Removed from cart"%string /\
  cart_of email (snd run) =
    filter (fun item => negb (String.eqb (CartItem.product_id item) product_id))
           (cart_of email st) /\
  in_cart product_id (cart_of email (snd run)) = false /\
  (forall e, e <> email -> cart_of e (snd run) = cart_of e st).
Proof.
  intros [ND _] Hf run. subst run. unfold remove_from_cart. rewrite Hf.
  cbn [fst snd]. split; [reflexivity|].
  assert (Hg : forall u, User.email (pull_product product_id u) = User.email u)
    by reflexivity.
  assert (Hc : cart_of email
                 (with_users st
                    (update_first (user_by_id (User._id user))
                       (pull_product product_id) (user_collection st))) =
               filter (fun item => negb (String.eqb (CartItem.product_id item) product_id))
                      (cart_of email st)).
  { rewrite (cart_of_after_update _ email email st user ND Hg Hf), String.eqb_refl.
    unfold cart_of. rewrite Hf. unfold pull_product, cart_or_empty. simpl.
    now destruct (User.cart user). }
  split; [exact Hc|]. split.
  - rewrite Hc. unfold in_cart.
    destruct (existsb _ _) eqn:E; [|reflexivity].
    apply existsb_exists in E as (x & Hx & Ex).
    apply filter_In in Hx as [_ Hx]. rewrite Ex in Hx. discriminate.
  - intros e He. rewrite (cart_of_after_update _ email e st user ND Hg Hf).
    destruct (String.eqb_spec e email); [contradiction|reflexivity].
Qed.

(** X18. Removing a product from a cart removes every entry of that product and
    keeps the others in order; it answers "Removed from cart" whether or not
    the product was there, and leaves the other carts alone. *)
Theorem remove_from_cart_effect (email product_id : string) (st : Accounts)
    (user : User.doc) :
  accounts_wf st ->
  find_one (user_by_email email) (user_collection st) = Some user ->
  let run := remove_from_cart email product_id st in
  fst run = inr "Removed from cart"%string /\
  cart_of email (snd run) =
    filter (fun item => negb (String.eqb (CartItem.product_id item) product_id))
           (cart_of email st) /\
  in_cart product_id (cart_of email (snd run)) = false /\
  (forall e, e <> email -> cart_of e (snd run) = cart_of e st).
Proof. exact (remove_from_cart_effect_core email product_id st user). Qed.

(** X19. Adding a product that is not in the cart and removing it again gives
    back the cart as it was. *)
Theorem add_then_remove_from_cart (email product_id : string) (quantity : Z)
    (st : Accounts) (user : User.doc) :
  accounts_wf st ->
  find_one (user_by_email email) (user_collection st) = Some user ->
  in_cart product_id (cart_of email st) = false ->
  let st1 := snd (add_to_cart email product_id quantity st) in
  let st2 := snd (remove_from_cart email product_id st1) in
  cart_of email st2 = cart_of email st /\
  forall e, cart_of e st2 = cart_of e st.
Proof.
  intros Hwf Hf Hnot st1 st2.
  destruct (add_to_cart_effect_core email product_id quantity st user Hwf Hf) as [_ Hadd].
  destruct (Hadd Hnot) as (_ & Hcart & Hothers & Hemails). fold st1 in Hcart, Hothers, Hemails.
  assert (Hwf1 : accounts_wf st1).
  { subst st1. unfold add_to_cart, accounts_wf in *. rewrite Hf.
    unfold in_cart, cart_of in Hnot. rewrite Hf in Hnot. rewrite Hnot. simpl.
    rewrite (update_first_map User._id) by reflexivity. exact Hwf. }
  assert (Hf1 : exists user1, find_one (user_by_email email) (user_collection st1) = Some user1).
  { destruct (find_one (user_by_email email) (user_collection st1)) as [u|] eqn:E;
      [now exists u|].
    apply no_user_with_email in E. rewrite Hemails in E. exfalso. apply E.
    apply find_one_some in Hf as [Hin He]. unfold user_by_email in He.
    apply String.eqb_eq in He. rewrite <- He. now apply in_map. }
  destruct Hf1 as [user1 Hf1].
  destruct (remove_from_cart_effect_core email product_id st1 user1 Hwf1 Hf1)
    as (_ & Hrem & _ & Hrest). fold st2 in Hrem, Hrest.
  assert (Hsame : cart_of email st2 = cart_of email st).
  { rewrite Hrem, Hcart, filter_app. simpl. rewrite String.eqb_refl. simpl.
    rewrite app_nil_r. apply forallb_filter_id. apply forallb_forall.
    intros x Hx. unfold in_cart in Hnot.
    destruct (String.eqb (CartItem.product_id x) product_id) eqn:E; [|reflexivity].
    assert (existsb (fun item => String.eqb (CartItem.product_id item) product_id)
              (cart_of email st) = true)
      by (apply existsb_exists; eauto).
    congruence. }
  split; [exact Hsame|]. intros e.
  destruct (String.eqb_spec e email) as [->|Hne]; [exact Hsame|].
  now rewrite Hrest, Hothers.
Qed.

(** X20. Clearing a cart leaves it empty, so that any product can be added to it
    again, and leaves the other carts alone. *)
Theorem clear_cart_effect (email : string) (st : Accounts) (user : User.doc) :
  accounts_wf st ->
  find_one (user_by_email email) (user_collection st) = Some user ->
  let run := clear_cart email st in
  fst run = inr "Cart cleared"%string /\
  cart_of email (snd run) = [] /\
  (forall e, e <> email -> cart_of e (snd run) = cart_of e st).
Proof.
  intros [ND _] Hf run. subst run. unfold clear_cart. rewrite Hf.
  cbn [fst snd]. split; [reflexivity|].
  assert (Hg : forall u, User.email (User.set_cart (Some []) u) = User.email u)
    by reflexivity.
  split.
  - now rewrite (cart_of_after_update _ email email st user ND Hg Hf), String.eqb_refl.
  - intros e He. rewrite (cart_of_after_update _ email e st user ND Hg Hf).
    destruct (String.eqb_spec e email); [contradiction|reflexivity].
Qed.

Section Cart_sequences.

Variable str : oid -> string.
Variable sha256_hexdigest : string -> string.
Variable jwt_encode : string -> Z -> string.

(** X21. Along every sequence of account requests, no cart holds the same product
    twice, provided none does at the start. *)
Theorem carts_stay_without_duplicates (rs : list AccountRequest) (st : Accounts) :
  accounts_wf st ->
  carts_without_duplicates st ->
  Forall carts_without_duplicates (account_trace str sha256_hexdigest jwt_encode rs st).
Proof.
  intros Hwf Hc.
  assert (H : Forall (fun s => accounts_wf s /\ carts_without_duplicates s)
                (account_trace str sha256_hexdigest jwt_encode rs st)).
  { apply account_trace_invariant; [|now split]. clear.
    intros r st [Hwf Hc]. split; [now apply step_accounts_wf|].
    unfold carts_without_duplicates in *. destruct Hwf as [ND _].
    destruct r; simpl; account_cases; try assumption.
    - apply Forall_app. split; [assumption|].
      constructor; [|constructor]. simpl. constructor.
    - apply update_first_Forall_in; [|assumption].
      intros u Hin Hu Hnd. simpl.
      match goal with
      | H : find_one (user_by_email _) _ = Some ?d |- _ =>
          pose proof (find_one_some _ _ _ H) as [Hind _];
          apply (same_user _ _ _ ND Hind Hin) in Hu
      end.
      subst u. unfold cart_or_empty at 1. cbn [User.cart User.set_cart].
      rewrite map_app. simpl. apply NoDup_snoc; [assumption|].
      intros Hp. apply in_map_iff in Hp as (x & Ex & Hx).
      match goal with
      | H : existsb _ _ = false |- _ =>
          assert (E : existsb (fun item => String.eqb (CartItem.product_id item) product_id)
                        (cart_or_empty d) = true);
          [|rewrite E in H; discriminate]
      end.
      apply existsb_exists. exists x. split; [assumption|].
      rewrite Ex. apply String.eqb_refl.
    - apply update_first_Forall; [|assumption].
      intros u _ Hnd. unfold pull_product, cart_or_empty in *. simpl.
      destruct (User.cart u) as [c|]; simpl; [|constructor].
      now apply filtered_cart_NoDup.
    - apply update_first_Forall; [|assumption].
      intros u _ _. simpl. constructor. }
  apply Forall_impl with (2 := H). now intros s [_ Hs].
Qed.

End Cart_sequences.

(** ** Chats *)

Lemma find_one_app {D : Type} (f : D -> bool) (c : list D) (x : D) :
  find_one f (c ++ [x]) =
  match find_one f c with
  | Some d => Some d
  | None => if f x then Some x else None
  end.
Proof.
  induction c as [|d c IH]; simpl; [reflexivity|].
  destruct (f d); [reflexivity|exact IH].
Qed.

Lemma same_chat chats c d :
  NoDup (map Chat._id chats) -> In c chats -> In d chats ->
  chat_by_id (Chat._id c) d = true -> d = c.
Proof.
  intros ND Hc Hd E. unfold chat_by_id in E. apply N.eqb_eq in E.
  now apply (NoDup_map_eq Chat._id chats).
Qed.

(** The messages stored for a user after the update of one chat document. *)
Lemma messages_of_after_update g uid uid' st chat :
  NoDup (map Chat._id (chat_collection st)) ->
  (forall c, Chat.user_id (g c) = Chat.user_id c) ->
  find_one (chat_by_user_id uid) (chat_collection st) = Some chat ->
  messages_of uid'
    (with_chats st (update_first (chat_by_id (Chat._id chat)) g (chat_collection st))) =
  if String.eqb uid' uid then Chat.messages (g chat) else messages_of uid' st.
Proof.
  intros ND Hg Hf. unfold messages_of. simpl.
  pose proof (find_one_some _ _ _ Hf) as [Hin He].
  unfold chat_by_user_id in He. apply String.eqb_eq in He.
  unfold chat_by_id. rewrite (update_first_by_key Chat._id _ _ _ ND).
  rewrite find_one_map_preserving.
  - destruct (String.eqb_spec uid' uid) as [->|Hne].
    + rewrite Hf. simpl. now rewrite N.eqb_refl.
    + destruct (find_one (chat_by_user_id uid') (chat_collection st)) as [c|] eqn:Ec;
        simpl; [|reflexivity].
      destruct (N.eqb (Chat._id c) (Chat._id chat)) eqn:Ei; [|reflexivity].
      apply find_one_some in Ec as [Hc Hce].
      apply (same_chat _ _ _ ND Hin Hc) in Ei. subst c.
      unfold chat_by_user_id in Hce. apply String.eqb_eq in Hce. congruence.
  - intros d. unfold chat_by_user_id.
    destruct (N.eqb (Chat._id d) (Chat._id chat)); [now rewrite Hg|reflexivity].
Qed.

(** The messages stored for a user after a message is pushed to the chat of
    [uid], or a chat opened for it. *)
Lemma messages_of_after_push uid uid' entry st :
  NoDup (map Chat._id (chat_collection st)) ->
  messages_of uid'
    (with_chats st
       (push_or_insert (find_one (chat_by_user_id uid) (chat_collection st))
          uid entry (chat_collection st))) =
  if String.eqb uid' uid then messages_of uid st ++ [entry] else messages_of uid' st.
Proof.
  intros ND. unfold push_or_insert.
  destruct (find_one (chat_by_user_id uid) (chat_collection st)) as [chat|] eqn:Hf.
  - rewrite (messages_of_after_update
               (fun c => Chat.set_messages (Chat.messages c ++ [entry]) c)
               uid uid' st chat ND (fun _ => eq_refl) Hf).
    unfold messages_of at 2. now rewrite Hf.
  - unfold messages_of. simpl. rewrite find_one_app. simpl.
    unfold chat_by_user_id at 2. simpl. rewrite String.eqb_sym.
    destruct (String.eqb_spec uid' uid) as [->|Hne].
    + now rewrite Hf.
    + now destruct (find_one (chat_by_user_id uid') (chat_collection st)).
Qed.

Lemma mark_seen_none who l :
  existsb (unseen_from who) l = false -> mark_seen who l = l.
Proof.
  unfold mark_seen. induction l as [|m l IH]; simpl; [reflexivity|].
  destruct (unseen_from who m); simpl; [discriminate|].
  intros H. now rewrite IH.
Qed.

Lemma unseen_from_set_seen other m :
  unseen_from other (Chat.set_status "seen" m) = false.
Proof.
  unfold unseen_from. simpl. apply andb_false_r.
Qed.

Lemma mark_seen_clears who l : existsb (unseen_from who) (mark_seen who l) = false.
Proof.
  unfold mark_seen. induction l as [|m l IH]; simpl; [reflexivity|].
  destruct (unseen_from who m) eqn:E; simpl.
  - now rewrite unseen_from_set_seen.
  - now rewrite E.
Qed.

Lemma count_unseen_zero who l :
  existsb (unseen_from who) l = false -> count_unseen who l = 0.
Proof.
  unfold count_unseen. induction l as [|m l IH]; simpl; [reflexivity|].
  destruct (unseen_from who m); simpl; [discriminate|exact IH].
Qed.

Lemma count_unseen_app who l1 l2 :
  count_unseen who (l1 ++ l2) = count_unseen who l1 + count_unseen who l2.
Proof.
  unfold count_unseen. rewrite filter_app, length_app. lia.
Qed.

(** Marking the messages of [who] seen changes nothing but a status: each
    message keeps its sender, text, timestamp and product, and a message of
    any other sender is left as it is. *)
Lemma mark_seen_status_only who l :
  Forall2 (fun m m' =>
             Chat.sender m' = Chat.sender m /\ Chat.text m' = Chat.text m /\
             Chat.timestamp m' = Chat.timestamp m /\
             Chat.product_id m' = Chat.product_id m /\
             (Chat.sender m <> who -> m' = m))
          l (mark_seen who l).
Proof.
  unfold mark_seen. induction l as [|m l IH]; simpl; constructor; [|exact IH].
  unfold unseen_from.
  destruct (String.eqb_spec (Chat.sender m) who) as [E|E]; simpl.
  - destruct (String.eqb (Chat.status m) "unseen"); simpl; repeat split;
      intros; contradiction.
  - repeat split.
Qed.

Lemma first_index_some p k l i :
  first_index p k l = Some i ->
  exists before m rest,
    l = before ++ m :: rest /\
    i = k + Z.of_nat (List.length before) /\
    p m = true /\
    Forall (fun x => p x = false) before.
Proof.
  revert k. induction l as [|x l IH]; simpl; intros k H; [discriminate|].
  destruct (p x) eqn:E.
  - injection H as <-. exists [], x, l. simpl. repeat split; auto. lia.
  - apply IH in H as (before & m & rest & -> & -> & Hm & Hb).
    exists (x :: before), m, rest. simpl. repeat split; auto. lia.
Qed.

Lemma first_index_none p k l :
  first_index p k l = None -> Forall (fun x => p x = false) l.
Proof.
  revert k. induction l as [|x l IH]; simpl; intros k H; [constructor|].
  destruct (p x) eqn:E; [discriminate|]. constructor; eauto.
Qed.

Lemma admin_with_username u admins a :
  find_one (admin_by_username u) admins = Some a -> In u (usernames admins).
Proof.
  induction admins as [|b l IH]; simpl; [discriminate|].
  unfold admin_by_username at 1.
  destruct (Admin.username b) as [x|]; [|exact IH].
  destruct (String.eqb_spec x u) as [E|E].
  - intros _. now left.
  - intros H. right. now apply IH.
Qed.

Section Chat_handlers.

Variable str : oid -> string.

Lemma get_messages_effect_core (email : string) (st : Accounts) (user : User.doc) :
  accounts_wf st ->
  find_one (user_by_email email) (user_collection st) = Some user ->
  let uid := str (User._id user) in
  let old := messages_of uid st in
  let run := get_messages str email st in
  fst run = inr (mkMessagesResponse (mark_seen "admin" old) (count_unseen "admin" old)) /\
  messages_of uid (snd run) = mark_seen "admin" old /\
  (forall uid', uid' <> uid -> messages_of uid' (snd run) = messages_of uid' st) /\
  get_messages str email (snd run) =
    (inr (mkMessagesResponse (mark_seen "admin" old) 0), snd run) /\
  Forall2 (fun m m' =>
             Chat.sender m' = Chat.sender m /\ Chat.text m' = Chat.text m /\
             Chat.timestamp m' = Chat.timestamp m /\
             Chat.product_id m' = Chat.product_id m /\
             (Chat.sender m <> "admin"%string -> m' = m))
          old (mark_seen "admin" old).
Proof.
  intros [_ ND] Hf uid old run.
  assert (Second : forall s,
            user_collection s = user_collection st ->
            messages_of uid s = mark_seen "admin" old ->
            get_messages str email s =
              (inr (mkMessagesResponse (mark_seen "admin" old) 0), s)).
  { intros s Hu Hm. unfold get_messages. rewrite Hu, Hf. fold uid.
    unfold messages_of in Hm.
    destruct (find_one (chat_by_user_id uid) (chat_collection s)) as [c|].
    - rewrite Hm. rewrite mark_seen_clears.
      rewrite (mark_seen_none _ _ (mark_seen_clears _ _)).
      now rewrite (count_unseen_zero _ _ (mark_seen_clears _ _)).
    - now rewrite <- Hm. }
  assert (Main : fst run = inr (mkMessagesResponse (mark_seen "admin" old)
                                  (count_unseen "admin" old)) /\
                 messages_of uid (snd run) = mark_seen "admin" old /\
                 (forall uid', uid' <> uid ->
                    messages_of uid' (snd run) = messages_of uid' st) /\
                 user_collection (snd run) = user_collection st).
  { subst run old. unfold get_messages. rewrite Hf. fold uid.
    destruct (find_one (chat_by_user_id uid) (chat_collection st)) as [chat|] eqn:Hc.
    - assert (Hold : messages_of uid st = Chat.messages chat)
        by (unfold messages_of; now rewrite Hc).
      rewrite Hold. cbn [fst snd]. split; [reflexivity|].
      destruct (existsb (unseen_from "admin") (Chat.messages chat)) eqn:E.
      + split; [|split; [|reflexivity]].
        * rewrite (messages_of_after_update
                     (Chat.set_messages (mark_seen "admin" (Chat.messages chat)))
                     uid uid st chat ND (fun _ => eq_refl) Hc).
          now rewrite String.eqb_refl.
        * intros uid' Hne.
          rewrite (messages_of_after_update
                     (Chat.set_messages (mark_seen "admin" (Chat.messages chat)))
                     uid uid' st chat ND (fun _ => eq_refl) Hc).
          destruct (String.eqb_spec uid' uid); [contradiction|reflexivity].
      + split; [|split; [|reflexivity]].
        * rewrite Hold. symmetry. now apply mark_seen_none.
        * reflexivity.
    - assert (Hold : messages_of uid st = [])
        by (unfold messages_of; now rewrite Hc).
      rewrite Hold. cbn [fst snd]. split; [reflexivity|].
      split; [exact Hold|]. split; reflexivity. }
  destruct Main as (H1 & H2 & H3 & H4).
  split; [exact H1|]. split; [exact H2|]. split; [exact H3|].
  split; [now apply Second|]. apply mark_seen_status_only.
Qed.

(** X22. A user reading their messages. The answer holds the stored messages
    with every unseen message of the admin marked seen, and the number of
    those that were unseen; the store then holds the messages as answered,
    and nothing but a status has changed. The chats of other users are left
    alone. Reading again gives the same messages and a count of 0, and
    writes nothing. *)
Theorem get_messages_effect (email : string) (st : Accounts) (user : User.doc) :
  accounts_wf st ->
  find_one (user_by_email email) (user_collection st) = Some user ->
  let uid := str (User._id user) in
  let old := messages_of uid st in
  let run := get_messages str email st in
  fst run = inr (mkMessagesResponse (mark_seen "admin" old) (count_unseen "admin" old)) /\
  messages_of uid (snd run) = mark_seen "admin" old /\
  (forall uid', uid' <> uid -> messages_of uid' (snd run) = messages_of uid' st) /\
  get_messages str email (snd run) =
    (inr (mkMessagesResponse (mark_seen "admin" old) 0), snd run) /\
  Forall2 (fun m m' =>
             Chat.sender m' = Chat.sender m /\ Chat.text m' = Chat.text m /\
             Chat.timestamp m' = Chat.timestamp m /\
             Chat.product_id m' = Chat.product_id m /\
             (Chat.sender m <> "admin"%string -> m' = m))
          old (mark_seen "admin" old).
Proof. exact (get_messages_effect_core email st user). Qed.

(** X23. An admin opening the chat of a user. The answer holds the stored
    messages with every unseen message of the user marked seen, and the index
    of the first of those that were unseen, if any: a message of the user,
    unseen, with no such message before it. The store then holds the messages
    as answered; the chats of other users are left alone. *)
Theorem get_chat_by_email_effect (email : string) (token : Token) (st : Accounts)
    (user : User.doc) :
  not_an_admin token st = false ->
  accounts_wf st ->
  find_one (user_by_email email) (user_collection st) = Some user ->
  let uid := str (User._id user) in
  let old := messages_of uid st in
  let run := get_chat_by_email str email token st in
  exists scroll_to,
    fst run = inr (mkChatResponse (mark_seen "user" old) scroll_to) /\
    match scroll_to with
    | Some i =>
        exists before m rest,
          old = before ++ m :: rest /\
          i = Z.of_nat (List.length before) /\
          unseen_from "user" m = true /\
          Forall (fun x => unseen_from "user" x = false) before
    | None => Forall (fun x => unseen_from "user" x = false) old
    end /\
    messages_of uid (snd run) = mark_seen "user" old /\
    count_unseen "user" (messages_of uid (snd run)) = 0 /\
    (forall uid', uid' <> uid -> messages_of uid' (snd run) = messages_of uid' st).
Proof.
  intros Ha [_ ND] Hf uid old run. subst run old.
  unfold get_chat_by_email. rewrite Ha, Hf. fold uid.
  destruct (find_one (chat_by_user_id uid) (chat_collection st)) as [chat|] eqn:Hc.
  - assert (Hold : messages_of uid st = Chat.messages chat)
      by (unfold messages_of; now rewrite Hc).
    rewrite Hold. cbn [fst snd].
    exists (first_index (unseen_from "user") 0 (Chat.messages chat)).
    split; [reflexivity|]. split; [|split; [|split]].
    + destruct (first_index (unseen_from "user") 0 (Chat.messages chat)) as [i|] eqn:E.
      * apply first_index_some in E as (before & m & rest & E1 & E2 & E3 & E4).
        exists before, m, rest. repeat split; auto.
      * now apply first_index_none in E.
    + rewrite (messages_of_after_update
                 (Chat.set_messages (mark_seen "user" (Chat.messages chat)))
                 uid uid st chat ND (fun _ => eq_refl) Hc).
      now rewrite String.eqb_refl.
    + rewrite (messages_of_after_update
                 (Chat.set_messages (mark_seen "user" (Chat.messages chat)))
                 uid uid st chat ND (fun _ => eq_refl) Hc).
      rewrite String.eqb_refl. simpl.
      apply count_unseen_zero, mark_seen_clears.
    + intros uid' Hne.
      rewrite (messages_of_after_update
                 (Chat.set_messages (mark_seen "user" (Chat.messages chat)))
                 uid uid' st chat ND (fun _ => eq_refl) Hc).
      destruct (String.eqb_spec uid' uid); [contradiction|reflexivity].
  - assert (Hold : messages_of uid st = [])
      by (unfold messages_of; now rewrite Hc).
    rewrite Hold. cbn [fst snd]. exists None.
    split; [reflexivity|]. split; [constructor|].
    split; [exact Hold|]. split; [now rewrite Hold|reflexivity].
Qed.

(** X24. A user sending a message. The message is stored last in the chat of
    the user, which is opened if there is none, from sender "user" and
    unseen, with the product id only when one is given and not empty; the
    answer carries it. The admin has one more unseen message of the user, and
    the chats of other users are left alone. *)
Theorem send_message_effect (data : UserMessage) (now : string) (st : Accounts)
    (user : User.doc) :
  accounts_wf st ->
  find_one (user_by_email (um_email data)) (user_collection st) = Some user ->
  let uid := str (User._id user) in
  let old := messages_of uid st in
  let entry :=
    Chat.mkMessage "user" (um_text data) "unseen" now
      (match um_product_id data with
       | Some EmptyString => None
       | p => p
       end) in
  let run := send_message str data now st in
  fst run = inr (mkSendResponse "Message saved successfully" entry) /\
  messages_of uid (snd run) = old ++ [entry] /\
  count_unseen "user" (messages_of uid (snd run)) = count_unseen "user" old + 1 /\
  count_unseen "admin" (messages_of uid (snd run)) = count_unseen "admin" old /\
  (forall uid', uid' <> uid -> messages_of uid' (snd run) = messages_of uid' st).
Proof.
  intros [_ ND] Hf uid old entry run. subst run.
  unfold send_message. rewrite Hf. fold uid. cbn [fst snd].
  assert (He : Chat.mkMessage "user" (um_text data) "unseen" now
                 (if truthy (um_product_id data) then um_product_id data else None)
               = entry).
  { subst entry. f_equal. destruct (um_product_id data) as [[|c s]|]; reflexivity. }
  rewrite He.
  assert (Hm : messages_of uid
                 (with_chats st
                    (push_or_insert (find_one (chat_by_user_id uid) (chat_collection st))
                       uid entry (chat_collection st))) = old ++ [entry]).
  { rewrite (messages_of_after_push uid uid entry st ND). now rewrite String.eqb_refl. }
  split; [reflexivity|]. split; [exact Hm|]. rewrite Hm, !count_unseen_app.
  split; [reflexivity|]. split; [unfold count_unseen at 2; simpl; lia|].
  intros uid' Hne. rewrite (messages_of_after_push uid uid' entry st ND).
  destruct (String.eqb_spec uid' uid); [contradiction|reflexivity].
Qed.

(** X25. A reply of the admin reaches the user. After [send_reply], the next
    [get_messages] of that user answers with the reply last, marked seen,
    and counts one unseen message more than it would have before the
    reply. *)
Theorem reply_reaches_user (data : AdminReply) (token : Token) (now : string)
    (st : Accounts) (user : User.doc) :
  not_an_admin token st = false ->
  accounts_wf st ->
  find_one (user_by_email (ar_email data)) (user_collection st) = Some user ->
  let uid := str (User._id user) in
  let old := messages_of uid st in
  let entry := Chat.mkMessage "admin" (ar_text data) "unseen" now None in
  let sent := send_reply str data token now st in
  fst sent = inr (mkSendResponse "Reply sent" entry) /\
  messages_of uid (snd sent) = old ++ [entry] /\
  fst (get_messages str (ar_email data) (snd sent)) =
    inr (mkMessagesResponse
           (mark_seen "admin" old ++ [Chat.set_status "seen" entry])
           (count_unseen "admin" old + 1)).
Proof.
  intros Ha Hwf Hf uid old entry sent. subst sent.
  assert (Hwf1 : accounts_wf (snd (send_reply str data token now st))).
  { apply (step_accounts_wf str (fun s => s) (fun s _ => s)
             (SendReply data token now) st Hwf). }
  destruct Hwf as [_ ND].
  unfold send_reply in *. rewrite Ha, Hf in *. fold uid in Hwf1 |- *.
  cbn [fst snd] in *.
  assert (Hm : messages_of uid
                 (with_chats st
                    (push_or_insert (find_one (chat_by_user_id uid) (chat_collection st))
                       uid entry (chat_collection st))) = old ++ [entry]).
  { rewrite (messages_of_after_push uid uid entry st ND). now rewrite String.eqb_refl. }
  split; [reflexivity|]. split; [exact Hm|].
  destruct (get_messages_effect_core (ar_email data) _ user Hwf1 Hf) as (Hg & _).
  unfold uid, old, entry in *. rewrite Hg, Hm. f_equal. f_equal.
  - unfold mark_seen. rewrite map_app. reflexivity.
  - rewrite count_unseen_app. unfold count_unseen at 2. simpl. lia.
Qed.

(** X26. The admin chat routes are open only to a token whose ["sub"] is the
    username of a stored admin: any other token gets 403 "Not an admin",
    before the address is looked up, and nothing is written. *)
Theorem chat_routes_need_an_admin (token : Token) (st : Accounts)
    (email : string) (data : AdminReply) (now : string) :
  (forall requester, sub token = Some requester ->
     requester = EmptyString \/ ~ In requester (usernames (admin_collection st))) ->
  let e := mkHTTPException 403 "Not an admin" in
  get_chat_by_email str email token st = (inl e, st) /\
  send_reply str data token now st = (inl e, st) /\
  clear_chat str email token st = (inl e, st).
Proof.
  intros H e.
  assert (Hn : not_an_admin token st = true).
  { unfold not_an_admin. destruct (sub token) as [requester|]; [|reflexivity].
    destruct (H requester eq_refl) as [->|Hnot]; [reflexivity|].
    destruct (find_one (admin_by_username requester) (admin_collection st))
      as [a|] eqn:E; [|apply orb_true_r].
    exfalso. apply Hnot. now apply admin_with_username in E. }
  unfold get_chat_by_email, send_reply, clear_chat. rewrite Hn. repeat split.
Qed.

Lemma find_one_filter_in {D : Type} (f g : D -> bool) c :
  (forall d, In d c -> f d = true -> g d = true) ->
  find_one f (filter g c) = find_one f c.
Proof.
  induction c as [|d c IH]; simpl; intros H; [reflexivity|].
  destruct (g d) eqn:G; simpl.
  - destruct (f d); [reflexivity|]. apply IH. intros x Hx. apply H. now right.
  - destruct (f d) eqn:F.
    + rewrite (H d (or_introl eq_refl) F) in G. discriminate.
    + apply IH. intros x Hx. apply H. now right.
Qed.

Lemma delete_first_by_key {D : Type} (key : D -> oid) i (c : list D) :
  NoDup (map key c) ->
  delete_first (fun d => N.eqb (key d) i) c =
  filter (fun d => negb (N.eqb (key d) i)) c.
Proof.
  induction c as [|d c IH]; simpl; intros ND; [reflexivity|].
  inversion ND as [|? ? Hnin ND']; subst.
  destruct (N.eqb_spec (key d) i) as [E|E]; simpl.
  - symmetry. apply forallb_filter_id. apply forallb_forall. intros e He.
    destruct (N.eqb_spec (key e) i) as [E'|]; [|reflexivity].
    exfalso. apply Hnin. rewrite E, <- E'. now apply in_map.
  - now rewrite IH.
Qed.

(** X27. An admin clearing the chat of a user: without a chat it raises 404
    "Chat not found" and changes nothing; otherwise the chat document is
    deleted, so that the user has no message left and reads an empty list,
    while the chats of other users are left alone. *)
Theorem clear_chat_effect (email : string) (token : Token) (st : Accounts)
    (user : User.doc) :
  not_an_admin token st = false ->
  accounts_wf st ->
  one_chat_per_user st ->
  find_one (user_by_email email) (user_collection st) = Some user ->
  let uid := str (User._id user) in
  let run := clear_chat str email token st in
  (find_one (chat_by_user_id uid) (chat_collection st) = None ->
   run = (inl (mkHTTPException 404 "Chat not found"), st)) /\
  (find_one (chat_by_user_id uid) (chat_collection st) <> None ->
   fst run = inr "Chat deleted successfully"%string /\
   find_one (chat_by_user_id uid) (chat_collection (snd run)) = None /\
   (forall uid', uid' <> uid -> messages_of uid' (snd run) = messages_of uid' st) /\
   get_messages str email (snd run) = (inr (mkMessagesResponse [] 0), snd run)).
Proof.
  intros Ha [_ ND] Hone Hf uid run. subst run.
  unfold clear_chat. rewrite Ha, Hf. fold uid.
  destruct (find_one (chat_by_user_id uid) (chat_collection st)) as [chat|] eqn:Hc;
    split; try congruence; try reflexivity.
  intros _. cbn [fst snd]. split; [reflexivity|].
  pose proof (find_one_some _ _ _ Hc) as [Hin He].
  unfold chat_by_user_id in He. apply String.eqb_eq in He.
  unfold chat_by_id. rewrite (delete_first_by_key Chat._id _ _ ND).
  assert (Hgone : find_one (chat_by_user_id uid)
                    (filter (fun d => negb (N.eqb (Chat._id d) (Chat._id chat)))
                       (chat_collection st)) = None).
  { destruct (find_one _ (filter _ _)) as [c|] eqn:E; [|reflexivity].
    apply find_one_some in E as [Hc' Hu]. apply filter_In in Hc' as [Hc' Hid].
    unfold chat_by_user_id in Hu. apply String.eqb_eq in Hu.
    assert (c = chat)
      by (apply (NoDup_map_eq Chat.user_id (chat_collection st)); auto; congruence).
    subst c. rewrite N.eqb_refl in Hid. discriminate. }
  split; [exact Hgone|]. split.
  - intros uid' Hne. unfold messages_of. simpl.
    rewrite find_one_filter_in; [reflexivity|].
    intros d Hind Hd. unfold chat_by_user_id in Hd. apply String.eqb_eq in Hd.
    destruct (N.eqb_spec (Chat._id d) (Chat._id chat)) as [E|]; [|reflexivity].
    exfalso. apply Hne.
    assert (d = chat) by (apply (NoDup_map_eq Chat._id (chat_collection st)); auto).
    congruence.
  - unfold get_messages. simpl. rewrite Hf. fold uid. now rewrite Hgone.
Qed.

End Chat_handlers.

(** ** Registration and login *)

Section Registration.

Variable str : oid -> string.
Variable sha256_hexdigest : string -> string.
Variable jwt_encode : string -> Z -> string.

(** X28. Registration of a storefront user never raises. Under an address a user
    is stored for, it answers EXISTS with the stored name, mobile and
    picture, whatever the request carries, and writes nothing. Under a new
    address without a mobile number (none, or empty) it answers NEW_USER and
    writes nothing. Under a new address with a mobile number it stores the
    user and answers CREATED; from then on every registration under that
    address answers EXISTS with the data of the first one. *)
Theorem register_google_user_effect (user : GoogleUser) (now : string)
    (st : Accounts) :
  let run := register_google_user str user now st in
  (forall existing,
     find_one (user_by_email (gu_email user)) (user_collection st) = Some existing ->
     run = (inr (EXISTS "User already exists"
                   (mkUserInfo (str (User._id existing)) (User.name existing)
                      (User.email existing) (User.mobile existing)
                      (User.picture existing))), st)) /\
  (find_one (user_by_email (gu_email user)) (user_collection st) = None ->
   (gu_mobile user = None \/ gu_mobile user = Some EmptyString ->
    run = (inr (NEW_USER "Mobile number required for signup"
                  (gu_email user) (gu_name user) (gu_picture user)), st)) /\
   (forall mobile,
      gu_mobile user = Some mobile -> mobile <> EmptyString ->
      exists id,
        let info := mkUserInfo id (gu_name user) (gu_email user) mobile (gu_picture user) in
        fst run = inr (CREATED "User registered successfully" info) /\
        List.length (user_collection (snd run)) = S (List.length (user_collection st)) /\
        forall again now',
          gu_email again = gu_email user ->
          register_google_user str again now' (snd run) =
          (inr (EXISTS "User already exists" info), snd run))).
Proof.
  intros run. subst run. unfold register_google_user. split.
  - intros existing ->. reflexivity.
  - intros Hn. rewrite Hn. split.
    + intros [-> | ->]; reflexivity.
    + intros mobile Hm Hne. rewrite Hm.
      assert (Ht : truthy (Some mobile) = true).
      { simpl. destruct mobile; [contradiction|reflexivity]. }
      rewrite Ht. cbn [negb fst snd].
      eexists. split; [reflexivity|]. split.
      * simpl. rewrite length_app. simpl. lia.
      * intros again now' He. simpl. rewrite He, find_one_app, Hn.
        unfold user_by_email at 1. simpl. rewrite String.eqb_refl. reflexivity.
Qed.

(** X29. An admin who has registered can log in. After [admin_register] returns,
    a login with the same username and password returns a bearer token for
    that username that expires twelve hours after the login, and a second
    registration of the username raises 400 "Username already exists". *)
Theorem register_then_login (data : AdminRegister) (st st1 : Accounts)
    (r : AdminRegisterResponse) :
  admin_register str sha256_hexdigest data st = (inr r, st1) ->
  (forall now,
     admin_login sha256_hexdigest jwt_encode
       (mkAdminLogin (reg_username data) (reg_password data)) now st1 =
     (inr (mkLoginResponse (jwt_encode (reg_username data) (now + 43200)) "bearer"), st1)) /\
  (forall password,
     admin_register str sha256_hexdigest (mkAdminRegister (reg_username data) password) st1 =
     (inl (mkHTTPException 400 "Username already exists"), st1)).
Proof.
  unfold admin_register.
  destruct (find_one (admin_by_username (reg_username data)) (admin_collection st))
    eqn:Hn; [discriminate|].
  intros H. injection H as <- <-.
  assert (Hf : find_one (admin_by_username (reg_username data))
                 (admin_collection st ++
                  [Admin.mk (fresh_oid (map Admin._id (admin_collection st)))
                     (Some (reg_username data)) None None
                     (hash_password sha256_hexdigest (reg_password data))]) =
               Some (Admin.mk (fresh_oid (map Admin._id (admin_collection st)))
                       (Some (reg_username data)) None None
                       (hash_password sha256_hexdigest (reg_password data)))).
  { rewrite find_one_app, Hn. unfold admin_by_username at 1. simpl.
    now rewrite String.eqb_refl. }
  split.
  - intros now. unfold admin_login. simpl. rewrite Hf. simpl.
    rewrite String.eqb_refl. reflexivity.
  - intros password. simpl. now rewrite Hf.
Qed.

(** X30. A login returns exactly when an admin is stored under the username with
    the hash of the password given. Every failure is the same 401 "Invalid
    username or password", whether the username or the password is wrong,
    and a login never writes to the store. *)
Theorem admin_login_outcomes (data : AdminLogin) (now : Z) (st : Accounts) :
  let run := admin_login sha256_hexdigest jwt_encode data now st in
  snd run = st /\
  ((exists resp, fst run = inr resp) <->
   (exists admin,
      find_one (admin_by_username (login_username data)) (admin_collection st) = Some admin /\
      Admin.password admin = sha256_hexdigest (login_password data))) /\
  (forall e, fst run = inl e ->
             e = mkHTTPException 401 "Invalid username or password").
Proof.
  intros run. subst run. unfold admin_login, hash_password.
  destruct (find_one (admin_by_username (login_username data)) (admin_collection st))
    as [admin|].
  - destruct (String.eqb_spec (Admin.password admin)
                (sha256_hexdigest (login_password data))) as [E|E]; simpl.
    + split; [reflexivity|]. split; [|discriminate].
      split; [intros _; now exists admin|intros _; eauto].
    + split; [reflexivity|]. split.
      * split; [intros [? H]; discriminate|].
        intros (a & Ha & Hp). injection Ha as <-. contradiction.
      * now intros e [= <-].
  - simpl. split; [reflexivity|]. split.
    + split; [intros [? H]; discriminate|intros (a & Ha & _); discriminate].
    + now intros e [= <-].
Qed.

End Registration.

(** * The further properties on the sample stores *)

Lemma add_returns_iff_witness :
  exists r,
    outcome (add_homepage_section hex_ObjectId (mkAdd rings_id [gold_ring_id])
               admin_token) db_12 = inr r.
Proof.
  assert (Hn : fits_int64 (next_s_no (homepage_collection db_12)))
    by fits_concrete.
  apply (add_returns_iff hex_ObjectId (mkAdd rings_id [gold_ring_id])
           admin_token db_12 Hn).
  split; [reflexivity|]. split; [reflexivity|].
  exists 1%N, [161%N]. valid_refs_concrete.
Defined.

Lemma edit_returns_iff_witness :
  (exists r,
     outcome (edit_homepage_section hex_ObjectId 2
                (mkEdit rings_id [gold_ring_id] (Some 9)) admin_token) db_12 = inr r) /\
  ~ (exists r,
       outcome (edit_homepage_section hex_ObjectId 7
                  (mkEdit rings_id [gold_ring_id] (Some 9)) admin_token) db_12 = inr r).
Proof.
  assert (H2 : fits_int64 2) by fits_concrete.
  assert (H7 : fits_int64 7) by fits_concrete.
  assert (H9 : fits_int64 (py_or (Some 9) 2)) by fits_concrete.
  assert (H9' : fits_int64 (py_or (Some 9) 7)) by fits_concrete.
  split.
  - apply (edit_returns_iff hex_ObjectId 2
             (mkEdit rings_id [gold_ring_id] (Some 9)) admin_token db_12 H2 H9).
    split; [reflexivity|]. split.
    + exists 1%N, [161%N]. valid_refs_concrete.
    + eexists. reflexivity.
  - intros H.
    apply (edit_returns_iff hex_ObjectId 7
             (mkEdit rings_id [gold_ring_id] (Some 9)) admin_token db_12 H7 H9') in H.
    destruct H as (_ & _ & cur & Hcur). discriminate.
Defined.

Lemma unauthorized_requests_rejected_witness :
  add_homepage_section hex_ObjectId (mkAdd rings_id [gold_ring_id])
    (mkToken (Some EmptyString)) db_full =
    (inl (mkHTTPException 401 "Unauthorized"), db_full) /\
  list_homepage_sections hex_str (mkToken None) db_full =
    (inl (mkHTTPException 401 "Unauthorized"), db_full).
Proof.
  split.
  - exact (proj1 (unauthorized_requests_rejected hex_ObjectId hex_str
                    (mkToken (Some EmptyString)) db_full
                    (mkAdd rings_id [gold_ring_id]) 1 (mkEdit rings_id [] None)
                    eq_refl)).
  - exact (proj2 (proj2 (proj2
             (unauthorized_requests_rejected hex_ObjectId hex_str
                (mkToken None) db_full
                (mkAdd rings_id [gold_ring_id]) 1 (mkEdit rings_id [] None)
                eq_refl)))).
Defined.

Lemma add_validation_errors_witness :
  add_homepage_section hex_ObjectId
    (mkAdd rings_id [gold_ring_id; "zzz"%string; silver_ring_id]) admin_token db_12 =
  (inl (mkHTTPException 400 "Invalid product id: zzz"), db_12).
Proof.
  destruct (add_validation_errors hex_ObjectId
              (mkAdd rings_id [gold_ring_id; "zzz"%string; silver_ring_id])
              admin_token db_12 eq_refl eq_refl) as [_ H].
  destruct (H 1%N eq_refl) as [_ H1].
  assert (Hcat : find_one (cat_by_id 1%N) (category_collection db_12) <> None)
    by (vm_compute; discriminate).
  destruct (H1 Hcat) as (_ & _ & H3).
  apply (H3 [gold_ring_id] "zzz"%string [silver_ring_id] eq_refl).
  - simpl. lia.
  - constructor; [vm_compute; discriminate|constructor].
  - reflexivity.
Defined.

Lemma edit_validates_like_add_witness :
  edit_homepage_section hex_ObjectId 7 (mkEdit "not-an-id" [] (Some 2)) admin_token db_12 =
  (inl (mkHTTPException 400 "Invalid category_id"), db_12).
Proof.
  assert (Hn : fits_int64 (next_s_no (homepage_collection db_12)))
    by fits_concrete.
  assert (H7 : fits_int64 7) by fits_concrete.
  assert (H2 : fits_int64 (py_or (Some 2) 7)) by fits_concrete.
  exact (proj1 (edit_validates_like_add hex_ObjectId "not-an-id" [] (Some 2) 7
                  admin_token db_12 eq_refl eq_refl Hn H7 H2)
           (mkHTTPException 400 "Invalid category_id") eq_refl).
Defined.

Lemma edit_relocates_witness :
  let m := edit_homepage_section hex_ObjectId 1
             (mkEdit chains_id [silver_ring_id] (Some 5)) admin_token in
  section_at 5 (after m db_123) = Some (Homepage.mk 11%N 5 2%N [162%N]) /\
  section_at 1 (after m db_123) = None /\
  section_at 2 (after m db_123) = section_at 2 db_123.
Proof.
  intros m.
  assert (Hv : valid_refs hex_ObjectId db_123 chains_id [silver_ring_id] 2%N [162%N])
    by valid_refs_concrete.
  assert (Hi : wf_ids db_123) by nodup_concrete.
  assert (Hs : distinct_positions db_123) by nodup_concrete.
  destruct (edit_relocates hex_ObjectId 1
              (mkEdit chains_id [silver_ring_id] (Some 5)) admin_token db_123
              2%N [162%N] (Homepage.mk 11%N 1 1%N [161%N])
              eq_refl Hv eq_refl Hi Hs) as (_ & H1 & H2 & H3 & _).
  split; [exact H1|]. split.
  - apply H2. discriminate.
  - apply H3; discriminate.
Defined.

Lemma edit_there_and_back_witness :
  let db1 := after (edit_homepage_section hex_ObjectId 1
                      (mkEdit rings_id [silver_ring_id] (Some 3)) admin_token) db_123 in
  homepage_collection
    (after (edit_homepage_section hex_ObjectId 3
              (mkEdit rings_id [gold_ring_id] (Some 1)) admin_token) db1) =
  homepage_collection db_123.
Proof.
  intros db1.
  assert (Hv1 : valid_refs hex_ObjectId db_123 rings_id [silver_ring_id] 1%N [162%N])
    by valid_refs_concrete.
  assert (Hv2 : valid_refs hex_ObjectId db_123 rings_id [gold_ring_id] 1%N [161%N])
    by valid_refs_concrete.
  assert (Hi : wf_ids db_123) by nodup_concrete.
  assert (Hs : distinct_positions db_123) by nodup_concrete.
  assert (H1 : (1 <> 0)%Z) by discriminate.
  assert (H3 : (3 <> 0)%Z) by discriminate.
  assert (F1 : fits_int64 1) by fits_concrete.
  assert (F3 : fits_int64 3) by fits_concrete.
  destruct (edit_there_and_back hex_ObjectId 1 3
              (mkEdit rings_id [silver_ring_id] (Some 3))
              (mkEdit rings_id [gold_ring_id] (Some 1))
              admin_token db_123 1%N 1%N [162%N] [161%N]
              (Homepage.mk 11%N 1 1%N [161%N])
              eq_refl H1 H3 F1 F3 eq_refl eq_refl Hv1 Hv2 eq_refl Hi Hs) as [_ H].
  exact H.
Defined.

Lemma swap_stages_distinct_witness :
  let c := homepage_collection db_123 in
  let cur := Homepage.mk 11%N 1 1%N [161%N] in
  let oth := Homepage.mk 13%N 3 2%N [161%N; 162%N] in
  map Homepage.s_no (swap_step1 oth c) = [2; -1; 1] /\
  NoDup (map Homepage.s_no (swap_step1 oth c)) /\
  map Homepage.s_no (swap_step2 3 1%N [162%N] cur oth c) = [2; -1; 3] /\
  NoDup (map Homepage.s_no (swap_step2 3 1%N [162%N] cur oth c)).
Proof.
  intros c cur oth.
  assert (Hv : valid_refs hex_ObjectId db_123 rings_id [silver_ring_id] 1%N [162%N])
    by valid_refs_concrete.
  assert (Hi : wf_ids db_123) by nodup_concrete.
  assert (Hs : distinct_positions db_123) by nodup_concrete.
  assert (Hne : py_or (Some 3) 1 <> 1) by discriminate.
  assert (Hfree : ~ In (-1) (positions db_123))
    by (vm_compute; intuition discriminate).
  destruct (swap_stages_distinct hex_ObjectId 1
              (mkEdit rings_id [silver_ring_id] (Some 3)) admin_token db_123
              1%N [162%N] cur oth
              eq_refl Hv Hne eq_refl eq_refl Hi Hs Hfree) as (N1 & N2 & _).
  split; [reflexivity|]. split; [exact N1|]. split; [reflexivity|exact N2].
Defined.

Lemma stored_products_bounded_witness :
  Forall products_bounded (trace hex_ObjectId sample_requests db_123).
Proof.
  apply stored_products_bounded.
  unfold products_bounded. repeat constructor; simpl; lia.
Defined.

Lemma add_then_delete_witness :
  let data := mkAdd chains_id [gold_ring_id] in
  delete_homepage_section 3 admin_token
    (after (add_homepage_section hex_ObjectId data admin_token) db_12) =
  (inr "Homepage section deleted successfully"%string, db_12).
Proof.
  intros data.
  exact (add_then_delete hex_ObjectId data admin_token db_12
           (after (add_homepage_section hex_ObjectId data admin_token) db_12)
           (mkAddResponse "Homepage section added" 3) eq_refl).
Defined.


Lemma deleted_last_position_is_reused_witness :
  let db1 := after (delete_homepage_section 3 admin_token) db_123 in
  exists q,
    outcome (add_homepage_section hex_ObjectId (mkAdd rings_id [gold_ring_id])
               admin_token) db1 =
      inr (mkAddResponse "Homepage section added" q) /\
    q <= 3 /\ (In (3 - 1) (positions db_123) -> q = 3).
Proof.
  assert (Hv : valid_refs hex_ObjectId db_123 rings_id [gold_ring_id] 1%N [161%N])
    by valid_refs_concrete.
  assert (Hc : count_documents (homepage_collection db_123) <= 4)
    by (vm_compute; discriminate).
  assert (Hs : distinct_positions db_123) by nodup_concrete.
  assert (Hp : 1 <= 3) by lia.
  assert (Hmax : forall x, In x (positions db_123) -> x <= 3).
  { intros x H. vm_compute in H. destruct H as [<-|[<-|[<-|[]]]]; lia. }
  exact (deleted_last_position_is_reused hex_ObjectId 3
           (mkAdd rings_id [gold_ring_id]) admin_token db_123 1%N [161%N]
           (Homepage.mk 13%N 3 2%N [161%N; 162%N])
           eq_refl Hv Hc Hs eq_refl Hp Hmax).
Defined.

Lemma sample_accounts_wf : accounts_wf sample_accounts.
Proof. split; nodup_concrete. Defined.

Lemma emails_stay_distinct_witness :
  Forall emails_distinct
    (account_trace hex_str sample_digest sample_jwt sample_account_requests
       sample_accounts).
Proof.
  apply emails_stay_distinct. unfold emails_distinct. nodup_concrete.
Defined.

Lemma one_chat_per_user_kept_witness :
  Forall one_chat_per_user
    (account_trace hex_str sample_digest sample_jwt sample_account_requests
       sample_accounts).
Proof.
  apply one_chat_per_user_kept. unfold one_chat_per_user. nodup_concrete.
Defined.

Lemma usernames_stay_distinct_witness :
  Forall usernames_distinct
    (account_trace hex_str sample_digest sample_jwt sample_account_requests
       sample_accounts).
Proof.
  apply usernames_stay_distinct. unfold usernames_distinct. nodup_concrete.
Defined.

Lemma carts_stay_without_duplicates_witness :
  Forall carts_without_duplicates
    (account_trace hex_str sample_digest sample_jwt sample_account_requests
       sample_accounts).
Proof.
  apply carts_stay_without_duplicates.
  - exact sample_accounts_wf.
  - unfold carts_without_duplicates. repeat constructor; simpl; intuition.
Defined.


Lemma remove_from_cart_effect_witness :
  let run := remove_from_cart alice_email gold_ring_id sample_accounts in
  fst run = inr "Removed from cart"%string /\
  cart_of alice_email (snd run) = [].
Proof.
  intros run.
  destruct (remove_from_cart_effect alice_email gold_ring_id sample_accounts
              alice sample_accounts_wf eq_refl) as (H1 & H2 & _).
  split; [exact H1|exact H2].
Defined.

Lemma add_then_remove_from_cart_witness :
  let st1 := snd (add_to_cart alice_email silver_ring_id 3 sample_accounts) in
  let st2 := snd (remove_from_cart alice_email silver_ring_id st1) in
  cart_of alice_email st2 = [CartItem.mk gold_ring_id 2].
Proof.
  exact (proj1 (add_then_remove_from_cart alice_email silver_ring_id 3
                  sample_accounts alice sample_accounts_wf eq_refl eq_refl)).
Defined.

Lemma clear_cart_effect_witness :
  let run := clear_cart alice_email sample_accounts in
  cart_of alice_email (snd run) = [] /\
  cart_of bob_email (snd run) = cart_of bob_email sample_accounts.
Proof.
  intros run.
  destruct (clear_cart_effect alice_email sample_accounts alice
              sample_accounts_wf eq_refl) as (_ & H1 & H2).
  split; [exact H1|]. apply H2. discriminate.
Defined.

Lemma get_messages_effect_witness :
  let run := get_messages hex_str alice_email sample_accounts in
  fst run =
    inr (mkMessagesResponse
           [ Chat.mkMessage "user" "Is the gold ring in stock?" "seen"
               "2025-01-05T10:00:00" (Some gold_ring_id);
             Chat.mkMessage "admin" "Yes, two are left." "seen"
               "2025-01-05T10:05:00" None;
             Chat.mkMessage "user" "Great, thanks." "unseen"
               "2025-01-05T10:06:00" None ]
           1) /\
  fst (get_messages hex_str alice_email (snd run)) =
    inr (mkMessagesResponse
           (mark_seen "admin" (messages_of (hex_str 21%N) sample_accounts)) 0).
Proof.
  intros run.
  destruct (get_messages_effect hex_str alice_email sample_accounts alice
              sample_accounts_wf eq_refl) as (H1 & _ & _ & H2 & _).
  split; [exact H1|]. fold run in H2. now rewrite H2.
Defined.

Lemma get_chat_by_email_effect_witness :
  let run := get_chat_by_email hex_str alice_email admin_token sample_accounts in
  exists scroll_to,
    fst run =
      inr (mkChatResponse
             (mark_seen "user" (messages_of (hex_str 21%N) sample_accounts))
             scroll_to) /\
    count_unseen "user" (messages_of (hex_str 21%N) (snd run)) = 0.
Proof.
  intros run.
  destruct (get_chat_by_email_effect hex_str alice_email admin_token
              sample_accounts alice eq_refl sample_accounts_wf eq_refl)
    as (scroll_to & H1 & _ & _ & H2 & _).
  exists scroll_to. split; [exact H1|exact H2].
Defined.

Lemma send_message_effect_witness :
  let data := mkUserMessage bob_email "Hello" (Some EmptyString) in
  let run := send_message hex_str data "2025-01-06T08:02:00" sample_accounts in
  messages_of (hex_str 22%N) (snd run) =
    [Chat.mkMessage "user" "Hello" "unseen" "2025-01-06T08:02:00" None] /\
  messages_of (hex_str 21%N) (snd run) = sample_messages.
Proof.
  intros data run.
  destruct (send_message_effect hex_str data "2025-01-06T08:02:00"
              sample_accounts bob sample_accounts_wf eq_refl)
    as (_ & H1 & _ & _ & H2).
  split; [exact H1|]. apply (H2 (hex_str 21%N)). vm_compute. discriminate.
Defined.

Lemma reply_reaches_user_witness :
  let data := mkAdminReply alice_email "It ships tomorrow." in
  let sent := send_reply hex_str data admin_token "2025-01-06T09:00:00" sample_accounts in
  fst (get_messages hex_str alice_email (snd sent)) =
    inr (mkMessagesResponse
           (mark_seen "admin" sample_messages ++
            [Chat.mkMessage "admin" "It ships tomorrow." "seen"
               "2025-01-06T09:00:00" None])
           2).
Proof.
  intros data sent.
  exact (proj2 (proj2 (reply_reaches_user hex_str data admin_token
                         "2025-01-06T09:00:00" sample_accounts alice
                         eq_refl sample_accounts_wf eq_refl))).
Defined.

Lemma chat_routes_need_an_admin_witness :
  let token := mkToken (Some "Nihal"%string) in
  clear_chat hex_str alice_email token sample_accounts =
  (inl (mkHTTPException 403 "Not an admin"), sample_accounts).
Proof.
  intros token.
  assert (H : forall requester, sub token = Some requester ->
                requester = EmptyString \/
                ~ In requester (usernames (admin_collection sample_accounts))).
  { intros requester [= <-]. right. vm_compute. intuition discriminate. }
  exact (proj2 (proj2 (chat_routes_need_an_admin hex_str token sample_accounts
                         alice_email (mkAdminReply alice_email "x") "t" H))).
Defined.

Lemma clear_chat_effect_witness :
  let run := clear_chat hex_str alice_email admin_token sample_accounts in
  fst run = inr "Chat deleted successfully"%string /\
  get_messages hex_str alice_email (snd run) =
    (inr (mkMessagesResponse [] 0), snd run) /\
  clear_chat hex_str bob_email admin_token sample_accounts =
    (inl (mkHTTPException 404 "Chat not found"), sample_accounts).
Proof.
  intros run.
  assert (Hone : one_chat_per_user sample_accounts) by nodup_concrete.
  destruct (clear_chat_effect hex_str alice_email admin_token sample_accounts
              alice eq_refl sample_accounts_wf Hone eq_refl) as [_ H].
  assert (Hc : find_one (chat_by_user_id (hex_str (User._id alice)))
                 (chat_collection sample_accounts) <> None)
    by (vm_compute; discriminate).
  destruct (H Hc) as (H1 & _ & _ & H2).
  split; [exact H1|]. split; [exact H2|].
  exact (proj1 (clear_chat_effect hex_str bob_email admin_token sample_accounts
                  bob eq_refl sample_accounts_wf Hone eq_refl) eq_refl).
Defined.

Lemma register_then_login_witness :
  let st1 := snd (admin_register hex_str sample_digest
                    (mkAdminRegister "second" "pw2") sample_accounts) in
  admin_login sample_digest sample_jwt (mkAdminLogin "second" "pw2") 1736150400 st1 =
  (inr (mkLoginResponse "jwt:second" "bearer"), st1).
Proof.
  intros st1.
  exact (proj1 (register_then_login hex_str sample_digest sample_jwt
                  (mkAdminRegister "second" "pw2") sample_accounts st1
                  (mkAdminRegisterResponse "Admin registered successfully"
                     (hex_str 3%N))
                  eq_refl)
           1736150400).
Defined.
